(** * net-emu: the trace-driven bandwidth and latency controller

    A shallow embedding of [bandwidth_control.py] and the properties of its
    scheduler, qdisc controller and cleanup path.

    The script talks to the outside world through a handful of primitives:
    [print], [subprocess.run], [time.time], [time.sleep], [open] with
    [csv.reader], and the delivery of SIGINT / SIGTERM.  They are modelled by
    an explicit world (clock, the module global [target_interface], the log
    of observable effects) and by an environment that answers for the
    outside: the results of the external commands, the contents of the trace
    file, how long each primitive takes, and when a signal arrives.  Python
    exceptions are modelled by an outcome type threaded through a state and
    error monad.

    Scope of the model.  Time stamps are rationals: the rounding of binary
    floating point and the non-finite values that [float()] also accepts are
    outside the model, and [time.sleep] takes any positive duration.  The
    built-ins [float()] and [int()] belong to the environment.  Strings are
    sequences of one-byte characters, so the text methods ([strip], [lower])
    follow Python on ASCII text.  The trace file is seen through
    [csv.reader], as rows of fields.  At most one signal is delivered per
    run, and only after the handlers are registered. *)

From Stdlib Require Import String Ascii List ZArith QArith Bool Lia Lqa.
From Stdlib Require Import DecimalString.
Import ListNotations.

Local Open Scope list_scope.
Local Open Scope string_scope.

(* ===================================================================== *)
(** * Python text built-ins used by the script *)
(* ===================================================================== *)

Module PyStr.

(** The ASCII characters [str.strip()] removes: tab, line feed, vertical
    tab, form feed, carriage return, the four separators 0x1c-0x1f and
    space. *)
Definition is_space (c : ascii) : bool :=
  let n := N_of_ascii c in
  (((9 <=? n) && (n <=? 13)) || ((28 <=? n) && (n <=? 32)))%N.

(** [s.lstrip()] *)
Fixpoint lstrip (s : string) : string :=
  match s with
  | String c s' => if is_space c then lstrip s' else s
  | EmptyString => EmptyString
  end.

(** [s.rstrip()] *)
Fixpoint rstrip (s : string) : string :=
  match s with
  | String c s' =>
      match rstrip s' with
      | EmptyString => if is_space c then EmptyString else String c EmptyString
      | t => String c t
      end
  | EmptyString => EmptyString
  end.

(** [s.strip()] *)
Definition strip (s : string) : string := rstrip (lstrip s).

(** [s.startswith(p)] *)
Definition startswith (s p : string) : bool := String.prefix p s.

Definition lower_char (c : ascii) : ascii :=
  let n := N_of_ascii c in
  if ((65 <=? n) && (n <=? 90))%N then ascii_of_N (n + 32) else c.

(** [s.lower()] *)
Fixpoint lower (s : string) : string :=
  match s with
  | String c s' => String (lower_char c) (lower s')
  | EmptyString => EmptyString
  end.

(** [sub in s] *)
Fixpoint contains (sub s : string) : bool :=
  String.prefix sub s ||
  match s with
  | String _ s' => contains sub s'
  | EmptyString => false
  end.

(** [str(n)] for an [int]. *)
Definition of_int (n : Z) : string := NilZero.string_of_int (Z.to_int n).

End PyStr.

(* ===================================================================== *)
(** * Exceptions, messages and observable events *)
(* ===================================================================== *)

(** The subclasses of [Exception] that can travel through the script. *)
Inductive exception : Type :=
| FileNotFoundError
| IndexError
| OtherException (name : string).

(** What a statement can raise: [SystemExit] is a [BaseException] that
    [except Exception] does not catch. *)
Inductive exn : Type :=
| SystemExit (code : Z)
| Exc (e : exception).

(** One constructor per [print] call of the script, with the values it
    interpolates. *)
Inductive message : Type :=
| MsgExecuting (full_command : string)     (* run_tc_command, line 25 *)
| MsgTcWarning (command : string)          (* line 31 *)
| MsgReturnCode (returncode : Z)           (* line 32 *)
| MsgStderr (stderr : string)              (* line 33 *)
| MsgStdout (stdout : string)              (* line 34 *)
| MsgCritical (e : exception)              (* line 41 *)
| MsgCleaningUp (interface : string)       (* cleanup_tc, line 55 *)
| MsgCleanupSuccessful                     (* line 59 *)
| MsgCleanupFailed (e : exception)         (* line 61 *)
| MsgInitialSetup (interface : string) (rate_kbit : Z) (latency_ms : string) (* line 97 *)
| MsgChanged (interface : string) (rate_kbit : Z)                            (* line 111 *)
| MsgUsage                                 (* line 117 *)
| MsgExample                               (* line 118 *)
| MsgStarting (interface : string)         (* line 130 *)
| MsgUsingTrace (trace_file : string)      (* line 131 *)
| MsgApplyingLatency (latency : string)    (* line 132 *)
| MsgTraceEmpty                            (* line 150 *)
| MsgSkipping (row : list string)          (* line 161 *)
| MsgSleeping (sleep_duration : Q)         (* line 170 *)
| MsgEndOfTrace                            (* line 174 *)
| MsgTraceNotFound (trace_file : string)   (* line 188 *)
| MsgUnexpected (e : exception).           (* line 191 *)

(** The effects of a run that an observer can see, in order. *)
Inductive event : Type :=
| Printed (m : message)
| Executed (full_command : string)     (* one call of subprocess.run *)
| Slept (seconds : Q)                  (* one call of time.sleep *)
| Opened (path : string).              (* one call of open *)

(* ===================================================================== *)
(** * The environment and the world *)
(* ===================================================================== *)

(** Result of [subprocess.run(..., shell=True, capture_output=True)]: the
    process ran and left a return code and its two streams, or it could not
    be started and an exception came out of the call. *)
Inductive proc_result : Type :=
| Completed (returncode : Z) (stdout stderr : string)
| SpawnFailed (e : exception).

(** Result of [open(trace_file)] followed by [list(csv.reader(f))]: the rows
    of the file, each a list of fields (a blank line is the empty list). *)
Inductive file_result : Type :=
| NoSuchFile
| Unreadable (e : exception)
| Rows (all_rows : list (list string)).

(** Everything the run depends on and does not control.  Primitive
    operations are numbered in the order they are performed ([tick]). *)
Record Env : Type := {
  py_float : string -> option Q;            (* float(s); None is ValueError *)
  py_int : string -> option Z;              (* int(s); None is ValueError *)
  subprocess_run : nat -> string -> proc_result;
  open_csv : string -> file_result;
  elapsed : nat -> Q;                       (* duration of each primitive *)
  signal_at : option nat                    (* SIGINT/SIGTERM before that primitive *)
}.

Record World : Type := {
  tick : nat;                               (* primitives performed so far *)
  clock : Q;                                (* wall-clock time, seconds *)
  target_interface : option string;         (* the module global, line 19 *)
  log : list event
}.

Definition initial_world (t0 : Q) : World :=
  {| tick := 0; clock := t0; target_interface := None; log := [] |}.

(** The commands handed to the shell, in order. *)
Fixpoint commands (l : list event) : list string :=
  match l with
  | Executed c :: l' => c :: commands l'
  | _ :: l' => commands l'
  | [] => []
  end.

(** The durations handed to [time.sleep], in order. *)
Fixpoint sleeps (l : list event) : list Q :=
  match l with
  | Slept d :: l' => d :: sleeps l'
  | _ :: l' => sleeps l'
  | [] => []
  end.

(** The messages printed, in order. *)
Fixpoint printed (l : list event) : list message :=
  match l with
  | Printed m :: l' => m :: printed l'
  | _ :: l' => printed l'
  | [] => []
  end.

(* ===================================================================== *)
(** * A state and exception monad for Python statements *)
(* ===================================================================== *)

Inductive outcome (A : Type) : Type :=
| Returned (a : A)
| Raised (e : exn).
Arguments Returned {A} a.
Arguments Raised {A} e.

Definition M (A : Type) : Type := World -> outcome A * World.

Definition ret {A} (a : A) : M A := fun w => (Returned a, w).

Definition bind {A B} (m : M A) (k : A -> M B) : M B :=
  fun w =>
    match m w with
    | (Returned a, w') => k a w'
    | (Raised e, w') => (Raised e, w')
    end.

Definition raise {A} (e : exn) : M A := fun w => (Raised e, w).

Declare Scope py_scope.
Delimit Scope py_scope with py.
Notation "x <- m ;; k" := (bind m (fun x => k))
  (at level 61, m at next level, right associativity) : py_scope.
Notation "m ;; k" := (bind m (fun _ => k))
  (at level 61, right associativity) : py_scope.
Local Open Scope py_scope.

(** [sys.exit(code)] *)
Definition sys_exit {A} (code : Z) : M A := raise (SystemExit code).

(** [try: body  except Exception as e: handler e] *)
Definition try_except_Exception {A} (body : M A) (handler : exception -> M A) : M A :=
  fun w =>
    match body w with
    | (Raised (Exc e), w') => handler e w'
    | r => r
    end.

(** [try: body  finally: final].  An exception raised by [final] replaces
    whatever [body] was propagating. *)
Definition try_finally {A} (body : M A) (final : M unit) : M A :=
  fun w =>
    match body w with
    | (r, w') =>
        match final w' with
        | (Returned _, w'') => (r, w'')
        | (Raised e, w'') => (Raised e, w'')
        end
    end.

(** Exit status of the interpreter once the script's top level is done. *)
Definition exit_status {A} (r : outcome A) : Z :=
  match r with
  | Returned _ => 0
  | Raised (SystemExit code) => code
  | Raised (Exc _) => 1
  end.

(** Truth value of [target_interface] in [if target_interface:]: [None] and
    the empty string are false. *)
Definition truthy (t : option string) : bool :=
  match t with
  | Some s => negb (s =? "")
  | None => false
  end.

Definition Qpositive (d : Q) : bool := (0 <? Qnum d)%Z.

(* ===================================================================== *)
(** * bandwidth_control.py *)
(* ===================================================================== *)

Definition DEFAULT_LATENCY_MS : string := "50ms".
Definition DEFAULT_BURST_BYTES : Z := 15000.

Section Program.

Variable env : Env.

(** ** Primitives *)

(** Performing one primitive: it takes its slot, its time, and leaves its
    trace in the log. *)
Definition perform (e : event) (extra : Q) (w : World) : World :=
  {| tick := S (tick w);
     clock := clock w + extra + elapsed env (tick w);
     target_interface := target_interface w;
     log := (log w ++ [e])%list |}.

Definition get_target : M (option string) :=
  fun w => (Returned (target_interface w), w).

Definition set_target (i : string) : M unit :=
  fun w => (Returned tt,
            {| tick := tick w; clock := clock w;
               target_interface := Some i; log := log w |}).

(** [time.time()] *)
Definition time_time : M Q := fun w => (Returned (clock w), w).

Section Interruptible.

(** What happens just before a primitive: nothing, or the delivery of a
    signal to the registered handler. *)
Variable chk : M unit.

Definition print (m : message) : M unit :=
  chk ;; fun w => (Returned tt, perform (Printed m) 0 w).

(** [time.sleep(seconds)] *)
Definition time_sleep (seconds : Q) : M unit :=
  chk ;; fun w => (Returned tt, perform (Slept seconds) seconds w).

(** [subprocess.run(full_command, shell=True, capture_output=True, text=True)] *)
Definition subprocess_run_shell (full_command : string) : M (Z * string * string) :=
  chk ;;
  fun w =>
    let w' := perform (Executed full_command) 0 w in
    match subprocess_run env (tick w) full_command with
    | Completed rc out err => (Returned (rc, out, err), w')
    | SpawnFailed e => (Raised (Exc e), w')
    end.

(** [open(trace_file)] and [list(csv.reader(f))] *)
Definition read_all_rows (trace_file : string) : M (list (list string)) :=
  chk ;;
  fun w =>
    let w' := perform (Opened trace_file) 0 w in
    match open_csv env trace_file with
    | NoSuchFile => (Raised (Exc FileNotFoundError), w')
    | Unreadable e => (Raised (Exc e), w')
    | Rows all_rows => (Returned all_rows, w')
    end.

(** ** run_tc_command (lines 22-42) *)
Definition run_tc_command (command : string) : M unit :=
  let full_command := "sudo tc " ++ command in
  print (MsgExecuting full_command) ;;
  try_except_Exception
    (result <- subprocess_run_shell full_command ;;
     let '(returncode, stdout, stderr) := result in
     if negb (returncode =? 0)%Z then
       print (MsgTcWarning command) ;;
       print (MsgReturnCode returncode) ;;
       print (MsgStderr stderr) ;;
       print (MsgStdout stdout) ;;
       if PyStr.contains "delete" command &&
          (PyStr.contains "RTNETLINK answers: No such file or directory" stderr ||
           PyStr.contains "Cannot find device" stderr)
       then ret tt   (* pass *)
       else ret tt
     else ret tt)
    (fun e => print (MsgCritical e) ;; raise (Exc e)).

(** ** cleanup_tc (lines 45-62) *)
Definition cleanup_tc : M unit :=
  target <- get_target ;;
  (if truthy target then
     let target_interface := match target with Some i => i | None => "" end in
     print (MsgCleaningUp target_interface) ;;
     try_except_Exception
       (run_tc_command ("qdisc del dev " ++ target_interface ++ " root") ;;
        print MsgCleanupSuccessful)
       (fun e => print (MsgCleanupFailed e))
   else ret tt) ;;
  sys_exit 0.

(** ** apply_bandwidth_latency (lines 65-97) *)
Definition apply_bandwidth_latency (interface : string) (rate_kbps : Z)
    (latency_ms : string) : M unit :=
  set_target interface ;;
  let rate_kbit := rate_kbps in
  let burst_bytes := DEFAULT_BURST_BYTES in
  run_tc_command ("qdisc del dev " ++ interface ++ " root") ;;
  time_sleep (1 # 10) ;;
  run_tc_command ("qdisc add dev " ++ interface ++ " root handle 1: htb default 10") ;;
  run_tc_command ("class add dev " ++ interface ++ " parent 1: classid 1:1 htb rate "
                  ++ PyStr.of_int rate_kbit ++ "kbit burst " ++ PyStr.of_int burst_bytes) ;;
  run_tc_command ("qdisc add dev " ++ interface ++ " parent 1:1 handle 10: netem delay "
                  ++ latency_ms) ;;
  run_tc_command ("filter add dev " ++ interface ++
                  " parent 1: protocol ip prio 1 u32 match ip src 0.0.0.0/0 match ip dst "
                  ++ "0.0.0.0/0 flowid 1:1") ;;
  print (MsgInitialSetup interface rate_kbit latency_ms).

(** ** change_bandwidth (lines 100-111) *)
Definition change_bandwidth (interface : string) (rate_kbps : Z) : M unit :=
  let rate_kbit := rate_kbps in
  let burst_bytes := DEFAULT_BURST_BYTES in
  run_tc_command ("class change dev " ++ interface ++ " parent 1: classid 1:1 htb rate "
                  ++ PyStr.of_int rate_kbit ++ "kbit burst " ++ PyStr.of_int burst_bytes) ;;
  print (MsgChanged interface rate_kbit).

(** ** The trace reader and the scheduler (lines 138-185) *)

(** Line 144: is the first field of the first row a header mark? *)
Definition is_header_field (field : string) : bool :=
  PyStr.startswith (PyStr.strip field) "#" ||
  (PyStr.lower (PyStr.strip field) =? "time (s)").

(** Lines 144-147, as a function of the rows read.  [None] stands for
    the [IndexError] that [all_rows[0][0]] raises when the first row has
    no field, which is what [csv.reader] yields for a blank line. *)
Definition rows_to_process (all_rows : list (list string)) : option (list (list string)) :=
  match all_rows with
  | [] => Some all_rows
  | [] :: _ => None
  | (field0 :: _) :: rest =>
      if is_header_field field0 then Some rest else Some all_rows
  end.

(** Line 154: [not row or (len(row) > 0 and row[0].strip().startswith('#'))] *)
Definition skipped_silently (row : list string) : bool :=
  match row with
  | [] => true
  | field0 :: _ => PyStr.startswith (PyStr.strip field0) "#"
  end.

(** Lines 157-162: [float(row[0])] then [int(row[1])]; [None] stands for
    the [ValueError] or [IndexError] the [except] clause catches. *)
Definition parse_row (row : list string) : option (Q * Z) :=
  match nth_error row 0 with
  | None => None
  | Some field0 =>
      match py_float env field0 with
      | None => None
      | Some time_offset =>
          match nth_error row 1 with
          | None => None
          | Some field1 =>
              match py_int env field1 with
              | None => None
              | Some throughput_kbps => Some (time_offset, throughput_kbps)
              end
          end
      end
  end.

(** Lines 164-171: wait until the event is due. *)
Definition sleep_until (start_time time_offset : Q) : M unit :=
  current_time <- time_time ;;
  let target_exec_time := start_time + time_offset in
  let sleep_duration := target_exec_time - current_time in
  if Qpositive sleep_duration then
    print (MsgSleeping sleep_duration) ;;
    time_sleep sleep_duration
  else ret tt.

(** Lines 153-185: the [for] loop; [break] is the branch that does not
    go on with the remaining rows.  ([last_offset] is written and never
    read, and is left out.) *)
Fixpoint event_loop (interface latency : string) (start_time : Q)
    (initial_rate_set : bool) (rows : list (list string)) : M unit :=
  match rows with
  | [] => ret tt
  | row :: rest =>
      if skipped_silently row then
        event_loop interface latency start_time initial_rate_set rest
      else
        match parse_row row with
        | None =>
            print (MsgSkipping row) ;;
            event_loop interface latency start_time initial_rate_set rest
        | Some (time_offset, throughput_kbps) =>
            sleep_until start_time time_offset ;;
            if (throughput_kbps <? 0)%Z then
              print MsgEndOfTrace
            else
              (if negb initial_rate_set then
                 apply_bandwidth_latency interface throughput_kbps latency
               else
                 change_bandwidth interface throughput_kbps) ;;
              event_loop interface latency start_time true rest
        end
  end.

(** Lines 139-185: the body of the [try] statement. *)
Definition read_and_play (interface trace_file latency : string) (start_time : Q)
    : M unit :=
  all_rows <- read_all_rows trace_file ;;
  match rows_to_process all_rows with
  | None => raise (Exc IndexError)
  | Some [] => print MsgTraceEmpty ;; sys_exit 1
  | Some rows => event_loop interface latency start_time false rows
  end.

(** Lines 187-191: the two [except] clauses. *)
Definition on_exception (trace_file : string) (e : exception) : M unit :=
  match e with
  | FileNotFoundError => print (MsgTraceNotFound trace_file) ;; sys_exit 1
  | _ => print (MsgUnexpected e)
  end.

(** Lines 138-194: [try] / [except] / [finally]. *)
Definition guarded_run (interface trace_file latency : string) (start_time : Q)
    : M unit :=
  try_finally
    (try_except_Exception
       (read_and_play interface trace_file latency start_time)
       (on_exception trace_file))
    cleanup_tc.

End Interruptible.

(** ** Signals (lines 126-128) *)

(** The handler registered for SIGINT and SIGTERM is [cleanup_tc]; it runs
    to its [sys.exit(0)] without being interrupted again. *)
Definition handler : M unit := cleanup_tc (ret tt).

(** Before each primitive of the main flow: if the signal is due, it
    takes the slot and the handler runs; what the handler raises comes
    out of the interrupted statement. *)
Definition checkpoint : M unit :=
  fun w =>
    match signal_at env with
    | Some k =>
        if (k =? tick w)%nat then
          handler {| tick := S (tick w); clock := clock w;
                     target_interface := target_interface w; log := log w |}
        else (Returned tt, w)
    | None => (Returned tt, w)
    end.

(** ** The script's top level (lines 114-194) *)

(** Line 124: [sys.argv[3] + "ms" if len(sys.argv) == 4 else DEFAULT_LATENCY_MS] *)
Definition latency_of (argv : list string) : string :=
  if (length argv =? 4)%nat then nth 3 argv "" ++ "ms" else DEFAULT_LATENCY_MS.

Definition main (argv : list string) : M unit :=
  if (length argv <? 3)%nat || (4 <? length argv)%nat then
    print (ret tt) MsgUsage ;;
    print (ret tt) MsgExample ;;
    sys_exit 1
  else
    let interface := nth 1 argv "" in
    let trace_file := nth 2 argv "" in
    let latency := latency_of argv in
    (* signal.signal(SIGINT, cleanup_tc); signal.signal(SIGTERM, cleanup_tc) *)
    print checkpoint (MsgStarting interface) ;;
    print checkpoint (MsgUsingTrace trace_file) ;;
    print checkpoint (MsgApplyingLatency latency) ;;
    start_time <- time_time ;;
    guarded_run checkpoint interface trace_file latency start_time.

(** A whole run of the script started at wall-clock time [t0]. *)
Definition run (argv : list string) (t0 : Q) : outcome unit * World :=
  main argv (initial_world t0).

Definition exit_code (argv : list string) (t0 : Q) : Z :=
  exit_status (fst (run argv t0)).

End Program.

(* ===================================================================== *)
(** * Concrete instances of the built-ins, for running the model *)
(* ===================================================================== *)

Module Literals.

Definition digit_value (c : ascii) : option Z :=
  let n := N_of_ascii c in
  if ((48 <=? n) && (n <=? 57))%N then Some (Z.of_N (n - 48)) else None.

(** Digits with single underscores between them, as [int()] and [float()]
    accept: [acc] is the value so far, [after_digit] tells whether the
    previous character was a digit. Returns the value and how many digits
    were read. *)
Fixpoint digits (s : string) (acc : Z) (count : nat) (after_digit : bool)
    : option (Z * nat * string) :=
  match s with
  | EmptyString => if after_digit then Some (acc, count, s) else None
  | String c s' =>
      match digit_value c with
      | Some d => digits s' (10 * acc + d)%Z (S count) true
      | None =>
          if (c =? "_")%char then
            if after_digit then
              match s' with
              | String c' _ =>
                  match digit_value c' with
                  | Some _ => digits s' acc count false
                  | None => None
                  end
              | EmptyString => None
              end
            else None
          else if after_digit then Some (acc, count, s) else None
      end
  end.

Definition signed (s : string) : bool * string :=
  match s with
  | String "-" s' => (true, s')
  | String "+" s' => (false, s')
  | _ => (false, s)
  end.

(** [int(s)] on ASCII text, base 10. *)
Definition int_of_string (s : string) : option Z :=
  let '(neg, body) := signed (PyStr.strip s) in
  match digits body 0 0 false with
  | Some (v, _, EmptyString) => Some (if neg then (- v)%Z else v)
  | _ => None
  end.

(** [float(s)] on plain decimal literals, [digits], [digits.digits],
    [digits.] or [.digits] with an optional sign, the only forms the trace
    converter and the examples use; the value is the exact rational. *)
Definition float_of_string (s : string) : option Q :=
  let '(neg, body) := signed (PyStr.strip s) in
  let finish (num : Z) (frac_digits : nat) : option Q :=
    let q := Qmake num (Pos.pow 10 (Pos.of_nat frac_digits)) in
    let q := match frac_digits with O => Qmake num 1 | _ => q end in
    Some (if neg then Qopp q else q) in
  match body with
  | String "." rest =>
      match digits rest 0 0 false with
      | Some (v, n, EmptyString) => finish v n
      | _ => None
      end
  | _ =>
      match digits body 0 0 false with
      | Some (v, _, EmptyString) => finish v O
      | Some (v, _, String "." EmptyString) => finish v O
      | Some (v, _, String "." rest) =>
          match digits rest v 0 false with
          | Some (v', n, EmptyString) => finish v' n
          | _ => None
          end
      | _ => None
      end
  end.

End Literals.

(* ===================================================================== *)
(** * The command grammar and the shaping hierarchy *)
(* ===================================================================== *)

(** The traffic-control subsystem lies outside the repository.  This module
    gives the six commands of the script a structured form, their exact text,
    and a model of what they do to the hierarchy of the one interface of a
    run: a root discipline, the rate-limited class 1:1 under it, the
    delay-emulation discipline 10: under that class, and the catch-all
    filter. *)
Module Tc.

Inductive op : Type :=
| DelRoot
| AddRoot
| AddClass (rate_kbit burst : Z)
| AddNetem (delay : string)
| AddFilter
| ChangeClass (rate_kbit burst : Z).

(** The text handed to [run_tc_command] for each operation. *)
Definition render (dev : string) (o : op) : string :=
  match o with
  | DelRoot => "qdisc del dev " ++ dev ++ " root"
  | AddRoot => "qdisc add dev " ++ dev ++ " root handle 1: htb default 10"
  | AddClass rate burst =>
      "class add dev " ++ dev ++ " parent 1: classid 1:1 htb rate "
      ++ PyStr.of_int rate ++ "kbit burst " ++ PyStr.of_int burst
  | AddNetem delay =>
      "qdisc add dev " ++ dev ++ " parent 1:1 handle 10: netem delay " ++ delay
  | AddFilter =>
      "filter add dev " ++ dev ++
      " parent 1: protocol ip prio 1 u32 match ip src 0.0.0.0/0 match ip dst 0.0.0.0/0 flowid 1:1"
  | ChangeClass rate burst =>
      "class change dev " ++ dev ++ " parent 1: classid 1:1 htb rate "
      ++ PyStr.of_int rate ++ "kbit burst " ++ PyStr.of_int burst
  end.

(** The command line the shell receives. *)
Definition shell (dev : string) (o : op) : string := "sudo tc " ++ render dev o.

Record hierarchy : Type := {
  root : bool;                      (* root discipline 1: *)
  class_1_1 : option (Z * Z);       (* rate (kbit) and burst (bytes) of class 1:1 *)
  netem_10 : option string;         (* delay of discipline 10: *)
  ip_filter : bool                  (* catch-all filter into 1:1 *)
}.

Definition absent : hierarchy :=
  {| root := false; class_1_1 := None; netem_10 := None; ip_filter := false |}.

(** Effect of one command; a command that the subsystem rejects (deleting
    what is absent, adding under a missing parent, adding what exists)
    leaves the hierarchy as it was. *)
Definition step (h : hierarchy) (o : op) : hierarchy :=
  match o with
  | DelRoot => absent
  | AddRoot =>
      if root h then h
      else {| root := true; class_1_1 := None; netem_10 := None; ip_filter := false |}
  | AddClass rate burst =>
      match root h, class_1_1 h with
      | true, None =>
          {| root := true; class_1_1 := Some (rate, burst);
             netem_10 := netem_10 h; ip_filter := ip_filter h |}
      | _, _ => h
      end
  | AddNetem delay =>
      match class_1_1 h, netem_10 h with
      | Some _, None =>
          {| root := root h; class_1_1 := class_1_1 h;
             netem_10 := Some delay; ip_filter := ip_filter h |}
      | _, _ => h
      end
  | AddFilter =>
      if root h then
        {| root := true; class_1_1 := class_1_1 h;
           netem_10 := netem_10 h; ip_filter := true |}
      else h
  | ChangeClass rate burst =>
      match class_1_1 h with
      | Some _ =>
          {| root := root h; class_1_1 := Some (rate, burst);
             netem_10 := netem_10 h; ip_filter := ip_filter h |}
      | None => h
      end
  end.

Definition steps (h : hierarchy) (ops : list op) : hierarchy := fold_left step ops h.

(** The two logical states of the specification's data model. *)
Inductive ShapingHierarchy : Type :=
| Absent
| Configured (rate_kbps : Z) (latency : string).

Definition state_of (h : hierarchy) : ShapingHierarchy :=
  match class_1_1 h, netem_10 h with
  | Some (rate, _), Some delay => Configured rate delay
  | _, _ => Absent
  end.

(** The operations of an "initial apply" and of a "rate change". *)
Definition initial_apply (rate_kbps : Z) (latency : string) : list op :=
  [DelRoot; AddRoot; AddClass rate_kbps DEFAULT_BURST_BYTES; AddNetem latency; AddFilter].

Definition rate_change (rate_kbps : Z) : op := ChangeClass rate_kbps DEFAULT_BURST_BYTES.

End Tc.

(* ===================================================================== *)
(** * trace_converter.py *)
(* ===================================================================== *)

Module Converter.

(** One constructor per [print] call of the converter.  The minutes of
    the success message are computed from [counter] and not kept apart. *)
Inductive message : Type :=
| MsgConverted (input_file output_file : string) (counter : Z)
| MsgUsage
| MsgExample
| MsgError (e : exception).

(** What a run leaves behind: the output file created or emptied by
    [open(output_file, 'w')], a text written to it, a line printed. *)
Inductive event : Type :=
| Truncated (path : string)
| Wrote (text : string)
| Printed (m : message).

(** [open(input_file)] followed by the iteration over the file: the open
    raises, or the loop is given these lines, each with its line end, and
    after them the file ends or a read raises. *)
Inductive input_result : Type :=
| NoInput (e : exception)
| Lines (lines : list string) (broken : option exception).

(** [open_output]: [None] when [open(output_file, 'w')] succeeds, the
    exception it raises otherwise.  [throughput_of s] is
    [int(float(s) * 1000)], a product of floating-point numbers, or the
    exception that [float] or [int] raises. *)
Record Env : Type := {
  open_input : string -> input_result;
  open_output : string -> option exception;
  throughput_of : string -> exception + Z
}.

(** The line feed. *)
Definition nl : string := String "010"%char EmptyString.

(** Line 19 *)
Definition header : string := "# Time (s), Throughput (kbps)" ++ nl.

(** Line 27: [not line.strip() or line.startswith('#') or line.startswith('UL')] *)
Definition skipped (line : string) : bool :=
  (PyStr.strip line =? "") || PyStr.startswith line "#" || PyStr.startswith line "UL".

(** Line 31: [f"{counter},{throughput}\n"] *)
Definition row (counter throughput : Z) : string :=
  PyStr.of_int counter ++ "," ++ PyStr.of_int throughput ++ nl.

Section Script.

Variable env : Env.

(** Lines 25-32: the [for] loop, with the counter and the log so far. *)
Fixpoint for_lines (broken : option exception) (counter : Z) (lines : list string)
    (log : list event) : outcome Z * list event :=
  match lines with
  | [] =>
      match broken with
      | Some e => (Raised (Exc e), log)
      | None => (Returned counter, log)
      end
  | line :: rest =>
      if skipped line then for_lines broken counter rest log
      else
        match throughput_of env (PyStr.strip line) with
        | inl e => (Raised (Exc e), log)
        | inr throughput =>
            for_lines broken (counter + 1)%Z rest
                      (log ++ [Wrote (row counter throughput)])%list
        end
  end.

(** Lines 10-38 *)
Definition convert (input_file output_file : string) (log : list event)
    : outcome unit * list event :=
  match open_input env input_file with
  | NoInput e => (Raised (Exc e), log)
  | Lines lines broken =>
      match open_output env output_file with
      | Some e => (Raised (Exc e), log)
      | None =>
          let log := (log ++ [Truncated output_file; Wrote header])%list in
          match for_lines broken 0 lines log with
          | (Returned counter, log) =>
              (Returned tt,
               (log ++ [Printed (MsgConverted input_file output_file counter)])%list)
          | (Raised e, log) => (Raised e, log)
          end
      end
  end.

(** Lines 41-54 *)
Definition main (argv : list string) : outcome unit * list event :=
  if negb (length argv =? 3)%nat then
    (Raised (SystemExit 1), [Printed MsgUsage; Printed MsgExample])
  else
    let input_file := nth 1 argv "" in
    let output_file := nth 2 argv "" in
    match convert input_file output_file [] with
    | (Raised (Exc e), log) =>
        (Raised (SystemExit 1), (log ++ [Printed (MsgError e)])%list)
    | r => r
    end.

End Script.

(** The texts written to the output file, in order. *)
Fixpoint writes (log : list event) : list string :=
  match log with
  | [] => []
  | Wrote text :: log' => text :: writes log'
  | _ :: log' => writes log'
  end.

(** The lines the loop does not skip. *)
Definition kept (lines : list string) : list string :=
  filter (fun line => negb (skipped line)) lines.

(** The line converts to [throughput]. *)
Definition converts (env : Env) (line : string) (throughput : Z) : Prop :=
  throughput_of env (PyStr.strip line) = inr throughput.

(** The rows for these throughputs, numbered from [counter] on. *)
Fixpoint numbered (counter : Z) (throughputs : list Z) : list string :=
  match throughputs with
  | [] => []
  | t :: ts => row counter t :: numbered (counter + 1)%Z ts
  end.

(** The environment [env] with another answer of the input file. *)
Definition with_input (env : Env) (input : input_result) : Env :=
  {| open_input := fun _ => input;
     open_output := open_output env;
     throughput_of := throughput_of env |}.

(** A laboratory: the input file holds [lines], the output file can be
    written, and the numbers are decimal literals whose product with 1000
    is exact. *)
Definition lab (lines : list string) : Env :=
  {| open_input := fun _ => Lines lines None;
     open_output := fun _ => None;
     throughput_of := fun s =>
       match Literals.float_of_string s with
       | Some q => inr (Z.quot (Qnum (q * 1000)) (Zpos (Qden (q * 1000))))
       | None => inl (OtherException "ValueError")
       end |}.

(** [python3 trace_converter.py trace.csv converted.csv] *)
Definition argv : list string := ["trace_converter.py"; "trace.csv"; "converted.csv"].

End Converter.

(* ===================================================================== *)
(** * The trace as the specification sees it *)
(* ===================================================================== *)

Section Trace.

Variable env : Env.

(** The usable events of the rows of a trace, in file order: rows that are
    neither skipped silently nor rejected by the parser. *)
Fixpoint usable (rows : list (list string)) : list (Q * Z) :=
  match rows with
  | [] => []
  | row :: rest =>
      if skipped_silently row then usable rest
      else match parse_row env row with
           | Some ev => ev :: usable rest
           | None => usable rest
           end
  end.

(** The events in front of the first end-of-trace sentinel. *)
Fixpoint played (events : list (Q * Z)) : list (Q * Z) :=
  match events with
  | [] => []
  | (time_offset, rate_kbps) :: rest =>
      if (rate_kbps <? 0)%Z then [] else (time_offset, rate_kbps) :: played rest
  end.

(** The events the scheduler gets to: the played ones and the sentinel
    that stops it, if there is one. *)
Fixpoint reached (events : list (Q * Z)) : list (Q * Z) :=
  match events with
  | [] => []
  | (time_offset, rate_kbps) :: rest =>
      (time_offset, rate_kbps) :: (if (rate_kbps <? 0)%Z then [] else reached rest)
  end.

(** What the scheduler is to do with the played events: an initial apply for
    the first one unless one was done already, a rate change for each of
    the others. *)
Fixpoint schedule (latency : string) (initial_rate_set : bool) (events : list (Q * Z))
    : list Tc.op :=
  match events with
  | [] => []
  | (_, rate_kbps) :: rest =>
      (if initial_rate_set then [Tc.rate_change rate_kbps]
       else Tc.initial_apply rate_kbps latency)
      ++ schedule latency true rest
  end.

(** The rows the loop of a run goes through, when the run gets to its
    loop: the file can be read and its first row is not blank. *)
Definition rows_of (trace_file : string) : option (list (list string)) :=
  match open_csv env trace_file with
  | Rows all_rows => rows_to_process all_rows
  | _ => None
  end.

(** The events a run plays. *)
Definition played_of (trace_file : string) : list (Q * Z) :=
  match rows_of trace_file with
  | Some rows => played (usable rows)
  | None => []
  end.

End Trace.

(* ===================================================================== *)
(** * Vocabulary of the statements *)
(* ===================================================================== *)

Local Open Scope list_scope.

(** What was done to the outside, without the messages: commands, sleeps and
    file openings, in order. *)
Fixpoint actions (l : list event) : list event :=
  match l with
  | Printed _ :: l' => actions l'
  | e :: l' => e :: actions l'
  | [] => []
  end.

(** How many times the cleanup announced the removal of the configuration
    (line 55, the message in front of its delete command). *)
Fixpoint teardowns (l : list event) : nat :=
  match l with
  | Printed (MsgCleaningUp _) :: l' => S (teardowns l')
  | _ :: l' => teardowns l'
  | [] => 0
  end.

(** How many initial applies ran to their end (line 97). *)
Fixpoint initial_applies (l : list event) : nat :=
  match l with
  | Printed (MsgInitialSetup _ _ _) :: l' => S (initial_applies l')
  | _ :: l' => initial_applies l'
  | [] => 0
  end.

(** Every command is started and runs to completion, with whatever return
    code. *)
Definition spawns (env : Env) : Prop :=
  forall k c, exists rc out err, subprocess_run env k c = Completed rc out err.

(** No primitive takes a negative time. *)
Definition time_flows (env : Env) : Prop := forall k, 0 <= elapsed env k.

(** [w'] comes after [w]: the log grew by [l] and the clock did not go
    back. *)
Definition after (env : Env) (w w' : World) (l : list event) : Prop :=
  log w' = log w ++ l /\
  (time_flows env -> clock w <= clock w').

(** What an initial apply does to the outside, with its fixed pause. *)
Definition initial_apply_actions (interface : string) (rate_kbps : Z) (latency : string)
    : list event :=
  [ Executed (Tc.shell interface Tc.DelRoot);
    Slept (1 # 10);
    Executed (Tc.shell interface Tc.AddRoot);
    Executed (Tc.shell interface (Tc.AddClass rate_kbps DEFAULT_BURST_BYTES));
    Executed (Tc.shell interface (Tc.AddNetem latency));
    Executed (Tc.shell interface Tc.AddFilter) ].

(** The interface the global names once the loop has gone through the
    played events. *)
Definition target_after (interface : string) (flag : bool) (events : list (Q * Z))
    (before : option string) : option string :=
  match flag, events with
  | false, _ :: _ => Some interface
  | _, _ => before
  end.

(** The number of initial applies the loop is to perform. *)
Definition applies_in (flag : bool) (events : list (Q * Z)) : nat :=
  match flag, events with
  | false, _ :: _ => 1
  | _, _ => 0
  end.

(** What the schedule does to the outside when no event has to be waited
    for: the actions of the initial apply, with its fixed pause, then one
    command per rate change. *)
Fixpoint schedule_actions (interface latency : string) (flag : bool)
    (events : list (Q * Z)) : list event :=
  match events with
  | [] => []
  | (_, rate_kbps) :: rest =>
      (if flag then [Executed (Tc.shell interface (Tc.rate_change rate_kbps))]
       else initial_apply_actions interface rate_kbps latency)
      ++ schedule_actions interface latency true rest
  end.

(** [m] raises nothing outside [S]. *)
Definition only_raises {A} (S : exn -> Prop) (m : M A) : Prop :=
  forall w e, fst (m w) = Raised e -> S e.

(** [m] never returns: every run of it ends in an exception. *)
Definition never_returns {A} (m : M A) : Prop :=
  forall w, exists e, fst (m w) = Raised e.

Definition exit0 (e : exn) : Prop := e = SystemExit 0.

Definition exit0_or_exception (e : exn) : Prop := e = SystemExit 0 \/ exists x, e = Exc x.

(** Whether the signal of the environment is delivered between the
    primitives numbered [a] and [b]. *)
Definition crossed (signal : option nat) (a b : nat) : nat :=
  match signal with
  | Some k => if ((a <=? k) && (k <? b))%nat then 1 else 0
  | None => 0
  end.

(** [m] announces at most [c] cleanups of its own, and one more if the
    signal is delivered while it runs. *)
Definition bounded (env : Env) (c : nat) {A} (m : M A) : Prop :=
  forall w,
    (tick w <= tick (snd (m w)))%nat /\
    exists l,
      log (snd (m w)) = log w ++ l /\
      (teardowns l <= c + crossed (signal_at env) (tick w) (tick (snd (m w))))%nat.

(** The delete command of the cleanup, if the cleanup issues one. *)
Definition cleanup_commands (target : option string) : list string :=
  match target with
  | Some i => if (i =? "")%string then [] else [Tc.shell i Tc.DelRoot]
  | None => []
  end.

Definition cleanup_ops (target : option string) : list Tc.op :=
  if truthy target then [Tc.DelRoot] else [].

(** The world in which the [try] statement of a run without a signal
    starts; its clock is the start time the script has just read. *)
Definition started (env : Env) (argv : list string) (t0 : Q) : World :=
  perform env (Printed (MsgApplyingLatency (latency_of argv))) 0
    (perform env (Printed (MsgUsingTrace (nth 2 argv ""%string))) 0
       (perform env (Printed (MsgStarting (nth 1 argv ""%string))) 0 (initial_world t0))).

(** The operations a run may issue besides the deletes: class 1:1 with a
    rate that is not negative and the fixed burst, the delay discipline with
    the configured latency, the root discipline and the filter. *)
Definition allowed (latency : string) (o : Tc.op) : Prop :=
  match o with
  | Tc.AddClass rate_kbit burst | Tc.ChangeClass rate_kbit burst =>
      (0 <= rate_kbit)%Z /\ burst = DEFAULT_BURST_BYTES
  | Tc.AddNetem delay => delay = latency
  | _ => True
  end.

(** [m] keeps the invariant [I] of the world, and what it adds to the log
    satisfies [P]. *)
Definition keeps (P : list event -> Prop) (I : World -> Prop) {A} (m : M A) : Prop :=
  forall w,
    I w -> I (snd (m w)) /\ exists l, log (snd (m w)) = log w ++ l /\ P l.

(** The commands of [l] are commands of the grammar on [interface], with
    allowed operands. *)
Definition on_interface (interface latency : string) (l : list event) : Prop :=
  Forall (fun c => exists o, allowed latency o /\ c = Tc.shell interface o) (commands l).

(** The target interface is not set, or it is [interface]. *)
Definition targets (interface : string) (w : World) : Prop :=
  target_interface w = None \/ target_interface w = Some interface.

(** Every sleep of [l] is for a positive time. *)
Definition positive_sleeps (l : list event) : Prop := Forall (fun d => 0 < d) (sleeps l).

(** The environment [env] with another answer of the trace file. *)
Definition with_trace (env : Env) (trace : file_result) : Env :=
  {| py_float := py_float env;
     py_int := py_int env;
     subprocess_run := subprocess_run env;
     open_csv := fun _ => trace;
     elapsed := elapsed env;
     signal_at := signal_at env |}.

(* ===================================================================== *)
(** * A laboratory to run the model in *)
(* ===================================================================== *)

Module Lab.

(** The built-ins on decimal literals; a shell in which every command
    starts, the deletion of a root discipline is answered with return code
    2, as when there is nothing to delete, and every other command with 0;
    each primitive takes a millisecond. *)
Definition env (trace : file_result) (signal : option nat) : Env :=
  {| py_float := Literals.float_of_string;
     py_int := Literals.int_of_string;
     subprocess_run := fun _ c =>
       if PyStr.contains "qdisc del" c
       then Completed 2 "" "Error: Cannot delete qdisc with handle of zero."
       else Completed 0 "" "";
     open_csv := fun _ => trace;
     elapsed := fun _ => 1 # 1000;
     signal_at := signal |}.

(** The laboratory with a trace file of the given rows and no signal. *)
Definition quiet (rows : list (list string)) : Env := env (Rows rows) None.

(** A laboratory in which no command can be started: every call of
    [subprocess.run] raises an OSError. *)
Definition broken (trace : file_result) : Env :=
  {| py_float := Literals.float_of_string;
     py_int := Literals.int_of_string;
     subprocess_run := fun _ _ => SpawnFailed (OtherException "OSError");
     open_csv := fun _ => trace;
     elapsed := fun _ => 1 # 1000;
     signal_at := None |}.

(** [sudo python3 bandwidth_control.py s1-eth2 trace.csv] *)
Definition argv : list string := ["bandwidth_control.py"; "s1-eth2"; "trace.csv"]%string.

(** The same with the latency override [100]. *)
Definition argv_100 : list string :=
  ["bandwidth_control.py"; "s1-eth2"; "trace.csv"; "100"]%string.

(** The same with an empty interface name. *)
Definition argv_unnamed : list string := ["bandwidth_control.py"; ""; "trace.csv"]%string.

(** [0,1000] then [2,-1] *)
Definition trace_with_sentinel : list (list string) :=
  [["0"; "1000"]; ["2"; "-1"]]%string.

(** [0,500] then [0,800] *)
Definition trace_same_offset : list (list string) :=
  [["0"; "500"]; ["0"; "800"]]%string.

(** [0,1000] then [5,2000] *)
Definition trace_two_rates : list (list string) :=
  [["0"; "1000"]; ["5"; "2000"]]%string.

(** A trace whose first usable row is the sentinel. *)
Definition trace_sentinel_first : list (list string) := [["0"; "-1"]; ["1"; "500"]]%string.

(** A trace with a header and a body of comments and malformed rows only. *)
Definition trace_nothing_usable : list (list string) :=
  [["# Time (s)"; " Throughput (kbps)"]; ["# a comment"]; ["abc"; "500"]; ["7"]]%string.

(** A trace that is a header row and nothing else. *)
Definition trace_header_only : list (list string) := [["Time (s)"; "Throughput (kbps)"]]%string.

(** A trace that starts with a blank line. *)
Definition trace_blank_first : list (list string) := [[]; ["0"; "500"]]%string.

(** The output log of a run. *)
Definition log_of (trace : file_result) (signal : option nat) (args : list string)
    : list event :=
  log (snd (run (env trace signal) args 0)).

End Lab.

(* ===================================================================== *)
(** * Reading the log *)
(* ===================================================================== *)

Lemma actions_app l1 l2 : actions (l1 ++ l2) = actions l1 ++ actions l2.
Proof.
  induction l1 as [|[m|c|d|p] l1 IH]; simpl; rewrite ?IH; reflexivity.
Qed.

Lemma commands_app l1 l2 : commands (l1 ++ l2) = commands l1 ++ commands l2.
Proof.
  induction l1 as [|[m|c|d|p] l1 IH]; simpl; rewrite ?IH; reflexivity.
Qed.

Lemma sleeps_app l1 l2 : sleeps (l1 ++ l2) = sleeps l1 ++ sleeps l2.
Proof.
  induction l1 as [|[m|c|d|p] l1 IH]; simpl; rewrite ?IH; reflexivity.
Qed.

Lemma printed_app l1 l2 : printed (l1 ++ l2) = printed l1 ++ printed l2.
Proof.
  induction l1 as [|[m|c|d|p] l1 IH]; simpl; rewrite ?IH; reflexivity.
Qed.

Lemma teardowns_app l1 l2 : teardowns (l1 ++ l2) = (teardowns l1 + teardowns l2)%nat.
Proof.
  induction l1 as [|[m|c|d|p] l1 IH]; simpl; rewrite ?IH; try reflexivity.
  destruct m; simpl; rewrite ?IH; reflexivity.
Qed.

Lemma initial_applies_app l1 l2 :
  initial_applies (l1 ++ l2) = (initial_applies l1 + initial_applies l2)%nat.
Proof.
  induction l1 as [|[m|c|d|p] l1 IH]; simpl; rewrite ?IH; try reflexivity.
  destruct m; simpl; rewrite ?IH; reflexivity.
Qed.

Lemma commands_actions l : commands (actions l) = commands l.
Proof.
  induction l as [|[m|c|d|p] l IH]; simpl; rewrite ?IH; reflexivity.
Qed.

Lemma sleeps_actions l : sleeps (actions l) = sleeps l.
Proof.
  induction l as [|[m|c|d|p] l IH]; simpl; rewrite ?IH; reflexivity.
Qed.

Lemma Qpositive_spec d : Qpositive d = true <-> 0 < d.
Proof.
  unfold Qpositive, Qlt. simpl. rewrite Z.ltb_lt. lia.
Qed.

Lemma Qpositive_false d : Qpositive d = false <-> d <= 0.
Proof.
  unfold Qpositive, Qle. simpl. rewrite Z.ltb_ge. lia.
Qed.

(* ===================================================================== *)
(** * Runs without a signal *)
(* ===================================================================== *)

Section Quiet.

Variable env : Env.

(** The check in front of the primitives lets them through: either no
    signal is scheduled, or the code runs inside the handler. *)
Variable chk : M unit.
Hypothesis chk_quiet : forall w, chk w = (Returned tt, w).

Lemma after_refl w : after env w w [].
Proof.
  unfold after. rewrite app_nil_r. repeat split. intros _. lra.
Qed.

Lemma after_trans w1 w2 w3 l1 l2 :
  after env w1 w2 l1 -> after env w2 w3 l2 -> after env w1 w3 (l1 ++ l2).
Proof.
  intros (H1 & C1) (H2 & C2). repeat split.
  - rewrite H2, H1, app_assoc. reflexivity.
  - intros F. specialize (C1 F). specialize (C2 F). lra.
Qed.

Lemma after_perform e extra w :
  0 <= extra -> after env w (perform env e extra w) [e].
Proof.
  intros He. repeat split. simpl. intros F. specialize (F (tick w)). lra.
Qed.

(** A chain of primitives performed one after the other. *)
Ltac after_chain :=
  first [ apply after_refl
        | eapply after_trans; [ | apply after_perform; lra ]; after_chain ].

Lemma print_quiet m w :
  print env chk m w = (Returned tt, perform env (Printed m) 0 w).
Proof. unfold print, bind. rewrite chk_quiet. reflexivity. Qed.

Lemma time_sleep_quiet d w :
  time_sleep env chk d w = (Returned tt, perform env (Slept d) d w).
Proof. unfold time_sleep, bind. rewrite chk_quiet. reflexivity. Qed.

Lemma after_print m w : after env w (perform env (Printed m) 0 w) [Printed m].
Proof. apply after_perform. lra. Qed.

(** run_tc_command hands exactly one command to the shell, whatever comes
    back; it raises only when the process cannot be started. *)
Lemma run_tc_command_quiet command w :
  exists r w' l,
    run_tc_command env chk command w = (r, w') /\
    after env w w' l /\
    target_interface w' = target_interface w /\
    actions l = [Executed ("sudo tc " ++ command)%string] /\
    teardowns l = 0%nat /\
    initial_applies l = 0%nat /\
    (r = Returned tt \/ exists e, r = Raised (Exc e)) /\
    (spawns env -> r = Returned tt).
Proof.
  unfold run_tc_command, bind. rewrite print_quiet.
  unfold try_except_Exception, subprocess_run_shell, bind.
  rewrite chk_quiet.
  set (w1 := perform env (Printed (MsgExecuting ("sudo tc " ++ command)%string)) 0 w).
  set (w2 := perform env (Executed ("sudo tc " ++ command)%string) 0 w1).
  assert (A2 : after env w w2 [Printed (MsgExecuting ("sudo tc " ++ command)%string);
                           Executed ("sudo tc " ++ command)%string]).
  { apply (after_trans w w1 w2 [_] [_]); [apply after_print | apply after_perform; lra]. }
  destruct (subprocess_run env (tick w1) ("sudo tc " ++ command)%string)
    as [rc out err | e] eqn:R.
  - destruct (rc =? 0)%Z; cbn [negb].
    + do 3 eexists. split; [reflexivity | ]. split; [exact A2 | ].
      repeat split; auto.
    + rewrite !print_quiet.
      do 3 eexists. split; [destruct (_ && _); reflexivity | ].
      split; [eapply after_trans; [exact A2 | after_chain] | ].
      repeat split; auto.
  - rewrite print_quiet.
    do 3 eexists. split; [reflexivity | ].
    split; [eapply after_trans; [exact A2 | after_chain] | ].
    repeat split; eauto.
    intros S. destruct (S (tick w1) ("sudo tc " ++ command)%string) as (rc & out & err & E).
    congruence.
Qed.

(** One call of run_tc_command inside a sequence of statements. *)
Ltac step_tc :=
  match goal with
  | |- context [run_tc_command env chk ?c ?w] =>
      let r := fresh "r" in
      let w' := fresh "w" in
      let l := fresh "l" in
      let E := fresh "E" in
      let A := fresh "A" in
      let T := fresh "T" in
      let Ac := fresh "Ac" in
      let Td := fresh "Td" in
      let Ia := fresh "Ia" in
      let O := fresh "O" in
      let Sp := fresh "Sp" in
      destruct (run_tc_command_quiet c w) as (r & w' & l & E & A & T & Ac & Td & Ia & O & Sp);
      rewrite E; clear E;
      destruct O as [-> | [? ->]]
  end.

(** ** cleanup_tc *)

(** cleanup_tc always leaves through [sys.exit(0)].  With a target
    interface that is set and not empty it announces the removal and
    hands the delete command to the shell, once; otherwise it touches
    nothing. *)
Lemma cleanup_tc_quiet w :
  exists w' l,
    cleanup_tc env chk w = (Raised (SystemExit 0), w') /\
    after env w w' l /\
    target_interface w' = target_interface w /\
    match target_interface w with
    | Some i =>
        if (i =? "")%string then w' = w /\ l = []
        else actions l = [Executed (Tc.shell i Tc.DelRoot)] /\
             teardowns l = 1%nat /\
             hd_error l = Some (Printed (MsgCleaningUp i))
    | None => w' = w /\ l = []
    end.
Proof.
  unfold cleanup_tc, bind, get_target, sys_exit, raise.
  destruct (target_interface w) as [i|] eqn:Tw; cbn [truthy].
  2:{ exists w, []. rewrite Tw. auto using after_refl. }
  destruct (i =? "")%string eqn:Ei; cbn [negb].
  { exists w, []. rewrite Tw. auto using after_refl. }
  rewrite print_quiet. unfold try_except_Exception, bind.
  step_tc.
  - rewrite print_quiet. do 2 eexists. split; [reflexivity | ].
    split; [eapply after_trans; [eapply after_trans; [apply after_print | exact A] | apply after_print] | ].
    split; [simpl; rewrite T; exact Tw | ].
    rewrite !actions_app, !teardowns_app, Ac, Td. simpl. auto.
  - rewrite print_quiet. do 2 eexists. split; [reflexivity | ].
    split; [eapply after_trans; [eapply after_trans; [apply after_print | exact A] | apply after_print] | ].
    split; [simpl; rewrite T; exact Tw | ].
    rewrite !actions_app, !teardowns_app, Ac, Td. simpl. auto.
Qed.

(** ** change_bandwidth *)

Lemma change_bandwidth_quiet interface rate_kbps w :
  exists r w' l,
    change_bandwidth env chk interface rate_kbps w = (r, w') /\
    after env w w' l /\
    target_interface w' = target_interface w /\
    actions l = [Executed (Tc.shell interface (Tc.rate_change rate_kbps))] /\
    teardowns l = 0%nat /\
    initial_applies l = 0%nat /\
    (r = Returned tt \/ exists e, r = Raised (Exc e)) /\
    (spawns env -> r = Returned tt).
Proof.
  unfold change_bandwidth, bind.
  step_tc.
  - rewrite print_quiet. do 3 eexists. split; [reflexivity | ].
    split; [eapply after_trans; [exact A | apply after_print] | ].
    split; [simpl; exact T | ].
    rewrite !actions_app, !teardowns_app, !initial_applies_app, Ac, Td, Ia. simpl.
    repeat split; auto.
  - do 3 eexists. split; [reflexivity | ].
    split; [exact A | ]. split; [exact T | ].
    repeat split; eauto.
Qed.

(** ** apply_bandwidth_latency *)

Lemma apply_bandwidth_latency_quiet interface rate_kbps latency w :
  exists r w' l,
    apply_bandwidth_latency env chk interface rate_kbps latency w = (r, w') /\
    after env w w' l /\
    target_interface w' = Some interface /\
    teardowns l = 0%nat /\
    (r = Returned tt \/ exists e, r = Raised (Exc e)) /\
    (spawns env ->
     r = Returned tt /\
     actions l = initial_apply_actions interface rate_kbps latency /\
     initial_applies l = 1%nat).
Proof.
  unfold apply_bandwidth_latency, bind, set_target.
  set (w0 := {| tick := tick w; clock := clock w;
                target_interface := Some interface; log := log w |}).
  assert (A0 : after env w w0 []) by (split; [simpl; rewrite app_nil_r; reflexivity | intros _; simpl; lra]).
  assert (T0 : target_interface w0 = Some interface) by reflexivity.
  step_tc.
  2:{ do 3 eexists. split; [reflexivity | ].
      split; [eapply after_trans; [exact A0 | exact A] | ].
      split; [congruence | ]. split; [exact Td | ]. split; [eauto | ].
      intros S. specialize (Sp S). discriminate. }
  rewrite time_sleep_quiet.
  set (w2 := perform env (Slept (1 # 10)) (1 # 10) w1).
  assert (A2 : after env w1 w2 [Slept (1 # 10)]) by (apply after_perform; lra).
  step_tc.
  2:{ do 3 eexists. split; [reflexivity | ].
      split; [eapply after_trans; [eapply after_trans; [eapply after_trans;
               [exact A0 | exact A] | exact A2] | exact A1] | ].
      split; [simpl in *; congruence | ].
      split; [rewrite !teardowns_app; simpl; lia | ]. split; [eauto | ].
      intros S. specialize (Sp0 S). discriminate. }
  step_tc.
  2:{ do 3 eexists. split; [reflexivity | ].
      split; [eapply after_trans; [eapply after_trans; [eapply after_trans; [eapply after_trans;
               [exact A0 | exact A] | exact A2] | exact A1] | exact A3] | ].
      split; [simpl in *; congruence | ].
      split; [rewrite !teardowns_app; simpl; lia | ]. split; [eauto | ].
      intros S. specialize (Sp1 S). discriminate. }
  step_tc.
  2:{ do 3 eexists. split; [reflexivity | ].
      split; [eapply after_trans; [eapply after_trans; [eapply after_trans; [eapply after_trans;
               [eapply after_trans; [exact A0 | exact A] | exact A2] | exact A1] | exact A3] | exact A4] | ].
      split; [simpl in *; congruence | ].
      split; [rewrite !teardowns_app; simpl; lia | ]. split; [eauto | ].
      intros S. specialize (Sp2 S). discriminate. }
  step_tc.
  2:{ do 3 eexists. split; [reflexivity | ].
      split; [eapply after_trans; [eapply after_trans; [eapply after_trans; [eapply after_trans;
               [eapply after_trans; [eapply after_trans; [exact A0 | exact A] | exact A2]
               | exact A1] | exact A3] | exact A4] | exact A5] | ].
      split; [simpl in *; congruence | ].
      split; [rewrite !teardowns_app; simpl; lia | ]. split; [eauto | ].
      intros S. specialize (Sp3 S). discriminate. }
  rewrite print_quiet.
  do 3 eexists. split; [reflexivity | ].
  split; [eapply after_trans; [eapply after_trans; [eapply after_trans; [eapply after_trans;
           [eapply after_trans; [eapply after_trans; [eapply after_trans; [exact A0 | exact A]
           | exact A2] | exact A1] | exact A3] | exact A4] | exact A5] | apply after_print] | ].
  split; [simpl in *; congruence | ].
  split; [rewrite !teardowns_app; simpl; lia | ]. split; [auto | ].
  intros _. split; [reflexivity | ].
  rewrite !actions_app, !initial_applies_app, Ac, Ac0, Ac1, Ac2, Ac3, Ia, Ia0, Ia1, Ia2, Ia3.
  split; reflexivity.
Qed.

(** ** sleep_until *)

Lemma sleep_until_due start_time time_offset w :
  clock w < start_time + time_offset ->
  let d := start_time + time_offset - clock w in
  let w' := perform env (Slept d) d (perform env (Printed (MsgSleeping d)) 0 w) in
  sleep_until env chk start_time time_offset w = (Returned tt, w') /\
  after env w w' [Printed (MsgSleeping d); Slept d] /\
  (time_flows env -> start_time + time_offset <= clock w').
Proof.
  intros Hlt d w'. unfold sleep_until, bind, time_time.
  assert (Hd : 0 < d) by (unfold d; lra).
  fold d. rewrite (proj2 (Qpositive_spec d) Hd).
  rewrite print_quiet, time_sleep_quiet. fold w'.
  split; [reflexivity | ].
  split.
  - change (after env w w' ([Printed (MsgSleeping d)] ++ [Slept d])).
    eapply after_trans; [apply after_print | apply after_perform; lra].
  - intros F. unfold w', d. simpl.
    pose proof (F (tick w)). pose proof (F (S (tick w))). lra.
Qed.

Lemma sleep_until_late start_time time_offset w :
  start_time + time_offset <= clock w ->
  sleep_until env chk start_time time_offset w = (Returned tt, w).
Proof.
  intros Hle. unfold sleep_until, bind, time_time.
  assert (Hd : start_time + time_offset - clock w <= 0) by lra.
  rewrite (proj2 (Qpositive_false _) Hd). reflexivity.
Qed.

(** In both cases: the event is due when [sleep_until] returns, and no
    command was issued. *)
Lemma sleep_until_quiet start_time time_offset w :
  exists w' l,
    sleep_until env chk start_time time_offset w = (Returned tt, w') /\
    after env w w' l /\
    target_interface w' = target_interface w /\
    commands l = [] /\ teardowns l = 0%nat /\ initial_applies l = 0%nat /\
    (time_flows env -> start_time + time_offset <= clock w').
Proof.
  destruct (Qlt_le_dec (clock w) (start_time + time_offset)) as [Hlt | Hle].
  - destruct (sleep_until_due start_time time_offset w Hlt) as (E & A & C).
    do 2 eexists. split; [exact E | ]. split; [exact A | ].
    repeat split; auto.
  - exists w, []. rewrite (sleep_until_late _ _ _ Hle).
    split; [reflexivity | ]. split; [apply after_refl | ]. repeat split; auto.
Qed.

(** ** The loop, row by row *)

Lemma event_loop_skip interface latency start_time flag row rest w :
  skipped_silently row = true ->
  event_loop env chk interface latency start_time flag (row :: rest) w =
  event_loop env chk interface latency start_time flag rest w.
Proof. intros H. simpl. rewrite H. reflexivity. Qed.

Lemma event_loop_invalid interface latency start_time flag row rest w :
  skipped_silently row = false ->
  parse_row env row = None ->
  event_loop env chk interface latency start_time flag (row :: rest) w =
  event_loop env chk interface latency start_time flag rest
    (perform env (Printed (MsgSkipping row)) 0 w).
Proof.
  intros H1 H2. simpl. rewrite H1, H2. unfold bind. rewrite print_quiet. reflexivity.
Qed.

Lemma event_loop_event interface latency start_time flag row rest w time_offset rate :
  skipped_silently row = false ->
  parse_row env row = Some (time_offset, rate) ->
  event_loop env chk interface latency start_time flag (row :: rest) w =
  (sleep_until env chk start_time time_offset ;;
   if (rate <? 0)%Z then print env chk MsgEndOfTrace
   else
     (if negb flag then apply_bandwidth_latency env chk interface rate latency
      else change_bandwidth env chk interface rate) ;;
     event_loop env chk interface latency start_time true rest)%py w.
Proof. intros H1 H2. simpl. rewrite H1, H2. reflexivity. Qed.

(** The loop in a run without a signal.  It never announces a cleanup; it
    stops early only when a command cannot be started; and when every
    command can be started it issues exactly the commands of the schedule
    of the played events, in order. *)
Lemma event_loop_quiet interface latency start_time rows :
  forall flag w,
  exists r w' l,
    event_loop env chk interface latency start_time flag rows w = (r, w') /\
    after env w w' l /\
    teardowns l = 0%nat /\
    target_interface w' =
      target_after interface flag (played (usable env rows)) (target_interface w) /\
    (r = Returned tt \/ exists e, r = Raised (Exc e)) /\
    (spawns env ->
     r = Returned tt /\
     commands l = map (Tc.shell interface) (schedule latency flag (played (usable env rows))) /\
     initial_applies l = applies_in flag (played (usable env rows)) /\
     (time_flows env ->
      Forall (fun ev => start_time + fst ev <= clock w') (reached (usable env rows)))).
Proof.
  induction rows as [|row rest IH]; intros flag w.
  - exists (Returned tt), w, []. simpl.
    split; [reflexivity | ]. split; [apply after_refl | ].
    destruct flag; repeat split; auto.
  - destruct (skipped_silently row) eqn:Sk.
    { rewrite event_loop_skip by exact Sk. simpl usable. rewrite Sk. apply IH. }
    destruct (parse_row env row) as [[time_offset rate]|] eqn:Pr.
    2:{ rewrite event_loop_invalid by assumption. simpl usable. rewrite Sk, Pr.
        destruct (IH flag (perform env (Printed (MsgSkipping row)) 0 w))
          as (r & w' & l & E & A & Td & T & O & S).
        exists r, w', ([Printed (MsgSkipping row)] ++ l).
        split; [exact E | ].
        split; [eapply after_trans; [apply after_print | exact A] | ].
        split; [simpl; exact Td | ]. split; [exact T | ]. split; [exact O | ].
        intros Sp. destruct (S Sp) as (-> & C & I & D). repeat split; assumption. }
    rewrite (event_loop_event _ _ _ _ _ _ _ _ _ Sk Pr).
    simpl usable. rewrite Sk, Pr. cbn [played reached].
    unfold bind at 1.
    destruct (sleep_until_quiet start_time time_offset w)
      as (w1 & l1 & E1 & A1 & T1 & C1 & Td1 & I1 & D1).
    rewrite E1.
    destruct (rate <? 0)%Z eqn:Neg.
    { rewrite print_quiet. do 3 eexists. split; [reflexivity | ].
      split; [eapply after_trans; [exact A1 | apply after_print] | ].
      split; [rewrite teardowns_app, Td1; reflexivity | ].
      split; [destruct flag; simpl; exact T1 | ]. split; [auto | ].
      intros _. rewrite commands_app, initial_applies_app, C1, I1.
      split; [reflexivity | ].
      split; [destruct flag; reflexivity | ]. split; [destruct flag; reflexivity | ].
      intros F. constructor; [ | constructor]. simpl.
      specialize (D1 F). pose proof (F (tick w1)). lra. }
    destruct flag; cbn [negb].
    + (* a rate change *)
      unfold bind.
      destruct (change_bandwidth_quiet interface rate w1)
        as (r2 & w2 & l2 & E2 & A2 & T2 & Ac2 & Td2 & I2 & O2 & S2).
      rewrite E2.
      destruct O2 as [-> | [e ->]].
      * destruct (IH true w2) as (r & w' & l & E & A & Td & T & O & S).
        rewrite E. exists r, w', ((l1 ++ l2) ++ l).
        split; [reflexivity | ].
        split; [eapply after_trans; [eapply after_trans; [exact A1 | exact A2] | exact A] | ].
        split; [rewrite !teardowns_app; lia | ].
        split; [simpl in *; congruence | ]. split; [exact O | ].
        intros Sp. destruct (S Sp) as (-> & C & I & D). split; [reflexivity | ].
        rewrite !commands_app, !initial_applies_app, C1, I1, I2, C, I.
        rewrite <- (commands_actions l2), Ac2.
        split; [reflexivity | ]. split; [reflexivity | ].
        intros F. constructor; [ | exact (D F)]. simpl.
        specialize (D1 F). pose proof (proj2 A2 F). pose proof (proj2 A F). lra.
      * exists (Raised (Exc e)), w2, (l1 ++ l2).
        split; [reflexivity | ].
        split; [eapply after_trans; [exact A1 | exact A2] | ].
        split; [rewrite !teardowns_app; lia | ].
        split; [simpl in *; congruence | ]. split; [eauto | ].
        intros Sp. specialize (S2 Sp). discriminate.
    + (* the initial apply *)
      unfold bind.
      destruct (apply_bandwidth_latency_quiet interface rate latency w1)
        as (r2 & w2 & l2 & E2 & A2 & T2 & Td2 & O2 & S2).
      rewrite E2.
      destruct O2 as [-> | [e ->]].
      * destruct (IH true w2) as (r & w' & l & E & A & Td & T & O & S).
        rewrite E. exists r, w', ((l1 ++ l2) ++ l).
        split; [reflexivity | ].
        split; [eapply after_trans; [eapply after_trans; [exact A1 | exact A2] | exact A] | ].
        split; [rewrite !teardowns_app; lia | ].
        split; [simpl in *; congruence | ]. split; [exact O | ].
        intros Sp. destruct (S Sp) as (-> & C & I & D).
        destruct (S2 Sp) as (_ & Ac2 & I2). split; [reflexivity | ].
        rewrite !commands_app, !initial_applies_app, C1, I1, I2, C, I.
        rewrite <- (commands_actions l2), Ac2.
        split; [reflexivity | ]. split; [reflexivity | ].
        intros F. constructor; [ | exact (D F)]. simpl.
        specialize (D1 F). pose proof (proj2 A2 F). pose proof (proj2 A F). lra.
      * exists (Raised (Exc e)), w2, (l1 ++ l2).
        split; [reflexivity | ].
        split; [eapply after_trans; [exact A1 | exact A2] | ].
        split; [rewrite !teardowns_app; lia | ].
        split; [simpl in *; congruence | ]. split; [eauto | ].
        intros Sp. destruct (S2 Sp) as (D & _). discriminate.
Qed.

(** Late events fire as soon as they are reached: when every event the loop
    gets to is already due at the start, the loop never sleeps for one. *)
Lemma event_loop_prompt interface latency start_time rows :
  spawns env -> time_flows env ->
  forall flag w,
    Forall (fun ev => start_time + fst ev <= clock w) (reached (usable env rows)) ->
    exists w' l,
      event_loop env chk interface latency start_time flag rows w = (Returned tt, w') /\
      after env w w' l /\
      actions l = schedule_actions interface latency flag (played (usable env rows)).
Proof.
  intros Sp F.
  induction rows as [|row rest IH]; intros flag w Due.
  - exists w, []. split; [reflexivity | ]. split; [apply after_refl | reflexivity].
  - destruct (skipped_silently row) eqn:Sk.
    { rewrite event_loop_skip by exact Sk. simpl usable in *. rewrite Sk in *. apply IH, Due. }
    destruct (parse_row env row) as [[time_offset rate]|] eqn:Pr.
    2:{ rewrite event_loop_invalid by assumption. simpl usable in *. rewrite Sk, Pr in *.
        destruct (IH flag (perform env (Printed (MsgSkipping row)) 0 w)) as (w' & l & E & A & Ac).
        { eapply Forall_impl; [ | exact Due]. intros ev H. cbn beta in H.
          unfold perform; cbn [clock]. pose proof (F (tick w)). lra. }
        exists w', ([Printed (MsgSkipping row)] ++ l).
        split; [exact E | ].
        split; [eapply after_trans; [apply after_print | exact A] | exact Ac]. }
    rewrite (event_loop_event _ _ _ _ _ _ _ _ _ Sk Pr).
    simpl usable in *. rewrite Sk, Pr in *. cbn [played reached] in *.
    unfold bind at 1.
    rewrite sleep_until_late by (inversion Due; assumption).
    destruct (rate <? 0)%Z eqn:Neg.
    { rewrite print_quiet. do 2 eexists. split; [reflexivity | ].
      split; [apply after_print | reflexivity]. }
    assert (Due' : forall w2, clock w <= clock w2 ->
              Forall (fun ev => start_time + fst ev <= clock w2) (reached (usable env rest))).
    { intros w2 Hc. inversion Due as [|? ? _ Due2]; subst.
      eapply Forall_impl; [ | exact Due2]. intros ev H. cbn beta in H. lra. }
    destruct flag; cbn [negb]; unfold bind.
    + destruct (change_bandwidth_quiet interface rate w)
        as (r2 & w2 & l2 & E2 & A2 & T2 & Ac2 & Td2 & I2 & O2 & S2).
      rewrite E2, (S2 Sp).
      destruct (IH true w2 (Due' w2 (proj2 A2 F))) as (w' & l & E & A & Ac).
      rewrite E. exists w', (l2 ++ l). split; [reflexivity | ].
      split; [eapply after_trans; [exact A2 | exact A] | ].
      rewrite actions_app, Ac2, Ac. reflexivity.
    + destruct (apply_bandwidth_latency_quiet interface rate latency w)
        as (r2 & w2 & l2 & E2 & A2 & T2 & Td2 & O2 & S2).
      destruct (S2 Sp) as (-> & Ac2 & _).
      rewrite E2.
      destruct (IH true w2 (Due' w2 (proj2 A2 F))) as (w' & l & E & A & Ac).
      rewrite E. exists w', (l2 ++ l). split; [reflexivity | ].
      split; [eapply after_trans; [exact A2 | exact A] | ].
      rewrite actions_app, Ac2, Ac. reflexivity.
Qed.

(** Two events at identical or decreasing offsets: once the first is
    applied, the second is due, and the loop goes on with it without a
    wait. *)
Lemma back_to_back interface latency start_time flag row1 row2 rest w t1 r1 t2 r2 :
  spawns env -> time_flows env ->
  skipped_silently row1 = false -> parse_row env row1 = Some (t1, r1) ->
  skipped_silently row2 = false -> parse_row env row2 = Some (t2, r2) ->
  (0 <= r1)%Z -> t2 <= t1 ->
  exists w1 l1,
    event_loop env chk interface latency start_time flag (row1 :: row2 :: rest) w =
    event_loop env chk interface latency start_time true (row2 :: rest) w1 /\
    after env w w1 l1 /\
    commands l1 =
      map (Tc.shell interface) (schedule latency flag [(t1, r1)]) /\
    sleep_until env chk start_time t2 w1 = (Returned tt, w1).
Proof.
  intros Sp F Sk1 Pr1 Sk2 Pr2 Hr Ht.
  rewrite (event_loop_event _ _ _ _ _ _ _ _ _ Sk1 Pr1).
  unfold bind at 1.
  destruct (sleep_until_quiet start_time t1 w)
    as (w0 & l0 & E0 & A0 & T0 & C0 & Td0 & I0 & D0).
  rewrite E0. rewrite (proj2 (Z.ltb_ge r1 0) Hr).
  assert (Late : forall w1, clock w0 <= clock w1 ->
            sleep_until env chk start_time t2 w1 = (Returned tt, w1)).
  { intros w1 Hc. apply sleep_until_late. specialize (D0 F). lra. }
  destruct flag; cbn [negb]; unfold bind.
  - destruct (change_bandwidth_quiet interface r1 w0)
      as (r & w1 & l1 & E1 & A1 & T1 & Ac1 & Td1 & I1 & O1 & S1).
    rewrite E1, (S1 Sp). exists w1, (l0 ++ l1). split; [reflexivity | ].
    split; [eapply after_trans; [exact A0 | exact A1] | ].
    split; [ | exact (Late w1 (proj2 A1 F))].
    rewrite commands_app, C0, <- (commands_actions l1), Ac1. reflexivity.
  - destruct (apply_bandwidth_latency_quiet interface r1 latency w0)
      as (r & w1 & l1 & E1 & A1 & T1 & Td1 & O1 & S1).
    destruct (S1 Sp) as (-> & Ac1 & _).
    rewrite E1. exists w1, (l0 ++ l1). split; [reflexivity | ].
    split; [eapply after_trans; [exact A0 | exact A1] | ].
    split; [ | exact (Late w1 (proj2 A1 F))].
    rewrite commands_app, C0, <- (commands_actions l1), Ac1. reflexivity.
Qed.

(** ** The [try] statement *)

(** The [try] body with its two [except] clauses: it ends normally or
    with [sys.exit(1)], and never announces a cleanup itself. *)
Lemma try_body_quiet interface trace_file latency start_time w :
  exists r w' l,
    try_except_Exception
      (read_and_play env chk interface trace_file latency start_time)
      (on_exception env chk trace_file) w = (r, w') /\
    after env w w' l /\
    teardowns l = 0%nat /\
    target_interface w' =
      target_after interface false (played_of env trace_file) (target_interface w) /\
    (r = Returned tt \/ r = Raised (SystemExit 1)).
Proof.
  unfold try_except_Exception, read_and_play, read_all_rows, bind.
  unfold played_of, rows_of.
  rewrite chk_quiet.
  set (w0 := perform env (Opened trace_file) 0 w).
  assert (A0 : after env w w0 [Opened trace_file]) by (apply after_perform; lra).
  assert (Caught : forall e w1 l1, after env w w1 l1 -> teardowns l1 = 0%nat ->
            exists r w' l,
              on_exception env chk trace_file e w1 = (r, w') /\
              after env w w' l /\ teardowns l = 0%nat /\
              target_interface w' = target_interface w1 /\
              (r = Returned tt \/ r = Raised (SystemExit 1))).
  { intros e w1 l1 A1 Td1.
    destruct e; unfold on_exception, bind, sys_exit, raise; rewrite print_quiet;
      do 3 eexists; (split; [reflexivity | ]);
      (split; [eapply after_trans; [exact A1 | apply after_print] | ]);
      rewrite teardowns_app, Td1; auto. }
  destruct (open_csv env trace_file) as [ | e | all_rows].
  - destruct (Caught FileNotFoundError w0 _ A0 eq_refl) as (r & w' & l & E & A & Td & T & O).
    exists r, w', l. auto.
  - destruct (Caught e w0 _ A0 eq_refl) as (r & w' & l & E & A & Td & T & O).
    exists r, w', l. auto.
  - destruct (rows_to_process all_rows) as [[|row rows]|].
    + unfold bind, sys_exit, raise. rewrite print_quiet.
      do 3 eexists. split; [reflexivity | ].
      split; [eapply after_trans; [exact A0 | apply after_print] | ]. auto.
    + destruct (event_loop_quiet interface latency start_time (row :: rows) false w0)
        as (r & w1 & l1 & E1 & A1 & Td1 & T1 & O1 & _).
      rewrite E1. destruct O1 as [-> | [e ->]].
      * exists (Returned tt), w1, ([Opened trace_file] ++ l1).
        split; [reflexivity | ].
        split; [eapply after_trans; [exact A0 | exact A1] | ]. auto.
      * destruct (Caught e w1 ([Opened trace_file] ++ l1)) as (r & w' & l & E & A & Td & T & O).
        { eapply after_trans; [exact A0 | exact A1]. }
        { exact Td1. }
        exists r, w', l. rewrite T, T1. auto.
    + destruct (Caught IndexError w0 _ A0 eq_refl) as (r & w' & l & E & A & Td & T & O).
      exists r, w', l. auto.
Qed.

(** The whole [try] / [except] / [finally] statement: the process leaves
    through the [sys.exit(0)] of cleanup_tc, whose delete command is issued
    once when the target interface is set and not empty, and not at all
    otherwise. *)
Lemma guarded_run_quiet interface trace_file latency start_time w :
  exists w' l,
    guarded_run env chk interface trace_file latency start_time w
      = (Raised (SystemExit 0), w') /\
    after env w w' l /\
    target_interface w' =
      target_after interface false (played_of env trace_file) (target_interface w) /\
    teardowns l = (if truthy (target_interface w') then 1 else 0)%nat /\
    (forall i, target_interface w' = Some i -> i <> ""%string ->
       exists l0, commands l = l0 ++ [Tc.shell i Tc.DelRoot]).
Proof.
  unfold guarded_run, try_finally.
  destruct (try_body_quiet interface trace_file latency start_time w)
    as (r & w1 & l1 & E1 & A1 & Td1 & T1 & O1).
  rewrite E1.
  destruct (cleanup_tc_quiet w1) as (w2 & l2 & E2 & A2 & T2 & C2).
  rewrite E2. exists w2, (l1 ++ l2).
  split; [reflexivity | ].
  split; [eapply after_trans; [exact A1 | exact A2] | ].
  split; [congruence | ].
  rewrite T2, teardowns_app, commands_app, Td1.
  destruct (target_interface w1) as [i|]; cbn [truthy].
  - destruct (i =? "")%string eqn:Ei; cbn [negb].
    + destruct C2 as (_ & ->). split; [reflexivity | ].
      intros i' [= <-] Hi. apply String.eqb_eq in Ei. contradiction.
    + destruct C2 as (Ac & Td & _). split; [exact Td | ].
      intros i' [= <-] _. exists (commands l1).
      rewrite <- (commands_actions l2), Ac. reflexivity.
  - destruct C2 as (_ & ->). split; [reflexivity | ]. intros i' [=].
Qed.

(** Rows of which none is usable: each is skipped, with a diagnostic unless
    it is blank or a comment, and nothing else happens. *)
Lemma event_loop_nothing_usable interface latency start_time rows :
  usable env rows = [] ->
  forall flag w,
    let l := map (fun row => Printed (MsgSkipping row))
                 (filter (fun row => negb (skipped_silently row)) rows) in
    exists w',
      event_loop env chk interface latency start_time flag rows w = (Returned tt, w') /\
      after env w w' l /\
      target_interface w' = target_interface w.
Proof.
  induction rows as [|row rest IH]; intros U flag w; simpl.
  - exists w. split; [reflexivity | ]. split; [apply after_refl | reflexivity].
  - simpl in U. destruct (skipped_silently row) eqn:Sk; cbn [negb].
    + apply IH, U.
    + destruct (parse_row env row) as [ev|] eqn:Pr; [discriminate | ].
      unfold bind. rewrite print_quiet.
      destruct (IH U flag (perform env (Printed (MsgSkipping row)) 0 w)) as (w' & E & A & T).
      exists w'. split; [exact E | ].
      split; [ | exact T].
      change (after env w w' ([Printed (MsgSkipping row)] ++
                map (fun row => Printed (MsgSkipping row))
                    (filter (fun row => negb (skipped_silently row)) rest))).
      eapply after_trans; [apply after_print | exact A].
Qed.

End Quiet.

(* ===================================================================== *)
(** * What a statement can raise, with or without a signal *)
(* ===================================================================== *)

Section Raises.

Lemma only_raises_weaken {A} (S S' : exn -> Prop) (m : M A) :
  (forall e, S e -> S' e) -> only_raises S m -> only_raises S' m.
Proof. intros H Hm w e E. eauto. Qed.

Lemma only_raises_ret {A} S (a : A) : only_raises S (ret a).
Proof. intros w e; simpl; discriminate. Qed.

Lemma only_raises_raise {A} (S : exn -> Prop) e : S e -> only_raises S (@raise A e).
Proof. intros H w e'; simpl. intros [= <-]. exact H. Qed.

Lemma only_raises_bind {A B} S (m : M A) (k : A -> M B) :
  only_raises S m -> (forall a, only_raises S (k a)) -> only_raises S (bind m k).
Proof.
  intros Hm Hk w e. unfold bind.
  destruct (m w) as [[a|e'] w'] eqn:E.
  - apply Hk.
  - simpl. intros [= <-]. apply (Hm w). rewrite E. reflexivity.
Qed.

Lemma only_raises_try_except {A} (S' S : exn -> Prop) (body : M A) handler :
  only_raises S' body ->
  (forall e, S' (Exc e) -> only_raises S (handler e)) ->
  (forall code, S' (SystemExit code) -> S (SystemExit code)) ->
  only_raises S (try_except_Exception body handler).
Proof.
  intros Hb Hh Hs w e. unfold try_except_Exception.
  destruct (body w) as [[a|[code|x]] w'] eqn:E; simpl.
  - discriminate.
  - intros [= <-]. apply Hs, (Hb w). rewrite E. reflexivity.
  - apply Hh, (Hb w). rewrite E. reflexivity.
Qed.

Lemma never_returns_bind {A B} (m : M A) (k : A -> M B) :
  (forall a, never_returns (k a)) -> never_returns (bind m k).
Proof.
  intros Hk w. unfold bind.
  destruct (m w) as [[a|e] w'].
  - apply Hk.
  - exists e. reflexivity.
Qed.

Lemma try_finally_raises {A} S (body : M A) final :
  never_returns final -> only_raises S final ->
  never_returns (try_finally body final) /\ only_raises S (try_finally body final).
Proof.
  intros Hn Hs. split.
  - intros w. unfold try_finally. destruct (body w) as [r w'].
    destruct (Hn w') as [e E]. destruct (final w') as [[a|e'] w'']; simpl in E.
    + discriminate.
    + exists e'. reflexivity.
  - intros w e. unfold try_finally. destruct (body w) as [r w'].
    destruct (Hn w') as [e0 E0]. pose proof (Hs w') as H.
    destruct (final w') as [[a|e'] w'']; simpl in *.
    + discriminate.
    + intros [= <-]. apply H. reflexivity.
Qed.

Variable env : Env.

Section Checked.

(** The check in front of the primitives lets them through or comes back
    with the [SystemExit(0)] of the handler. *)
Variable chk : M unit.
Hypothesis chk_exit0 : only_raises exit0 chk.

Lemma print_raises m : only_raises exit0 (print env chk m).
Proof.
  apply only_raises_bind; [exact chk_exit0 | ].
  intros _ w e; simpl; discriminate.
Qed.

Lemma run_tc_command_raises command :
  only_raises exit0_or_exception (run_tc_command env chk command).
Proof.
  unfold run_tc_command.
  apply only_raises_bind.
  { eapply only_raises_weaken; [ | apply print_raises]. intros e H; left; exact H. }
  intros _.
  apply (only_raises_try_except exit0_or_exception).
  - apply only_raises_bind.
    + unfold subprocess_run_shell. apply only_raises_bind.
      * eapply only_raises_weaken; [ | exact chk_exit0]. intros e H; left; exact H.
      * intros _ w e.
        destruct (subprocess_run env (tick w) ("sudo tc " ++ command)%string); simpl.
        -- discriminate.
        -- intros [= <-]. right. eauto.
    + intros [[rc out] err].
      destruct (negb (rc =? 0)%Z); [ | apply only_raises_ret].
      repeat (apply only_raises_bind;
              [eapply only_raises_weaken; [ | apply print_raises]; intros e H; left; exact H
              | intros _]).
      destruct (_ && _); apply only_raises_ret.
  - intros e _. apply only_raises_bind.
    + eapply only_raises_weaken; [ | apply print_raises]. intros x H; left; exact H.
    + intros _. apply only_raises_raise. right. eauto.
  - auto.
Qed.

(** cleanup_tc ends in [sys.exit(0)] on every path. *)
Lemma cleanup_tc_raises :
  never_returns (cleanup_tc env chk) /\ only_raises exit0 (cleanup_tc env chk).
Proof.
  unfold cleanup_tc. split.
  - apply never_returns_bind. intros t. apply never_returns_bind. intros _ w.
    exists (SystemExit 0). reflexivity.
  - apply only_raises_bind; [intros w e; simpl; discriminate | ]. intros t.
    apply only_raises_bind; [ | intros _; apply only_raises_raise; reflexivity].
    destruct (truthy t); [ | apply only_raises_ret].
    apply only_raises_bind; [apply print_raises | intros _].
    apply (only_raises_try_except exit0_or_exception).
    + apply only_raises_bind; [apply run_tc_command_raises | intros _].
      eapply only_raises_weaken; [ | apply print_raises]. intros e H; left; exact H.
    + intros e _. apply print_raises.
    + intros code [H | [x H]]; [exact H | discriminate].
Qed.

(** So does the whole [try] statement, whatever its body does. *)
Lemma guarded_run_raises interface trace_file latency start_time :
  never_returns (guarded_run env chk interface trace_file latency start_time) /\
  only_raises exit0 (guarded_run env chk interface trace_file latency start_time).
Proof.
  unfold guarded_run. apply try_finally_raises; apply cleanup_tc_raises.
Qed.

End Checked.

Lemma checkpoint_raises : only_raises exit0 (checkpoint env).
Proof.
  intros w e. unfold checkpoint.
  destruct (signal_at env) as [k|]; [ | simpl; discriminate].
  destruct (k =? tick w)%nat; [ | simpl; discriminate].
  unfold handler. apply cleanup_tc_raises. apply only_raises_ret.
Qed.

(** Past the argument check, every run ends with exit status 0: with or
    without a signal, whatever the trace file holds and whatever the
    commands answer. *)
Lemma main_exits_0 argv :
  (3 <= length argv <= 4)%nat ->
  forall w, fst (main env argv w) = Raised (SystemExit 0).
Proof.
  intros Hlen w. unfold main.
  destruct (Nat.ltb_spec (length argv) 3) as [H | _]; [lia | ].
  destruct (Nat.ltb_spec 4 (length argv)) as [H | _]; [lia | ].
  cbn [orb].
  set (m := (print env (checkpoint env) _ ;; _)%py).
  assert (N : never_returns m /\ only_raises exit0 m).
  { unfold m. split.
    - repeat (apply never_returns_bind; intros ?).
      apply guarded_run_raises, checkpoint_raises.
    - repeat (apply only_raises_bind; [apply print_raises, checkpoint_raises | intros _]).
      apply only_raises_bind; [intros w' e; simpl; discriminate | intros start_time].
      apply guarded_run_raises, checkpoint_raises. }
  destruct N as (N & O). destruct (N w) as (e & E).
  rewrite E. f_equal. exact (O w e E).
Qed.

(** An argument-count error ends the run with exit status 1, after the two
    usage lines and nothing else. *)
Lemma main_usage argv w :
  (length argv < 3 \/ 4 < length argv)%nat ->
  main env argv w =
    (Raised (SystemExit 1),
     perform env (Printed MsgExample) 0 (perform env (Printed MsgUsage) 0 w)).
Proof.
  intros Hlen. unfold main.
  assert (B : ((length argv <? 3)%nat || (4 <? length argv)%nat) = true).
  { apply orb_true_iff. rewrite !Nat.ltb_lt. exact Hlen. }
  rewrite B. reflexivity.
Qed.

End Raises.

(* ===================================================================== *)
(** * The sentinel ends the loop *)
(* ===================================================================== *)

Section Sentinel.

Variable env : Env.
Variable chk : M unit.

(** A row with a negative rate is the last row the loop looks at: what
    follows it in the file has no influence on the run, signal or not. *)
Lemma event_loop_stops interface latency start_time pre row post time_offset rate :
  skipped_silently row = false ->
  parse_row env row = Some (time_offset, rate) ->
  (rate < 0)%Z ->
  forall flag w,
    event_loop env chk interface latency start_time flag (pre ++ row :: post) w =
    event_loop env chk interface latency start_time flag (pre ++ [row]) w.
Proof.
  intros Sk Pr Neg. apply Z.ltb_lt in Neg.
  induction pre as [|r pre IH]; intros flag w; simpl.
  - rewrite Sk, Pr, Neg. reflexivity.
  - destruct (skipped_silently r); [apply IH | ].
    destruct (parse_row env r) as [[t x]|]; unfold bind.
    + destruct (sleep_until env chk start_time t w) as [[[]|e] w1]; [ | reflexivity].
      destruct (x <? 0)%Z; [reflexivity | ].
      destruct flag; cbn [negb].
      * destruct (change_bandwidth env chk interface x w1) as [[[]|e] w2];
          [apply IH | reflexivity].
      * destruct (apply_bandwidth_latency env chk interface x latency w1) as [[[]|e] w2];
          [apply IH | reflexivity].
    + destruct (print env chk (MsgSkipping r) w) as [[[]|e] w1]; [apply IH | reflexivity].
Qed.

End Sentinel.

(* ===================================================================== *)
(** * Whole runs without a signal *)
(* ===================================================================== *)

Section Runs.

Variable env : Env.
Hypothesis no_signal : signal_at env = None.

Lemma checkpoint_quiet w : checkpoint env w = (Returned tt, w).
Proof. unfold checkpoint. rewrite no_signal. reflexivity. Qed.

Lemma run_unfold argv t0 :
  (3 <= length argv <= 4)%nat ->
  run env argv t0 =
  guarded_run env (checkpoint env) (nth 1 argv ""%string) (nth 2 argv ""%string)
    (latency_of argv) (clock (started env argv t0)) (started env argv t0).
Proof.
  intros Hlen. unfold run, main.
  destruct (Nat.ltb_spec (length argv) 3) as [H | _]; [lia | ].
  destruct (Nat.ltb_spec 4 (length argv)) as [H | _]; [lia | ].
  cbn [orb]. unfold bind. rewrite !print_quiet by exact checkpoint_quiet.
  reflexivity.
Qed.

(** A run that passes the argument check and receives no signal. *)
Lemma run_quiet argv t0 :
  (3 <= length argv <= 4)%nat ->
  exists w',
    run env argv t0 = (Raised (SystemExit 0), w') /\
    target_interface w' =
      target_after (nth 1 argv ""%string) false (played_of env (nth 2 argv ""%string)) None /\
    teardowns (log w') = (if truthy (target_interface w') then 1 else 0)%nat /\
    (forall i, target_interface w' = Some i -> i <> ""%string ->
       exists l0, commands (log w') = l0 ++ [Tc.shell i Tc.DelRoot]).
Proof.
  intros Hlen. rewrite run_unfold by exact Hlen.
  destruct (guarded_run_quiet env (checkpoint env) checkpoint_quiet
              (nth 1 argv ""%string) (nth 2 argv ""%string) (latency_of argv)
              (clock (started env argv t0)) (started env argv t0))
    as (w' & l & E & (L & _) & T & Td & C).
  exists w'. split; [exact E | ]. split; [exact T | ].
  rewrite L, teardowns_app, commands_app. split; [exact Td | ].
  intros i Hi Hne. destruct (C i Hi Hne) as (l0 & ->). simpl. eauto.
Qed.

(** Two cleanups in a row: the second does what the first did. *)
Lemma cleanup_twice w :
  exists w1 w2 l1 l2,
    cleanup_tc env (checkpoint env) w = (Raised (SystemExit 0), w1) /\
    cleanup_tc env (checkpoint env) w1 = (Raised (SystemExit 0), w2) /\
    log w1 = log w ++ l1 /\ log w2 = log w1 ++ l2 /\
    commands l1 = cleanup_commands (target_interface w) /\
    commands l2 = cleanup_commands (target_interface w) /\
    teardowns l1 = length (cleanup_ops (target_interface w)) /\
    teardowns l2 = length (cleanup_ops (target_interface w)) /\
    target_interface w1 = target_interface w /\
    target_interface w2 = target_interface w.
Proof.
  destruct (cleanup_tc_quiet env (checkpoint env) checkpoint_quiet w)
    as (w1 & l1 & E1 & (L1 & _) & T1 & C1).
  destruct (cleanup_tc_quiet env (checkpoint env) checkpoint_quiet w1)
    as (w2 & l2 & E2 & (L2 & _) & T2 & C2).
  exists w1, w2, l1, l2. rewrite T1 in C2, T2.
  repeat (split; [assumption | ]).
  unfold cleanup_commands, cleanup_ops.
  destruct (target_interface w) as [i|]; cbn [truthy].
  - destruct (i =? "")%string; cbn [negb].
    + destruct C1 as (_ & ->), C2 as (_ & ->). repeat split; auto.
    + destruct C1 as (A1 & Td1 & _), C2 as (A2 & Td2 & _).
      rewrite <- (commands_actions l1), <- (commands_actions l2), A1, A2, Td1, Td2.
      repeat split; auto.
  - destruct C1 as (_ & ->), C2 as (_ & ->). repeat split; auto.
Qed.

(** A run all of whose events are due from the start: the file is opened,
    the schedule is carried out without a wait, and the cleanup follows. *)
Lemma run_prompt argv t0 rows :
  spawns env -> time_flows env ->
  (3 <= length argv <= 4)%nat ->
  rows_of env (nth 2 argv ""%string) = Some rows -> rows <> [] ->
  Forall (fun ev => fst ev <= 0) (reached (usable env rows)) ->
  exists w',
    run env argv t0 = (Raised (SystemExit 0), w') /\
    actions (log w') =
      Opened (nth 2 argv ""%string)
      :: schedule_actions (nth 1 argv ""%string) (latency_of argv) false
           (played (usable env rows))
      ++ map Executed (cleanup_commands (target_interface w')).
Proof.
  intros Sp F Hlen Hrows Hne Due. rewrite run_unfold by exact Hlen.
  unfold rows_of in Hrows.
  set (w3 := started env argv t0).
  set (interface := nth 1 argv ""%string). set (trace_file := nth 2 argv ""%string) in *.
  unfold guarded_run, try_finally, try_except_Exception, read_and_play, read_all_rows, bind.
  rewrite checkpoint_quiet.
  set (w4 := perform env (Opened trace_file) 0 w3).
  destruct (open_csv env trace_file) as [ | e | all_rows]; try discriminate.
  rewrite Hrows. destruct rows as [|row rows]; [contradiction | ].
  destruct (event_loop_prompt env (checkpoint env) checkpoint_quiet interface (latency_of argv)
              (clock w3) (row :: rows) Sp F false w4) as (w5 & l5 & E5 & A5 & Ac5).
  { eapply Forall_impl; [ | exact Due]. intros ev H. cbn beta in H.
    unfold w4, perform; cbn [clock]. pose proof (F (tick w3)). lra. }
  rewrite E5.
  destruct (cleanup_tc_quiet env (checkpoint env) checkpoint_quiet w5)
    as (w6 & l6 & E6 & A6 & T6 & C6).
  rewrite E6. exists w6. split; [reflexivity | ].
  rewrite (proj1 A6), (proj1 A5), !actions_app, Ac5, T6.
  unfold w4, perform; cbn [log]. rewrite actions_app.
  assert (A3 : actions (log w3) = []) by reflexivity.
  rewrite A3. cbn [app actions]. f_equal. f_equal.
  unfold cleanup_commands.
  destruct (target_interface w5) as [i|].
  - destruct (i =? "")%string.
    + destruct C6 as (_ & ->). reflexivity.
    + destruct C6 as (-> & _). reflexivity.
  - destruct C6 as (_ & ->). reflexivity.
Qed.

End Runs.


(* ===================================================================== *)
(** * The schedule and the hierarchy *)
(* ===================================================================== *)

Lemma schedule_true latency events :
  schedule latency true events = map (fun ev => Tc.rate_change (snd ev)) events.
Proof.
  induction events as [|[t r] events IH]; simpl; [reflexivity | ].
  rewrite IH. reflexivity.
Qed.

Lemma played_nonneg events : Forall (fun ev => (0 <= snd ev)%Z) (played events).
Proof.
  induction events as [|[t r] events IH]; simpl; [constructor | ].
  destruct (Z.ltb_spec r 0); constructor; [simpl; lia | exact IH].
Qed.

(** An initial apply builds the full hierarchy, whatever was there. *)
Lemma initial_apply_configures h rate_kbps latency :
  Tc.steps h (Tc.initial_apply rate_kbps latency) =
  {| Tc.root := true; Tc.class_1_1 := Some (rate_kbps, DEFAULT_BURST_BYTES);
     Tc.netem_10 := Some latency; Tc.ip_filter := true |}.
Proof. reflexivity. Qed.

(** A rate change leaves everything but the class as it is. *)
Lemma rate_change_frame h rate_kbps :
  let h' := Tc.step h (Tc.rate_change rate_kbps) in
  Tc.root h' = Tc.root h /\ Tc.netem_10 h' = Tc.netem_10 h /\
  Tc.ip_filter h' = Tc.ip_filter h /\
  (Tc.class_1_1 h <> None -> Tc.class_1_1 h' = Some (rate_kbps, DEFAULT_BURST_BYTES)) /\
  (Tc.class_1_1 h = None -> h' = h).
Proof.
  simpl. destruct (Tc.class_1_1 h) eqn:C; simpl; repeat split; congruence.
Qed.

(** Deleting the root twice is deleting it once. *)
Lemma delete_idempotent h ops :
  Tc.steps h (Tc.DelRoot :: Tc.DelRoot :: ops) = Tc.steps h (Tc.DelRoot :: ops).
Proof. reflexivity. Qed.

(* ===================================================================== *)
(** * Counting the cleanups of any run, interrupted or not *)
(* ===================================================================== *)

Section Bounded.

Variable env : Env.

Lemma crossed_add a b c :
  (a <= b)%nat -> (b <= c)%nat ->
  (crossed (signal_at env) a b + crossed (signal_at env) b c
   = crossed (signal_at env) a c)%nat.
Proof.
  intros H1 H2. unfold crossed. destruct (signal_at env) as [k|]; [ | reflexivity].
  destruct (Nat.leb_spec a k), (Nat.ltb_spec k b), (Nat.leb_spec b k), (Nat.ltb_spec k c);
    simpl; lia.
Qed.

Lemma bounded_ret {A} (a : A) : bounded env 0 (ret a).
Proof.
  intros w. simpl. split; [lia | ]. exists []. rewrite app_nil_r. split; [reflexivity | simpl; lia].
Qed.

Lemma bounded_raise {A} e : bounded env 0 (@raise A e).
Proof.
  intros w. simpl. split; [lia | ]. exists []. rewrite app_nil_r. split; [reflexivity | simpl; lia].
Qed.

Lemma bounded_weaken {A} c c' (m : M A) :
  (c <= c')%nat -> bounded env c m -> bounded env c' m.
Proof.
  intros Hc Hm w. destruct (Hm w) as (T & l & L & B).
  split; [exact T | ]. exists l. split; [exact L | lia].
Qed.

Lemma bounded_bind {A B} c1 c2 c (m : M A) (k : A -> M B) :
  bounded env c1 m -> (forall a, bounded env c2 (k a)) -> (c1 + c2 <= c)%nat ->
  bounded env c (bind m k).
Proof.
  intros Hm Hk Hc w. unfold bind.
  destruct (Hm w) as (T1 & l1 & L1 & B1).
  destruct (m w) as [[a|e] w1]; simpl in *.
  - destruct (Hk a w1) as (T2 & l2 & L2 & B2).
    split; [lia | ]. exists (l1 ++ l2).
    split; [rewrite L2, L1, app_assoc; reflexivity | ].
    rewrite teardowns_app. pose proof (crossed_add _ _ _ T1 T2). lia.
  - split; [exact T1 | ]. exists l1. split; [exact L1 | lia].
Qed.

Lemma bounded_try_except {A} c1 c2 c (body : M A) handler :
  bounded env c1 body -> (forall e, bounded env c2 (handler e)) -> (c1 + c2 <= c)%nat ->
  bounded env c (try_except_Exception body handler).
Proof.
  intros Hb Hh Hc w. unfold try_except_Exception.
  destruct (Hb w) as (T1 & l1 & L1 & B1).
  destruct (body w) as [[a|[code|e]] w1]; simpl in *.
  - split; [exact T1 | ]. exists l1. split; [exact L1 | lia].
  - split; [exact T1 | ]. exists l1. split; [exact L1 | lia].
  - destruct (Hh e w1) as (T2 & l2 & L2 & B2).
    split; [lia | ]. exists (l1 ++ l2).
    split; [rewrite L2, L1, app_assoc; reflexivity | ].
    rewrite teardowns_app. pose proof (crossed_add _ _ _ T1 T2). lia.
Qed.

Lemma bounded_try_finally {A} c1 c2 c (body : M A) final :
  bounded env c1 body -> bounded env c2 final -> (c1 + c2 <= c)%nat ->
  bounded env c (try_finally body final).
Proof.
  intros Hb Hf Hc w. unfold try_finally.
  destruct (Hb w) as (T1 & l1 & L1 & B1).
  destruct (body w) as [r w1]; simpl in *.
  destruct (Hf w1) as (T2 & l2 & L2 & B2).
  assert (G : (tick w <= tick (snd (final w1)))%nat /\
              exists l, log (snd (final w1)) = log w ++ l /\
                (teardowns l <= c + crossed (signal_at env) (tick w) (tick (snd (final w1))))%nat).
  { split; [lia | ]. exists (l1 ++ l2).
    split; [rewrite L2, L1, app_assoc; reflexivity | ].
    rewrite teardowns_app. pose proof (crossed_add _ _ _ T1 T2). lia. }
  destruct (final w1) as [[a|e] w2]; exact G.
Qed.

(** One primitive: its own announcement, if it is one. *)
Lemma bounded_perform {A} (r : World -> outcome A) e extra :
  bounded env (teardowns [e]) (fun w => (r w, perform env e extra w)).
Proof.
  intros w. split; [simpl; lia | ]. exists [e].
  split; [reflexivity | apply Nat.le_add_r].
Qed.

(** Sequencing with the two bounds given. *)
Ltac seq00 :=
  eapply bounded_bind with (c1 := 0%nat) (c2 := 0%nat); [ | intros ? | simpl; lia ].
Ltac seq01 :=
  eapply bounded_bind with (c1 := 0%nat) (c2 := 1%nat); [ | intros ? | simpl; lia ].
Ltac seq10 :=
  eapply bounded_bind with (c1 := 1%nat) (c2 := 0%nat); [ | intros ? | simpl; lia ].

Ltac silent := intros ?w; simpl; split; [lia | ]; exists []; rewrite app_nil_r;
               split; [reflexivity | simpl; lia].

Section Checked.

Variable chk : M unit.
Hypothesis chk_bounded : bounded env 0 chk.

Lemma print_bounded m : bounded env (teardowns [Printed m]) (print env chk m).
Proof.
  unfold print.
  eapply bounded_bind with (c1 := 0%nat) (c2 := teardowns [Printed m]);
    [exact chk_bounded | intros _ | apply Nat.le_refl].
  apply (bounded_perform (fun _ => Returned tt)).
Qed.

Lemma time_sleep_bounded seconds : bounded env 0 (time_sleep env chk seconds).
Proof.
  unfold time_sleep. seq00; [exact chk_bounded | ].
  apply (bounded_perform (fun _ => Returned tt)).
Qed.

Lemma run_tc_command_bounded command : bounded env 0 (run_tc_command env chk command).
Proof.
  unfold run_tc_command.
  seq00; [apply print_bounded | ].
  eapply bounded_try_except with (c1 := 0%nat) (c2 := 0%nat); [ | | lia].
  - seq00.
    + unfold subprocess_run_shell. seq00; [exact chk_bounded | ].
      intros w. cbv beta.
      destruct (subprocess_run env (tick w) ("sudo tc " ++ command)%string); simpl;
        (split; [lia | ]); eexists [_]; (split; [reflexivity | simpl; lia]).
    + match goal with
      | x : (Z * string * string)%type |- _ => destruct x as [[rc out] err]
      end.
      destruct (negb (rc =? 0)%Z); [ | apply bounded_ret].
      seq00; [apply print_bounded | ].
      seq00; [apply print_bounded | ].
      seq00; [apply print_bounded | ].
      seq00; [apply print_bounded | ].
      destruct (_ && _); apply bounded_ret.
  - intros e. seq00; [apply print_bounded | apply bounded_raise].
Qed.

Lemma cleanup_tc_bounded : bounded env 1 (cleanup_tc env chk).
Proof.
  unfold cleanup_tc.
  seq01; [unfold get_target; silent | ].
  seq10; [ | apply bounded_raise].
  destruct (truthy _).
  - seq10; [apply print_bounded | ].
    eapply bounded_try_except with (c1 := 0%nat) (c2 := 0%nat); [ | | lia].
    + seq00; [apply run_tc_command_bounded | apply print_bounded].
    + intros e. apply print_bounded.
  - apply (bounded_weaken 0); [lia | apply bounded_ret].
Qed.

Lemma apply_bandwidth_latency_bounded interface rate_kbps latency :
  bounded env 0 (apply_bandwidth_latency env chk interface rate_kbps latency).
Proof.
  unfold apply_bandwidth_latency.
  seq00; [unfold set_target; silent | ].
  seq00; [apply run_tc_command_bounded | ].
  seq00; [apply time_sleep_bounded | ].
  seq00; [apply run_tc_command_bounded | ].
  seq00; [apply run_tc_command_bounded | ].
  seq00; [apply run_tc_command_bounded | ].
  seq00; [apply run_tc_command_bounded | ].
  apply print_bounded.
Qed.

Lemma change_bandwidth_bounded interface rate_kbps :
  bounded env 0 (change_bandwidth env chk interface rate_kbps).
Proof.
  unfold change_bandwidth.
  seq00; [apply run_tc_command_bounded | apply print_bounded].
Qed.

Lemma sleep_until_bounded start_time time_offset :
  bounded env 0 (sleep_until env chk start_time time_offset).
Proof.
  unfold sleep_until.
  seq00; [unfold time_time; silent | ].
  destruct (Qpositive _); [ | apply bounded_ret].
  seq00; [apply print_bounded | apply time_sleep_bounded].
Qed.

Lemma event_loop_bounded interface latency start_time rows :
  forall flag, bounded env 0 (event_loop env chk interface latency start_time flag rows).
Proof.
  induction rows as [|row rest IH]; intros flag; simpl.
  - apply bounded_ret.
  - destruct (skipped_silently row); [apply IH | ].
    destruct (parse_row env row) as [[t rate]|].
    + seq00; [apply sleep_until_bounded | ].
      destruct (rate <? 0)%Z; [apply print_bounded | ].
      seq00; [ | apply IH].
      destruct (negb flag);
        [apply apply_bandwidth_latency_bounded | apply change_bandwidth_bounded].
    + seq00; [apply print_bounded | apply IH].
Qed.

Lemma guarded_run_bounded interface trace_file latency start_time :
  bounded env 1 (guarded_run env chk interface trace_file latency start_time).
Proof.
  unfold guarded_run.
  eapply bounded_try_finally with (c1 := 0%nat) (c2 := 1%nat);
    [ | apply cleanup_tc_bounded | lia].
  eapply bounded_try_except with (c1 := 0%nat) (c2 := 0%nat); [ | | lia].
  - unfold read_and_play. seq00.
    + unfold read_all_rows. seq00; [exact chk_bounded | ].
      intros w. cbv beta.
      destruct (open_csv env trace_file); simpl;
        (split; [lia | ]); eexists [_]; (split; [reflexivity | simpl; lia]).
    + destruct (rows_to_process _) as [[|row rows]|].
      * seq00; [apply print_bounded | apply bounded_raise].
      * apply event_loop_bounded.
      * apply bounded_raise.
  - intros e. unfold on_exception. destruct e.
    + seq00; [apply print_bounded | apply bounded_raise].
    + apply print_bounded.
    + apply print_bounded.
Qed.

End Checked.

(** The delivery of the signal counts for the one cleanup that may come
    with it. *)
Lemma checkpoint_bounded : bounded env 0 (checkpoint env).
Proof.
  intros w. unfold checkpoint.
  destruct (signal_at env) as [k|] eqn:Sg.
  2:{ simpl. split; [lia | ]. exists []. rewrite app_nil_r. split; [reflexivity | simpl; lia]. }
  destruct (Nat.eqb_spec k (tick w)) as [-> | Hne].
  2:{ simpl. split; [lia | ]. exists []. rewrite app_nil_r. split; [reflexivity | simpl; lia]. }
  unfold handler.
  destruct (cleanup_tc_bounded (ret tt) (bounded_ret tt)
              {| tick := S (tick w); clock := clock w;
                 target_interface := target_interface w; log := log w |})
    as (T & l & L & B).
  simpl in T, L. split; [lia | ]. exists l. split; [exact L | ].
  rewrite Sg in B. unfold crossed in *. simpl tick in B.
  destruct (Nat.leb_spec (S (tick w)) (tick w)) as [H | _]; [lia | ].
  destruct (Nat.leb_spec (tick w) (tick w)) as [_ | H]; [ | lia].
  match goal with
  | |- context [(tick w <? ?b)%nat] => destruct (Nat.ltb_spec (tick w) b) as [_ | H]
  end; simpl in *; lia.
Qed.

(** A run announces at most two cleanups: that of the [finally] clause and,
    if a signal is delivered, that of the handler. *)
Lemma run_teardowns_bound argv t0 :
  (teardowns (log (snd (run env argv t0))) <= 2)%nat.
Proof.
  assert (B : bounded env 1 (main env argv)).
  { unfold main.
    destruct ((length argv <? 3)%nat || (4 <? length argv)%nat).
    - pose proof (bounded_ret tt) as R.
      seq00; [apply (print_bounded (ret tt) R) | ].
      seq00; [apply (print_bounded (ret tt) R) | apply bounded_raise].
    - pose proof checkpoint_bounded as C.
      seq01; [apply (print_bounded _ C) | ].
      seq01; [apply (print_bounded _ C) | ].
      seq01; [apply (print_bounded _ C) | ].
      seq01; [unfold time_time; intros w; simpl; split; [lia | ]; exists [];
                rewrite app_nil_r; split; [reflexivity | simpl; lia] | ].
      apply guarded_run_bounded, C. }
  unfold run. destruct (B (initial_world t0)) as (_ & l & L & Bl).
  simpl in L. rewrite L.
  unfold crossed in Bl. destruct (signal_at env); [ | lia].
  destruct (_ && _); lia.
Qed.

End Bounded.

(* ===================================================================== *)
(** * The properties of the specification *)
(* ===================================================================== *)

(** Hypotheses on the laboratory environment. *)
Ltac lab_spawns := intros ? c; simpl; destruct (PyStr.contains "qdisc del" c); eauto.
Ltac lab_time_flows := intros ?; simpl; discriminate.

(** ** Qdisc controller *)

(** C7.  Every initial apply issues, in this exact order: the delete of any
    root discipline there may be, a pause of a tenth of a second, the
    creation of the root discipline with default class 10, the creation of
    class 1:1 with the event's rate and a burst of 15000 bytes, the creation
    of the delay discipline with the given latency, and the creation of the
    catch-all IP filter into 1:1.  The return code of a command does not
    matter, that of the delete included: the sequence goes on as long as the
    commands can be started.  The latency handed over by the script is 50 ms
    unless a fourth argument overrides it.  The result is the configured
    hierarchy with that rate and latency. *)
Theorem initial_apply_sequence env interface rate_kbps latency w :
  signal_at env = None -> spawns env ->
  exists w' l,
    apply_bandwidth_latency env (checkpoint env) interface rate_kbps latency w
      = (Returned tt, w') /\
    log w' = log w ++ l /\
    actions l =
      [ Executed ("sudo tc qdisc del dev " ++ interface ++ " root")%string;
        Slept (1 # 10);
        Executed ("sudo tc qdisc add dev " ++ interface
                  ++ " root handle 1: htb default 10")%string;
        Executed ("sudo tc class add dev " ++ interface
                  ++ " parent 1: classid 1:1 htb rate " ++ PyStr.of_int rate_kbps
                  ++ "kbit burst 15000")%string;
        Executed ("sudo tc qdisc add dev " ++ interface
                  ++ " parent 1:1 handle 10: netem delay " ++ latency)%string;
        Executed ("sudo tc filter add dev " ++ interface
                  ++ " parent 1: protocol ip prio 1 u32 match ip src 0.0.0.0/0"
                  ++ " match ip dst 0.0.0.0/0 flowid 1:1")%string ] /\
    commands l = map (Tc.shell interface) (Tc.initial_apply rate_kbps latency) /\
    target_interface w' = Some interface /\
    (forall argv, length argv = 3%nat -> latency_of argv = "50ms"%string) /\
    (forall argv, length argv = 4%nat ->
       latency_of argv = (nth 3 argv "" ++ "ms")%string) /\
    (forall h, Tc.state_of (Tc.steps h (Tc.initial_apply rate_kbps latency))
               = Tc.Configured rate_kbps latency).
Proof.
  intros Hq Sp.
  destruct (apply_bandwidth_latency_quiet env (checkpoint env) (checkpoint_quiet env Hq)
              interface rate_kbps latency w) as (r & w' & l & E & A & T & Td & O & S).
  destruct (S Sp) as (-> & Ac & _).
  exists w', l. split; [exact E | ]. split; [exact (proj1 A) | ].
  split; [rewrite Ac; reflexivity | ].
  split; [rewrite <- commands_actions, Ac; reflexivity | ].
  split; [exact T | ].
  split; [intros argv H; unfold latency_of; rewrite H; reflexivity | ].
  split; [intros argv H; unfold latency_of; rewrite H; reflexivity | ].
  intros h. reflexivity.
Qed.

Lemma initial_apply_sequence_witness :
  signal_at (Lab.quiet Lab.trace_with_sentinel) = None /\
  spawns (Lab.quiet Lab.trace_with_sentinel) /\
  latency_of Lab.argv = "50ms"%string /\
  latency_of Lab.argv_100 = "100ms"%string /\
  exists w' l,
    apply_bandwidth_latency (Lab.quiet Lab.trace_with_sentinel)
      (checkpoint (Lab.quiet Lab.trace_with_sentinel))
      "s1-eth2" 1000 (latency_of Lab.argv_100) (initial_world 0) = (Returned tt, w') /\
    log w' = l /\
    commands l = map (Tc.shell "s1-eth2") (Tc.initial_apply 1000 "100ms").
Proof.
  split; [reflexivity | ]. split; [lab_spawns | ].
  destruct (initial_apply_sequence (Lab.quiet Lab.trace_with_sentinel)
              "s1-eth2" 1000 (latency_of Lab.argv_100) (initial_world 0))
    as (w' & l & E & L & _ & C & _ & D & O & _); [reflexivity | lab_spawns | ].
  split; [apply D; reflexivity | ]. split; [apply O; reflexivity | ].
  exists w', l. repeat split; assumption.
Defined.

(** C8.  Every rate change issues exactly one external command, the change
    of class 1:1 to the new rate with a burst of 15000 bytes, whether or not
    the command can be started and whatever it answers.  That command alters
    only the class: the root discipline, the delay discipline and the filter
    are as they were, and so is the target interface of the script. *)
Theorem rate_change_single_command env interface rate_kbps w :
  signal_at env = None ->
  exists r w' l,
    change_bandwidth env (checkpoint env) interface rate_kbps w = (r, w') /\
    log w' = log w ++ l /\
    actions l =
      [ Executed ("sudo tc class change dev " ++ interface
                  ++ " parent 1: classid 1:1 htb rate " ++ PyStr.of_int rate_kbps
                  ++ "kbit burst 15000")%string ] /\
    commands l = [Tc.shell interface (Tc.rate_change rate_kbps)] /\
    target_interface w' = target_interface w /\
    (spawns env -> r = Returned tt) /\
    (forall h,
       let h' := Tc.step h (Tc.rate_change rate_kbps) in
       Tc.root h' = Tc.root h /\
       Tc.netem_10 h' = Tc.netem_10 h /\
       Tc.ip_filter h' = Tc.ip_filter h /\
       (Tc.class_1_1 h <> None ->
        Tc.class_1_1 h' = Some (rate_kbps, 15000%Z))).
Proof.
  intros Hq.
  destruct (change_bandwidth_quiet env (checkpoint env) (checkpoint_quiet env Hq)
              interface rate_kbps w) as (r & w' & l & E & A & T & Ac & Td & I & O & S).
  exists r, w', l. split; [exact E | ]. split; [exact (proj1 A) | ].
  split; [rewrite Ac; reflexivity | ].
  split; [rewrite <- commands_actions, Ac; reflexivity | ].
  split; [exact T | ]. split; [exact S | ].
  intros h h'. destruct (rate_change_frame h rate_kbps) as (R & N & F & C & _).
  auto.
Qed.

Lemma rate_change_single_command_witness :
  signal_at (Lab.quiet Lab.trace_two_rates) = None /\
  exists r w' l,
    change_bandwidth (Lab.quiet Lab.trace_two_rates)
      (checkpoint (Lab.quiet Lab.trace_two_rates))
      "s1-eth2" 2000 (initial_world 0) = (r, w') /\
    log w' = l /\
    commands l = [Tc.shell "s1-eth2" (Tc.rate_change 2000)].
Proof.
  split; [reflexivity | ].
  destruct (rate_change_single_command (Lab.quiet Lab.trace_two_rates)
              "s1-eth2" 2000 (initial_world 0))
    as (r & w' & l & E & L & _ & C & _); [reflexivity | ].
  exists r, w', l. repeat split; assumption.
Defined.

(** ** Scheduler *)

(** C2, amended.  The scheduler performs an initial apply on the first
    usable event when that event is not the sentinel, with that event's rate
    and the configured latency, and none when the first usable event is the
    sentinel or no row is usable: at most one, then.  The initial apply is
    followed by one rate change, rate only, for each later usable event in
    front of the first sentinel, in file order; no rate change comes before
    the initial apply. *)
Theorem schedule_of_played_events env interface latency start_time rows w :
  signal_at env = None -> spawns env ->
  exists w' l,
    event_loop env (checkpoint env) interface latency start_time false rows w
      = (Returned tt, w') /\
    log w' = log w ++ l /\
    commands l =
      match played (usable env rows) with
      | [] => []
      | (_, rate_kbps) :: later =>
          map (Tc.shell interface)
              (Tc.initial_apply rate_kbps latency
               ++ map (fun ev => Tc.rate_change (snd ev)) later)
      end /\
    initial_applies l =
      match played (usable env rows) with [] => 0%nat | _ :: _ => 1%nat end.
Proof.
  intros Hq Sp.
  destruct (event_loop_quiet env (checkpoint env) (checkpoint_quiet env Hq)
              interface latency start_time rows false w)
    as (r & w' & l & E & A & Td & T & O & S).
  destruct (S Sp) as (-> & C & I & _).
  exists w', l. split; [exact E | ]. split; [exact (proj1 A) | ].
  rewrite C, I. destruct (played (usable env rows)) as [|[t rate] later]; simpl.
  - split; reflexivity.
  - rewrite schedule_true. split; reflexivity.
Qed.

Lemma schedule_of_played_events_witness :
  signal_at (Lab.quiet Lab.trace_two_rates) = None /\
  spawns (Lab.quiet Lab.trace_two_rates) /\
  exists w' l,
    event_loop (Lab.quiet Lab.trace_two_rates)
      (checkpoint (Lab.quiet Lab.trace_two_rates))
      "s1-eth2" "50ms" 0 false Lab.trace_two_rates (initial_world 0) = (Returned tt, w') /\
    log w' = l /\
    commands l =
      map (Tc.shell "s1-eth2") (Tc.initial_apply 1000 "50ms" ++ [Tc.rate_change 2000]).
Proof.
  split; [reflexivity | ]. split; [lab_spawns | ].
  destruct (schedule_of_played_events (Lab.quiet Lab.trace_two_rates)
              "s1-eth2" "50ms" 0 Lab.trace_two_rates (initial_world 0))
    as (w' & l & E & L & C & _); [reflexivity | lab_spawns | ].
  exists w', l. repeat split; assumption.
Defined.

(** C2 as stated fails: a trace whose first usable row is the sentinel is a
    valid trace, it has usable events, and its run performs no initial apply
    and issues no command at all. *)
Lemma sentinel_first_no_initial_apply :
  usable (Lab.env (Rows Lab.trace_sentinel_first) None) Lab.trace_sentinel_first
    = [(0, (-1)%Z); (1, 500%Z)] /\
  initial_applies (Lab.log_of (Rows Lab.trace_sentinel_first) None Lab.argv) = 0%nat /\
  commands (Lab.log_of (Rows Lab.trace_sentinel_first) None Lab.argv) = [] /\
  initial_applies (Lab.log_of (Rows Lab.trace_sentinel_first) None Lab.argv) <> 1%nat.
Proof. vm_compute. repeat split; discriminate. Qed.

(** C5.  An event with a negative rate stops the loop at once: the rows
    after it have no influence on the run; the loop waits until the event is
    due, prints that the trace has ended and returns, without a command, so
    that the value is never applied as a rate; every rate the loop does apply
    is that of an event in front of the first sentinel, and is not negative.
    In particular the trace [0,1000] then [2,-1] gives exactly one initial
    apply, at rate 1000, nothing else, and the loop ends two seconds after
    the start time or later. *)
Theorem sentinel_stops_playback env interface latency start_time :
  signal_at env = None -> spawns env -> time_flows env ->
  (forall pre row post time_offset rate flag w,
     skipped_silently row = false ->
     parse_row env row = Some (time_offset, rate) ->
     (rate < 0)%Z ->
     event_loop env (checkpoint env) interface latency start_time flag
       (pre ++ row :: post) w =
     event_loop env (checkpoint env) interface latency start_time flag (pre ++ [row]) w /\
     exists w' l,
       event_loop env (checkpoint env) interface latency start_time flag (row :: post) w
         = (Returned tt, w') /\
       log w' = log w ++ l /\
       commands l = [] /\
       last l (Printed MsgEndOfTrace) = Printed MsgEndOfTrace /\
       start_time + time_offset <= clock w') /\
  (forall rows flag w,
     exists w' l,
       event_loop env (checkpoint env) interface latency start_time flag rows w
         = (Returned tt, w') /\
       log w' = log w ++ l /\
       commands l =
         map (Tc.shell interface) (schedule latency flag (played (usable env rows))) /\
       Forall (fun ev => (0 <= snd ev)%Z) (played (usable env rows))) /\
  (py_float env "0" = Some 0 -> py_float env "2" = Some 2 ->
   py_int env "1000" = Some 1000%Z -> py_int env "-1" = Some (-1)%Z ->
   forall w,
     exists w' l,
       event_loop env (checkpoint env) interface latency start_time false
         [["0"; "1000"]; ["2"; "-1"]]%string w = (Returned tt, w') /\
       log w' = log w ++ l /\
       commands l = map (Tc.shell interface) (Tc.initial_apply 1000 latency) /\
       initial_applies l = 1%nat /\
       start_time + 2 <= clock w').
Proof.
  intros Hq Sp F.
  pose proof (checkpoint_quiet env Hq) as CQ.
  split; [ | split].
  - intros pre row post time_offset rate flag w Sk Pr Neg.
    split; [apply (event_loop_stops env _ _ _ _ _ _ _ time_offset rate Sk Pr Neg) | ].
    rewrite (event_loop_event env (checkpoint env) _ _ _ _ _ _ _ _ _ Sk Pr).
    unfold bind.
    destruct (sleep_until_quiet env (checkpoint env) CQ start_time time_offset w)
      as (w1 & l1 & E1 & A1 & T1 & C1 & _ & _ & D1).
    rewrite E1, (proj2 (Z.ltb_lt rate 0) Neg), print_quiet by exact CQ.
    do 2 eexists. split; [reflexivity | ].
    split; [simpl; rewrite (proj1 A1), <- app_assoc; reflexivity | ].
    split; [rewrite commands_app, C1; reflexivity | ].
    split; [apply last_last | ].
    simpl. specialize (D1 F). pose proof (F (tick w1)). lra.
  - intros rows flag w.
    destruct (event_loop_quiet env (checkpoint env) CQ interface latency start_time rows flag w)
      as (r & w' & l & E & A & Td & T & O & S).
    destruct (S Sp) as (-> & C & _).
    exists w', l. split; [exact E | ]. split; [exact (proj1 A) | ].
    split; [exact C | apply played_nonneg].
  - intros F0 F2 I1000 Im1 w.
    destruct (event_loop_quiet env (checkpoint env) CQ interface latency start_time
                [["0"; "1000"]; ["2"; "-1"]]%string false w)
      as (r & w' & l & E & A & Td & T & O & S).
    destruct (S Sp) as (-> & C & I & D).
    assert (U : usable env [["0"; "1000"]; ["2"; "-1"]]%string = [(0, 1000%Z); (2, (-1)%Z)]).
    { simpl. unfold parse_row. simpl. rewrite F0, F2, I1000, Im1. reflexivity. }
    rewrite U in C, I, D. simpl in C, I.
    exists w', l. split; [exact E | ]. split; [exact (proj1 A) | ].
    split; [exact C | ]. split; [exact I | ].
    specialize (D F). simpl in D. inversion D as [|? ? _ D2]; subst.
    inversion D2; subst. assumption.
Qed.

Lemma sentinel_stops_playback_witness :
  signal_at (Lab.quiet Lab.trace_with_sentinel) = None /\
  spawns (Lab.quiet Lab.trace_with_sentinel) /\
  time_flows (Lab.quiet Lab.trace_with_sentinel) /\
  py_float (Lab.quiet Lab.trace_with_sentinel) "0" = Some 0 /\
  py_float (Lab.quiet Lab.trace_with_sentinel) "2" = Some 2 /\
  py_int (Lab.quiet Lab.trace_with_sentinel) "1000" = Some 1000%Z /\
  py_int (Lab.quiet Lab.trace_with_sentinel) "-1" = Some (-1)%Z /\
  exists w' l,
    event_loop (Lab.quiet Lab.trace_with_sentinel)
      (checkpoint (Lab.quiet Lab.trace_with_sentinel)) "s1-eth2" "50ms" 0 false
      Lab.trace_with_sentinel (initial_world 0) = (Returned tt, w') /\
    log w' = l /\
    commands l = map (Tc.shell "s1-eth2") (Tc.initial_apply 1000 "50ms") /\
    initial_applies l = 1%nat /\
    0 + 2 <= clock w'.
Proof.
  split; [reflexivity | ]. split; [lab_spawns | ]. split; [lab_time_flows | ].
  repeat (split; [reflexivity | ]).
  destruct (sentinel_stops_playback (Lab.quiet Lab.trace_with_sentinel) "s1-eth2" "50ms" 0)
    as (_ & _ & Ex); [reflexivity | lab_spawns | lab_time_flows | ].
  destruct (Ex eq_refl eq_refl eq_refl eq_refl (initial_world 0))
    as (w' & l & E & L & C & I & D).
  exists w', l. repeat split; assumption.
Defined.

(** C6.  The start time is read once, before the trace is opened, and the
    target time of an event is the start time plus its offset.  When the
    target time is in the future the scheduler sleeps for exactly the time
    that is left and goes on at that instant or later; when it is now or in
    the past the scheduler goes on in the same world, without a sleep and
    without a message.  So once an event is applied, a following event with
    the same or a smaller offset is due, and the loop goes on with it at
    once: it is neither held back nor dropped.  In particular the run of
    [0,500] then [0,800] sleeps only for the fixed pause of the initial
    apply, and its commands are the initial apply at rate 500, the change to
    rate 800, and the delete of the cleanup; before that delete the
    hierarchy is configured with rate 800; the start time of that run is
    the clock read once, after the three opening messages and before the
    [try] statement. *)
Theorem events_fire_when_due env :
  signal_at env = None -> spawns env -> time_flows env ->
  (forall start_time time_offset w,
     clock w < start_time + time_offset ->
     let d := start_time + time_offset - clock w in
     exists w',
       sleep_until env (checkpoint env) start_time time_offset w = (Returned tt, w') /\
       log w' = log w ++ [Printed (MsgSleeping d); Slept d] /\
       start_time + time_offset <= clock w') /\
  (forall start_time time_offset w,
     start_time + time_offset <= clock w ->
     sleep_until env (checkpoint env) start_time time_offset w = (Returned tt, w)) /\
  (forall interface latency start_time flag row1 row2 rest w t1 r1 t2 r2,
     skipped_silently row1 = false -> parse_row env row1 = Some (t1, r1) ->
     skipped_silently row2 = false -> parse_row env row2 = Some (t2, r2) ->
     (0 <= r1)%Z -> t2 <= t1 ->
     exists w1 l1,
       event_loop env (checkpoint env) interface latency start_time flag
         (row1 :: row2 :: rest) w =
       event_loop env (checkpoint env) interface latency start_time true (row2 :: rest) w1 /\
       log w1 = log w ++ l1 /\
       commands l1 = map (Tc.shell interface) (schedule latency flag [(t1, r1)]) /\
       sleep_until env (checkpoint env) start_time t2 w1 = (Returned tt, w1)) /\
  (forall argv t0,
     (3 <= length argv <= 4)%nat ->
     open_csv env (nth 2 argv ""%string) = Rows [["0"; "500"]; ["0"; "800"]]%string ->
     py_float env "0" = Some 0 ->
     py_int env "500" = Some 500%Z -> py_int env "800" = Some 800%Z ->
     let interface := nth 1 argv ""%string in
     run env argv t0 =
       guarded_run env (checkpoint env) interface (nth 2 argv ""%string) (latency_of argv)
         (clock (started env argv t0)) (started env argv t0) /\
     exists w',
       run env argv t0 = (Raised (SystemExit 0), w') /\
       actions (log w') =
         Opened (nth 2 argv ""%string)
         :: initial_apply_actions interface 500 (latency_of argv)
         ++ [Executed (Tc.shell interface (Tc.rate_change 800))]
         ++ map Executed (cleanup_commands (Some interface)) /\
       sleeps (log w') = [1 # 10] /\
       Tc.state_of (Tc.steps Tc.absent
                      (Tc.initial_apply 500 (latency_of argv) ++ [Tc.rate_change 800]))
         = Tc.Configured 800 (latency_of argv)).
Proof.
  intros Hq Sp F.
  pose proof (checkpoint_quiet env Hq) as CQ.
  split; [ | split; [ | split]].
  - intros start_time time_offset w Hlt d.
    destruct (sleep_until_due env (checkpoint env) CQ start_time time_offset w Hlt)
      as (E & A & D).
    eexists. split; [exact E | ]. split; [exact (proj1 A) | exact (D F)].
  - intros start_time time_offset w Hle.
    apply (sleep_until_late env (checkpoint env) start_time time_offset w Hle).
  - intros interface latency start_time flag row1 row2 rest w t1 r1 t2 r2
      Sk1 Pr1 Sk2 Pr2 Hr Ht.
    destruct (back_to_back env (checkpoint env) CQ interface latency start_time flag
                row1 row2 rest w t1 r1 t2 r2 Sp F Sk1 Pr1 Sk2 Pr2 Hr Ht)
      as (w1 & l1 & E & A & C & L).
    exists w1, l1. split; [exact E | ]. split; [exact (proj1 A) | ]. split; assumption.
  - intros argv t0 Hlen Hfile F0 I500 I800 interface.
    set (rows := [["0"; "500"]; ["0"; "800"]]%string) in *.
    assert (U : usable env rows = [(0, 500%Z); (0, 800%Z)]).
    { unfold rows. simpl. unfold parse_row. simpl. rewrite F0, I500, I800. reflexivity. }
    assert (R : rows_of env (nth 2 argv ""%string) = Some rows).
    { unfold rows_of. rewrite Hfile. reflexivity. }
    destruct (run_prompt env Hq argv t0 rows Sp F Hlen R) as (w' & E & Ac).
    { discriminate. }
    { rewrite U. simpl. repeat constructor; simpl; lra. }
    destruct (run_quiet env Hq argv t0 Hlen) as (w2 & E2 & T & _).
    rewrite E in E2. injection E2 as <-.
    unfold played_of in T. rewrite R, U in T. simpl in T.
    rewrite U, T in Ac. simpl played in Ac.
    split; [apply (run_unfold env Hq argv t0 Hlen) | ].
    exists w'. split; [exact E | ].
    split; [exact Ac | ].
    split; [ | reflexivity].
    rewrite <- sleeps_actions, Ac. unfold cleanup_commands.
    destruct (nth 1 argv "" =? "")%string; reflexivity.
Qed.

Lemma events_fire_when_due_witness :
  signal_at (Lab.quiet Lab.trace_same_offset) = None /\
  spawns (Lab.quiet Lab.trace_same_offset) /\
  time_flows (Lab.quiet Lab.trace_same_offset) /\
  (3 <= length Lab.argv <= 4)%nat /\
  open_csv (Lab.quiet Lab.trace_same_offset) "trace.csv" = Rows Lab.trace_same_offset /\
  py_float (Lab.quiet Lab.trace_same_offset) "0" = Some 0 /\
  py_int (Lab.quiet Lab.trace_same_offset) "500" = Some 500%Z /\
  py_int (Lab.quiet Lab.trace_same_offset) "800" = Some 800%Z /\
  exists w',
    run (Lab.quiet Lab.trace_same_offset) Lab.argv 0 = (Raised (SystemExit 0), w') /\
    sleeps (log w') = [1 # 10] /\
    commands (log w') =
      map (Tc.shell "s1-eth2")
          (Tc.initial_apply 500 "50ms" ++ [Tc.rate_change 800; Tc.DelRoot]).
Proof.
  split; [reflexivity | ]. split; [lab_spawns | ]. split; [lab_time_flows | ].
  split; [simpl; lia | ].
  repeat (split; [reflexivity | ]).
  destruct (events_fire_when_due (Lab.quiet Lab.trace_same_offset)) as (_ & _ & _ & Ex);
    [reflexivity | lab_spawns | lab_time_flows | ].
  destruct (Ex Lab.argv 0) as (_ & w' & E & Ac & Sl & _);
    [simpl; lia | reflexivity | reflexivity | reflexivity | reflexivity | ].
  exists w'. split; [exact E | ]. split; [exact Sl | ].
  rewrite <- commands_actions, Ac. reflexivity.
Defined.

(** ** Cleanup coordinator *)




(** C10, amended.  The cleanup issues the delete of the root discipline if
    and only if the global target interface holds a non-empty name, which is
    the case exactly when an initial apply with a non-empty interface name
    was begun earlier in the run; when no event was ever applied, or when
    the interface name is empty, the cleanup issues no command and changes
    nothing.  In every case the cleanup ends in [sys.exit(0)], and every run
    that passes the argument check ends with exit status 0, a run that
    reached the cleanup from an error path or from a signal included. *)
Theorem cleanup_deletes_iff_target_named env :
  (signal_at env = None ->
   (forall w,
      exists w' l,
        cleanup_tc env (checkpoint env) w = (Raised (SystemExit 0), w') /\
        log w' = log w ++ l /\
        (forall i, target_interface w = Some i -> i <> ""%string ->
           commands l = ["sudo tc qdisc del dev " ++ i ++ " root"]%string) /\
        (target_interface w = None \/ target_interface w = Some ""%string ->
           l = [] /\ w' = w)) /\
   (forall interface rate_kbps latency w,
      target_interface
        (snd (apply_bandwidth_latency env (checkpoint env) interface rate_kbps latency w))
      = Some interface) /\
   (forall argv t0,
      (3 <= length argv <= 4)%nat ->
      exists w',
        run env argv t0 = (Raised (SystemExit 0), w') /\
        target_interface w' =
          match played_of env (nth 2 argv ""%string) with
          | [] => None
          | _ :: _ => Some (nth 1 argv ""%string)
          end /\
        (teardowns (log w') = 1%nat <->
         played_of env (nth 2 argv ""%string) <> [] /\ nth 1 argv ""%string <> ""%string) /\
        (teardowns (log w') = 0%nat <->
         played_of env (nth 2 argv ""%string) = [] \/ nth 1 argv ""%string = ""%string))) /\
  (forall argv t0, (3 <= length argv <= 4)%nat -> exit_code env argv t0 = 0%Z).
Proof.
  split.
  - intros Hq. pose proof (checkpoint_quiet env Hq) as CQ.
    split; [ | split].
    + intros w.
      destruct (cleanup_tc_quiet env (checkpoint env) CQ w) as (w' & l & E & A & T & C).
      exists w', l. split; [exact E | ]. split; [exact (proj1 A) | ]. split.
      * intros i Hi Hne. rewrite Hi in C.
        destruct (String.eqb_spec i ""); [contradiction | ].
        destruct C as (Ac & _). rewrite <- commands_actions, Ac. reflexivity.
      * intros [Hn | He]; [rewrite Hn in C | rewrite He in C; simpl in C];
          destruct C as (-> & ->); auto.
    + intros interface rate_kbps latency w.
      destruct (apply_bandwidth_latency_quiet env (checkpoint env) CQ
                  interface rate_kbps latency w) as (r & w' & l & E & _ & T & _).
      rewrite E. exact T.
    + intros argv t0 Hlen.
      destruct (run_quiet env Hq argv t0 Hlen) as (w' & E & T & Td & _).
      exists w'. split; [exact E | ].
      assert (T' : target_interface w' =
                   match played_of env (nth 2 argv ""%string) with
                   | [] => None
                   | _ :: _ => Some (nth 1 argv ""%string)
                   end).
      { rewrite T. destruct (played_of env (nth 2 argv ""%string)); reflexivity. }
      split; [exact T' | ].
      rewrite Td, T'.
      destruct (played_of env (nth 2 argv ""%string)) as [|ev evs]; cbn [truthy].
      * split; split; try discriminate; auto. intros (H & _). contradiction.
      * destruct (String.eqb_spec (nth 1 argv ""%string) ""%string) as [-> | Hne];
          cbn [negb]; split; split; try discriminate; auto.
        -- intros (_ & H). contradiction.
        -- split; [discriminate | exact Hne].
        -- intros [H | H]; [discriminate | contradiction].
  - intros argv t0 Hlen. unfold exit_code, run.
    rewrite (main_exits_0 env argv Hlen). reflexivity.
Qed.

Lemma cleanup_deletes_iff_target_named_witness :
  signal_at (Lab.quiet Lab.trace_with_sentinel) = None /\
  (3 <= length Lab.argv <= 4)%nat /\
  (exists w',
     run (Lab.quiet Lab.trace_with_sentinel) Lab.argv 0 = (Raised (SystemExit 0), w') /\
     target_interface w' = Some "s1-eth2"%string /\
     teardowns (log w') = 1%nat) /\
  exit_code (Lab.quiet Lab.trace_with_sentinel) Lab.argv 0 = 0%Z.
Proof.
  split; [reflexivity | ]. split; [simpl; lia | ].
  destruct (cleanup_deletes_iff_target_named (Lab.quiet Lab.trace_with_sentinel)) as (Q & X).
  destruct (Q eq_refl) as (_ & _ & R).
  destruct (R Lab.argv 0) as (w' & E & T & (_ & Once) & _); [simpl; lia | ].
  split.
  - exists w'. split; [exact E | ]. split; [exact T | ].
    apply Once. split; discriminate.
  - apply X. simpl; lia.
Defined.

(** C10 as stated fails.  With an empty interface name the initial apply
    takes place and sets the global, and the cleanup issues no delete: the
    commands of the run are those of the initial apply and nothing more. *)
Lemma unnamed_interface_no_delete :
  initial_applies (Lab.log_of (Rows Lab.trace_with_sentinel) None Lab.argv_unnamed) = 1%nat /\
  target_interface
    (snd (run (Lab.env (Rows Lab.trace_with_sentinel) None) Lab.argv_unnamed 0))
    = Some ""%string /\
  teardowns (Lab.log_of (Rows Lab.trace_with_sentinel) None Lab.argv_unnamed) = 0%nat /\
  commands (Lab.log_of (Rows Lab.trace_with_sentinel) None Lab.argv_unnamed) =
    map (Tc.shell "") (Tc.initial_apply 1000 "50ms").
Proof. vm_compute. repeat split. Qed.

(** ** Trace reader *)

Lemma commands_skipping rows :
  commands (map (fun row => Printed (MsgSkipping row)) rows) = [].
Proof. induction rows as [|row rows IH]; simpl; [reflexivity | exact IH]. Qed.

(** C4, amended.  The trace reader fails with TraceEmpty, the message of line
    150 and [sys.exit(1)], when no row is left once the header row is set
    aside, and only then: the file has no row at all, or a header row and
    nothing else.
    Rows that are left count for this check whatever they hold: when rows are
    left and none of them is usable, the reader does not fail; each row is
    skipped, with a diagnostic unless it is blank or a comment, no command
    is issued, and the loop ends normally. *)
Theorem trace_empty_before_filtering env interface trace_file latency start_time w all_rows :
  signal_at env = None ->
  open_csv env trace_file = Rows all_rows ->
  (rows_to_process all_rows = Some [] <->
   all_rows = [] \/
   exists field0 fields, all_rows = [field0 :: fields] /\ is_header_field field0 = true) /\
  (rows_to_process all_rows = Some [] ->
   read_and_play env (checkpoint env) interface trace_file latency start_time w =
     (Raised (SystemExit 1),
      perform env (Printed MsgTraceEmpty) 0 (perform env (Opened trace_file) 0 w))) /\
  (fst (read_and_play env (checkpoint env) interface trace_file latency start_time w)
     = Raised (SystemExit 1) ->
   rows_to_process all_rows = Some []) /\
  (forall rows,
     rows_to_process all_rows = Some rows -> rows <> [] -> usable env rows = [] ->
     let l := Opened trace_file
              :: map (fun row => Printed (MsgSkipping row))
                     (filter (fun row => negb (skipped_silently row)) rows) in
     exists w',
       read_and_play env (checkpoint env) interface trace_file latency start_time w =
         (Returned tt, w') /\
       log w' = log w ++ l /\
       ~ In (Printed MsgTraceEmpty) l /\
       commands l = []).
Proof.
  intros Hq Hfile. pose proof (checkpoint_quiet env Hq) as CQ.
  split; [ | split; [ | split]].
  - unfold rows_to_process. split.
    + destruct all_rows as [|[|field0 fields] rest]; [auto | discriminate | ].
      destruct (is_header_field field0) eqn:H; [ | discriminate].
      intros [= ->]. right. eauto.
    + intros [-> | (field0 & fields & -> & H)]; [reflexivity | ].
      rewrite H. reflexivity.
  - intros R. unfold read_and_play, read_all_rows, bind.
    rewrite CQ, Hfile, R. unfold bind. rewrite print_quiet by exact CQ. reflexivity.
  - unfold read_and_play, read_all_rows, bind. rewrite CQ, Hfile.
    destruct (rows_to_process all_rows) as [[|row rows]|]; [reflexivity | | discriminate].
    destruct (event_loop_quiet env (checkpoint env) CQ interface latency start_time
                (row :: rows) false (perform env (Opened trace_file) 0 w))
      as (r & w' & l & E & _ & _ & _ & O & _).
    rewrite E. simpl. destruct O as [-> | [e ->]]; discriminate.
  - intros rows R Hne U l. unfold read_and_play, read_all_rows, bind.
    rewrite CQ, Hfile, R. destruct rows as [|row rows]; [contradiction | ].
    destruct (event_loop_nothing_usable env (checkpoint env) CQ interface latency start_time
                (row :: rows) U false (perform env (Opened trace_file) 0 w))
      as (w' & E & (L & _) & _).
    exists w'. split; [exact E | ].
    split; [rewrite L; simpl; rewrite <- app_assoc; reflexivity | ].
    split.
    + intros [I | I]; [discriminate | ].
      apply in_map_iff in I. destruct I as (r & I & _). discriminate.
    + unfold l. simpl. apply commands_skipping.
Qed.

Lemma trace_empty_before_filtering_witness :
  signal_at (Lab.quiet Lab.trace_header_only) = None /\
  open_csv (Lab.quiet Lab.trace_header_only) "trace.csv" = Rows Lab.trace_header_only /\
  rows_to_process Lab.trace_header_only = Some [] /\
  read_and_play (Lab.quiet Lab.trace_header_only) (checkpoint (Lab.quiet Lab.trace_header_only))
    "s1-eth2" "trace.csv" "50ms" 0 (initial_world 0) =
    (Raised (SystemExit 1),
     perform (Lab.quiet Lab.trace_header_only) (Printed MsgTraceEmpty) 0
       (perform (Lab.quiet Lab.trace_header_only) (Opened "trace.csv") 0 (initial_world 0))).
Proof.
  split; [reflexivity | ]. split; [reflexivity | ]. split; [reflexivity | ].
  destruct (trace_empty_before_filtering (Lab.quiet Lab.trace_header_only)
              "s1-eth2" "trace.csv" "50ms" 0 (initial_world 0)
              Lab.trace_header_only eq_refl eq_refl) as (_ & Empty & _ & _).
  apply Empty. reflexivity.
Defined.

(** C4 as stated fails.  In a trace with a header and a body of comments and
    malformed rows no usable row is left after filtering, and the reader does
    not fail: the malformed rows are skipped with their diagnostic, the
    [try] body returns normally and the message of TraceEmpty is not
    printed. *)
Lemma nothing_usable_not_reported :
  rows_to_process Lab.trace_nothing_usable
    = Some [["# a comment"]; ["abc"; "500"]; ["7"]]%string /\
  usable (Lab.quiet Lab.trace_nothing_usable)
    [["# a comment"]; ["abc"; "500"]; ["7"]]%string = [] /\
  fst (read_and_play (Lab.quiet Lab.trace_nothing_usable)
         (checkpoint (Lab.quiet Lab.trace_nothing_usable))
         "s1-eth2" "trace.csv" "50ms" 0 (initial_world 0))
    = Returned tt /\
  printed (Lab.log_of (Rows Lab.trace_nothing_usable) None Lab.argv) =
    [ MsgStarting "s1-eth2"; MsgUsingTrace "trace.csv"; MsgApplyingLatency "50ms";
      MsgSkipping ["abc"; "500"]%string; MsgSkipping ["7"]%string ] /\
  ~ In MsgTraceEmpty (printed (Lab.log_of (Rows Lab.trace_nothing_usable) None Lab.argv)).
Proof.
  vm_compute. repeat split.
  intros H. repeat (destruct H as [H | H]; [discriminate | ]). exact H.
Qed.

(** C9 on its failing input.  A trace file that starts with a blank line:
    the header check of line 144 raises IndexError on the empty first row,
    the generic [except] clause reports it as an unexpected error, and the
    row [0,500] that follows, which is usable, is never processed. *)
Theorem blank_first_row_aborts_playback :
  rows_to_process Lab.trace_blank_first = None /\
  usable (Lab.quiet Lab.trace_blank_first) Lab.trace_blank_first = [(0, 500%Z)] /\
  fst (run (Lab.quiet Lab.trace_blank_first) Lab.argv 0) = Raised (SystemExit 0) /\
  log (snd (run (Lab.quiet Lab.trace_blank_first) Lab.argv 0)) =
    [ Printed (MsgStarting "s1-eth2"); Printed (MsgUsingTrace "trace.csv");
      Printed (MsgApplyingLatency "50ms"); Opened "trace.csv";
      Printed (MsgUnexpected IndexError) ] /\
  commands (log (snd (run (Lab.quiet Lab.trace_blank_first) Lab.argv 0))) = [] /\
  (* the same rows without the blank line are played *)
  commands (Lab.log_of (Rows [["0"; "500"]]%string) None Lab.argv) =
    map (Tc.shell "s1-eth2") (Tc.initial_apply 500 "50ms" ++ [Tc.DelRoot]).
Proof. vm_compute. repeat split. Qed.

(** ** Exit status *)

(** C3 on its failing inputs.  A missing trace file and an empty trace both
    reach [sys.exit(1)], and the process still ends with status 0, because
    the [finally] clause runs cleanup_tc, whose [sys.exit(0)] replaces the
    exit that was under way.  Only the argument-count error, which is
    outside the [try] statement, ends with status 1. *)
Theorem exit_status_of_fatal_errors :
  exit_code (Lab.env NoSuchFile None) Lab.argv 0 = 0%Z /\
  printed (Lab.log_of NoSuchFile None Lab.argv) =
    [ MsgStarting "s1-eth2"; MsgUsingTrace "trace.csv"; MsgApplyingLatency "50ms";
      MsgTraceNotFound "trace.csv" ] /\
  fst (try_except_Exception
         (read_and_play (Lab.env NoSuchFile None) (checkpoint (Lab.env NoSuchFile None))
            "s1-eth2" "trace.csv" "50ms" 0)
         (on_exception (Lab.env NoSuchFile None) (checkpoint (Lab.env NoSuchFile None))
            "trace.csv") (initial_world 0))
    = Raised (SystemExit 1) /\
  exit_code (Lab.env (Rows []) None) Lab.argv 0 = 0%Z /\
  printed (Lab.log_of (Rows []) None Lab.argv) =
    [ MsgStarting "s1-eth2"; MsgUsingTrace "trace.csv"; MsgApplyingLatency "50ms";
      MsgTraceEmpty ] /\
  exit_code (Lab.env (Rows Lab.trace_header_only) None) Lab.argv 0 = 0%Z /\
  exit_code (Lab.env (Rows Lab.trace_two_rates) None) ["bandwidth_control.py"; "s1-eth2"]%string 0
    = 1%Z /\
  exit_code (Lab.env (Rows Lab.trace_two_rates) None) Lab.argv 0 = 0%Z /\
  exit_code (Lab.env (Rows Lab.trace_two_rates) (Some 21%nat)) Lab.argv 0 = 0%Z.
Proof. vm_compute. repeat split. Qed.

(* ===================================================================== *)
(** * Further properties of the code *)
(* ===================================================================== *)

(** ** run_tc_command and cleanup_tc, outcome by outcome *)

Lemma run_tc_command_completed env command w returncode stdout stderr :
  signal_at env = None ->
  subprocess_run env (S (tick w)) ("sudo tc " ++ command)%string
    = Completed returncode stdout stderr ->
  exists w',
    run_tc_command env (checkpoint env) command w = (Returned tt, w') /\
    log w' =
      log w
      ++ [Printed (MsgExecuting ("sudo tc " ++ command)%string);
          Executed ("sudo tc " ++ command)%string]
      ++ (if (returncode =? 0)%Z then []
          else [Printed (MsgTcWarning command); Printed (MsgReturnCode returncode);
                Printed (MsgStderr stderr); Printed (MsgStdout stdout)]) /\
    target_interface w' = target_interface w /\
    tick w' = (tick w + (if (returncode =? 0)%Z then 2 else 6))%nat.
Proof.
  intros Hq R. pose proof (checkpoint_quiet env Hq) as CQ.
  unfold run_tc_command, bind. rewrite print_quiet by exact CQ.
  unfold try_except_Exception, subprocess_run_shell, bind. rewrite CQ.
  cbn [perform tick]. rewrite R.
  destruct (returncode =? 0)%Z; cbn [negb].
  - eexists. split; [reflexivity | ]. unfold perform; cbn [log target_interface tick].
    rewrite <- app_assoc. repeat split. lia.
  - rewrite !print_quiet by exact CQ.
    eexists. split; [destruct (_ && _); reflexivity | ].
    unfold perform; cbn [log target_interface tick]. rewrite <- !app_assoc. repeat split. lia.
Qed.

Lemma run_tc_command_failed env command w e :
  signal_at env = None ->
  subprocess_run env (S (tick w)) ("sudo tc " ++ command)%string = SpawnFailed e ->
  exists w',
    run_tc_command env (checkpoint env) command w = (Raised (Exc e), w') /\
    log w' =
      log w
      ++ [Printed (MsgExecuting ("sudo tc " ++ command)%string);
          Executed ("sudo tc " ++ command)%string;
          Printed (MsgCritical e)] /\
    target_interface w' = target_interface w /\
    tick w' = (tick w + 3)%nat.
Proof.
  intros Hq R. pose proof (checkpoint_quiet env Hq) as CQ.
  unfold run_tc_command, bind. rewrite print_quiet by exact CQ.
  unfold try_except_Exception, subprocess_run_shell, bind. rewrite CQ.
  cbn [perform tick]. rewrite R. rewrite print_quiet by exact CQ.
  eexists. split; [reflexivity | ]. unfold perform; cbn [log target_interface tick].
  rewrite <- !app_assoc. repeat split. lia.
Qed.

(** X1.  A command that was started never makes run_tc_command raise,
    whatever its return code, its output and its text: with return code 0
    the call leaves the announcement and the command in the log, with any
    other return code it adds the four diagnostic lines, warning, return
    code, stderr and stdout in that order, and returns all the same.  The
    test on "delete" and on the error text changes nothing. *)
Theorem run_tc_command_tolerates_return_codes env command w returncode stdout stderr :
  signal_at env = None ->
  subprocess_run env (S (tick w)) ("sudo tc " ++ command)%string
    = Completed returncode stdout stderr ->
  exists w',
    run_tc_command env (checkpoint env) command w = (Returned tt, w') /\
    log w' =
      log w
      ++ [Printed (MsgExecuting ("sudo tc " ++ command)%string);
          Executed ("sudo tc " ++ command)%string]
      ++ (if (returncode =? 0)%Z then []
          else [Printed (MsgTcWarning command); Printed (MsgReturnCode returncode);
                Printed (MsgStderr stderr); Printed (MsgStdout stdout)]) /\
    target_interface w' = target_interface w /\
    tick w' = (tick w + (if (returncode =? 0)%Z then 2 else 6))%nat.
Proof. apply run_tc_command_completed. Qed.

Lemma run_tc_command_tolerates_return_codes_witness :
  signal_at (Lab.quiet Lab.trace_two_rates) = None /\
  subprocess_run (Lab.quiet Lab.trace_two_rates) (S (tick (initial_world 0)))
    "sudo tc qdisc del dev s1-eth2 root"
    = Completed 2 "" "Error: Cannot delete qdisc with handle of zero." /\
  exists w',
    run_tc_command (Lab.quiet Lab.trace_two_rates) (checkpoint (Lab.quiet Lab.trace_two_rates))
      "qdisc del dev s1-eth2 root" (initial_world 0) = (Returned tt, w') /\
    tick w' = 6%nat.
Proof.
  split; [reflexivity | ]. split; [reflexivity | ].
  destruct (run_tc_command_tolerates_return_codes (Lab.quiet Lab.trace_two_rates)
              "qdisc del dev s1-eth2 root" (initial_world 0)
              2 "" "Error: Cannot delete qdisc with handle of zero." eq_refl eq_refl)
    as (w' & E & _ & _ & T).
  exists w'. split; [exact E | exact T].
Defined.

(** X2.  When the command cannot be started, run_tc_command prints the
    critical error and raises the very exception that came out of
    [subprocess.run]; the command counts as attempted, and nothing else is
    printed. *)
Theorem run_tc_command_reraises env command w e :
  signal_at env = None ->
  subprocess_run env (S (tick w)) ("sudo tc " ++ command)%string = SpawnFailed e ->
  exists w',
    run_tc_command env (checkpoint env) command w = (Raised (Exc e), w') /\
    log w' =
      log w
      ++ [Printed (MsgExecuting ("sudo tc " ++ command)%string);
          Executed ("sudo tc " ++ command)%string;
          Printed (MsgCritical e)] /\
    target_interface w' = target_interface w.
Proof.
  intros Hq R. destruct (run_tc_command_failed env command w e Hq R) as (w' & E & L & T & _).
  exists w'. repeat split; assumption.
Qed.

Lemma run_tc_command_reraises_witness :
  signal_at (Lab.broken (Rows Lab.trace_two_rates)) = None /\
  subprocess_run (Lab.broken (Rows Lab.trace_two_rates)) (S (tick (initial_world 0)))
    "sudo tc qdisc del dev s1-eth2 root" = SpawnFailed (OtherException "OSError") /\
  exists w',
    run_tc_command (Lab.broken (Rows Lab.trace_two_rates))
      (checkpoint (Lab.broken (Rows Lab.trace_two_rates)))
      "qdisc del dev s1-eth2 root" (initial_world 0)
    = (Raised (Exc (OtherException "OSError")), w').
Proof.
  split; [reflexivity | ]. split; [reflexivity | ].
  destruct (run_tc_command_reraises (Lab.broken (Rows Lab.trace_two_rates))
              "qdisc del dev s1-eth2 root" (initial_world 0)
              (OtherException "OSError") eq_refl eq_refl) as (w' & E & _).
  exists w'. exact E.
Defined.


Lemma cleanup_tc_failed env w i e :
  signal_at env = None ->
  target_interface w = Some i -> i <> ""%string ->
  subprocess_run env (S (S (tick w))) (Tc.shell i Tc.DelRoot) = SpawnFailed e ->
  exists w',
    cleanup_tc env (checkpoint env) w = (Raised (SystemExit 0), w') /\
    log w' =
      log w
      ++ [Printed (MsgCleaningUp i);
          Printed (MsgExecuting (Tc.shell i Tc.DelRoot));
          Executed (Tc.shell i Tc.DelRoot);
          Printed (MsgCritical e);
          Printed (MsgCleanupFailed e)].
Proof.
  intros Hq T Hne R. pose proof (checkpoint_quiet env Hq) as CQ.
  assert (Ei : (i =? "")%string = false) by (apply String.eqb_neq; exact Hne).
  set (w0 := perform env (Printed (MsgCleaningUp i)) 0 w).
  assert (L0 : log w0 = log w ++ [Printed (MsgCleaningUp i)]) by reflexivity.
  unfold cleanup_tc, bind, get_target, sys_exit, raise. rewrite T. cbn [truthy].
  rewrite Ei. cbn [negb]. rewrite print_quiet by exact CQ. fold w0.
  unfold try_except_Exception, bind.
  destruct (run_tc_command_failed env ("qdisc del dev " ++ i ++ " root")%string
              w0 e Hq R) as (w1 & E1 & L1 & _).
  rewrite E1, print_quiet by exact CQ.
  eexists. split; [reflexivity | ].
  unfold perform at 1; cbn [log]. rewrite L1, L0, <- !app_assoc. reflexivity.
Qed.

(** X3.  With a target interface that is set and not empty, cleanup_tc ends
    in [sys.exit(0)] whatever becomes of its delete command.  When the
    command cannot be started, the exception stays inside: the critical
    error and "Cleanup partially failed" are printed.  When the command was
    started, "Cleanup successful." is printed whatever its return code, a
    failing one included. *)
Theorem cleanup_tc_contains_failures env w i :
  signal_at env = None ->
  target_interface w = Some i -> i <> ""%string ->
  (forall e,
     subprocess_run env (S (S (tick w))) (Tc.shell i Tc.DelRoot) = SpawnFailed e ->
     exists w',
       cleanup_tc env (checkpoint env) w = (Raised (SystemExit 0), w') /\
       log w' =
         log w
         ++ [Printed (MsgCleaningUp i);
             Printed (MsgExecuting (Tc.shell i Tc.DelRoot));
             Executed (Tc.shell i Tc.DelRoot);
             Printed (MsgCritical e);
             Printed (MsgCleanupFailed e)]) /\
  (forall returncode stdout stderr,
     subprocess_run env (S (S (tick w))) (Tc.shell i Tc.DelRoot)
       = Completed returncode stdout stderr ->
     exists w' l,
       cleanup_tc env (checkpoint env) w = (Raised (SystemExit 0), w') /\
       log w' =
         log w ++ Printed (MsgCleaningUp i) :: l ++ [Printed MsgCleanupSuccessful] /\
       commands l = [Tc.shell i Tc.DelRoot]).
Proof.
  intros Hq T Hne. pose proof (checkpoint_quiet env Hq) as CQ.
  assert (Ei : (i =? "")%string = false) by (apply String.eqb_neq; exact Hne).
  set (w0 := perform env (Printed (MsgCleaningUp i)) 0 w).
  assert (L0 : log w0 = log w ++ [Printed (MsgCleaningUp i)]) by reflexivity.
  split.
  - intros e R. apply (cleanup_tc_failed env w i e Hq T Hne R).
  - intros rc out err R.
    unfold cleanup_tc, bind, get_target, sys_exit, raise. rewrite T. cbn [truthy].
    rewrite Ei. cbn [negb]. rewrite print_quiet by exact CQ. fold w0.
    unfold try_except_Exception, bind.
    destruct (run_tc_command_completed env ("qdisc del dev " ++ i ++ " root")%string
                w0 rc out err Hq R) as (w1 & E1 & L1 & _).
    rewrite E1, print_quiet by exact CQ.
    eexists.
    exists ([Printed (MsgExecuting (Tc.shell i Tc.DelRoot)); Executed (Tc.shell i Tc.DelRoot)]
            ++ (if (rc =? 0)%Z then []
                else [Printed (MsgTcWarning ("qdisc del dev " ++ i ++ " root")%string);
                      Printed (MsgReturnCode rc); Printed (MsgStderr err);
                      Printed (MsgStdout out)])).
    split; [reflexivity | ].
    split.
    + unfold perform at 1; cbn [log]. rewrite L1, L0, <- !app_assoc. reflexivity.
    + destruct (rc =? 0)%Z; reflexivity.
Qed.

Lemma cleanup_tc_contains_failures_witness :
  signal_at (Lab.broken (Rows Lab.trace_two_rates)) = None /\
  exists w',
    cleanup_tc (Lab.broken (Rows Lab.trace_two_rates))
      (checkpoint (Lab.broken (Rows Lab.trace_two_rates)))
      {| tick := 0; clock := 0; target_interface := Some "s1-eth2"%string; log := [] |}
    = (Raised (SystemExit 0), w') /\
    last (log w') (Opened "") = Printed (MsgCleanupFailed (OtherException "OSError")).
Proof.
  split; [reflexivity | ].
  destruct (cleanup_tc_contains_failures (Lab.broken (Rows Lab.trace_two_rates))
              {| tick := 0; clock := 0; target_interface := Some "s1-eth2"%string; log := [] |}
              "s1-eth2" eq_refl eq_refl) as (F & _); [discriminate | ].
  destruct (F (OtherException "OSError") eq_refl) as (w' & E & L).
  exists w'. split; [exact E | ]. rewrite L. reflexivity.
Defined.

(** ** The top level *)

(** X4.  With fewer than two or more than three arguments after the script
    name, a run that receives no signal prints the two usage lines and exits
    with status 1: no file is opened, no command is issued and the target
    interface is not set. *)
Theorem usage_error_touches_nothing env argv t0 :
  signal_at env = None ->
  (length argv < 3 \/ 4 < length argv)%nat ->
  exists w',
    run env argv t0 = (Raised (SystemExit 1), w') /\
    log w' = [Printed MsgUsage; Printed MsgExample] /\
    target_interface w' = None /\
    exit_code env argv t0 = 1%Z.
Proof.
  intros _ Hlen. unfold exit_code, run. rewrite (main_usage env argv _ Hlen).
  eexists. split; [reflexivity | ]. repeat split.
Qed.

Lemma usage_error_touches_nothing_witness :
  signal_at (Lab.quiet Lab.trace_two_rates) = None /\
  (length ["bandwidth_control.py"; "s1-eth2"]%string < 3 \/
   4 < length ["bandwidth_control.py"; "s1-eth2"]%string)%nat /\
  exit_code (Lab.quiet Lab.trace_two_rates)
    ["bandwidth_control.py"; "s1-eth2"]%string 0 = 1%Z.
Proof.
  split; [reflexivity | ]. split; [left; simpl; lia | ].
  destruct (usage_error_touches_nothing (Lab.quiet Lab.trace_two_rates)
              ["bandwidth_control.py"; "s1-eth2"]%string 0) as (w' & _ & _ & _ & X);
    [reflexivity | left; simpl; lia | exact X].
Defined.

(** ** The rows of the trace *)

Lemma usable_app env rows1 rows2 :
  usable env (rows1 ++ rows2) = usable env rows1 ++ usable env rows2.
Proof.
  induction rows1 as [|row rows1 IH]; simpl; [reflexivity | ].
  destruct (skipped_silently row); [exact IH | ].
  destruct (parse_row env row); [simpl; rewrite IH; reflexivity | exact IH].
Qed.

(** X5.  A row that is blank, a comment or unparseable may stand anywhere in
    the body of the trace: the commands of the loop are those of the trace
    without that row. *)
Theorem unusable_row_changes_no_command env interface latency start_time pre row post w :
  signal_at env = None -> spawns env ->
  skipped_silently row = true \/ parse_row env row = None ->
  exists w1 l1 w2 l2,
    event_loop env (checkpoint env) interface latency start_time false
      (pre ++ row :: post) w = (Returned tt, w1) /\
    event_loop env (checkpoint env) interface latency start_time false
      (pre ++ post) w = (Returned tt, w2) /\
    log w1 = log w ++ l1 /\ log w2 = log w ++ l2 /\
    commands l1 = commands l2 /\
    initial_applies l1 = initial_applies l2.
Proof.
  intros Hq Sp Bad. pose proof (checkpoint_quiet env Hq) as CQ.
  destruct (event_loop_quiet env (checkpoint env) CQ interface latency start_time
              (pre ++ row :: post) false w) as (r1 & w1 & l1 & E1 & A1 & _ & _ & _ & S1).
  destruct (event_loop_quiet env (checkpoint env) CQ interface latency start_time
              (pre ++ post) false w) as (r2 & w2 & l2 & E2 & A2 & _ & _ & _ & S2).
  destruct (S1 Sp) as (-> & C1 & I1 & _). destruct (S2 Sp) as (-> & C2 & I2 & _).
  exists w1, l1, w2, l2.
  split; [exact E1 | ]. split; [exact E2 | ].
  split; [exact (proj1 A1) | ]. split; [exact (proj1 A2) | ].
  assert (U : usable env (pre ++ row :: post) = usable env (pre ++ post)).
  { rewrite !usable_app. f_equal. simpl.
    destruct (skipped_silently row); [reflexivity | ].
    destruct Bad as [Bad | Bad]; [discriminate | rewrite Bad; reflexivity]. }
  rewrite C1, C2, I1, I2, U. split; reflexivity.
Qed.

Lemma unusable_row_changes_no_command_witness :
  signal_at (Lab.quiet Lab.trace_two_rates) = None /\
  spawns (Lab.quiet Lab.trace_two_rates) /\
  (skipped_silently ["abc"; "500"]%string = true \/
   parse_row (Lab.quiet Lab.trace_two_rates) ["abc"; "500"]%string = None) /\
  exists w1 w2,
    event_loop (Lab.quiet Lab.trace_two_rates) (checkpoint (Lab.quiet Lab.trace_two_rates))
      "s1-eth2" "50ms" 0 false
      [["0"; "1000"]; ["abc"; "500"]; ["5"; "2000"]]%string (initial_world 0)
      = (Returned tt, w1) /\
    event_loop (Lab.quiet Lab.trace_two_rates) (checkpoint (Lab.quiet Lab.trace_two_rates))
      "s1-eth2" "50ms" 0 false
      [["0"; "1000"]; ["5"; "2000"]]%string (initial_world 0)
      = (Returned tt, w2) /\
    commands (log w1) = commands (log w2).
Proof.
  split; [reflexivity | ]. split; [lab_spawns | ]. split; [right; reflexivity | ].
  destruct (unusable_row_changes_no_command (Lab.quiet Lab.trace_two_rates)
              "s1-eth2" "50ms" 0 [["0"; "1000"]]%string ["abc"; "500"]%string
              [["5"; "2000"]]%string (initial_world 0))
    as (w1 & l1 & w2 & l2 & E1 & E2 & L1 & L2 & C & _);
    [reflexivity | lab_spawns | right; reflexivity | ].
  exists w1, w2. split; [exact E1 | ]. split; [exact E2 | ].
  rewrite L1, L2. exact C.
Defined.

Lemma usable_first_two_fields env rows : usable env (map (firstn 2) rows) = usable env rows.
Proof.
  induction rows as [|row rows IH]; [reflexivity | ].
  assert (S : skipped_silently (firstn 2 row) = skipped_silently row).
  { destruct row as [|f0 [|f1 fs]]; reflexivity. }
  assert (P : parse_row env (firstn 2 row) = parse_row env row).
  { destruct row as [|f0 [|f1 fs]]; reflexivity. }
  cbn [map usable]. rewrite S, P, IH. reflexivity.
Qed.

(** X6.  Only the first two fields of a row are looked at: a row with more
    than two fields is not rejected for its column count, and the commands of
    the loop are those of the trace cut down to its first two columns. *)
Theorem extra_fields_are_ignored env interface latency start_time rows w :
  signal_at env = None -> spawns env ->
  exists w1 l1 w2 l2,
    event_loop env (checkpoint env) interface latency start_time false rows w
      = (Returned tt, w1) /\
    event_loop env (checkpoint env) interface latency start_time false
      (map (firstn 2) rows) w = (Returned tt, w2) /\
    log w1 = log w ++ l1 /\ log w2 = log w ++ l2 /\
    commands l1 = commands l2.
Proof.
  intros Hq Sp. pose proof (checkpoint_quiet env Hq) as CQ.
  destruct (event_loop_quiet env (checkpoint env) CQ interface latency start_time
              rows false w) as (r1 & w1 & l1 & E1 & A1 & _ & _ & _ & S1).
  destruct (event_loop_quiet env (checkpoint env) CQ interface latency start_time
              (map (firstn 2) rows) false w) as (r2 & w2 & l2 & E2 & A2 & _ & _ & _ & S2).
  destruct (S1 Sp) as (-> & C1 & _). destruct (S2 Sp) as (-> & C2 & _).
  exists w1, l1, w2, l2.
  split; [exact E1 | ]. split; [exact E2 | ].
  split; [exact (proj1 A1) | ]. split; [exact (proj1 A2) | ].
  rewrite C1, C2, usable_first_two_fields. reflexivity.
Qed.

Lemma extra_fields_are_ignored_witness :
  signal_at (Lab.quiet Lab.trace_two_rates) = None /\
  spawns (Lab.quiet Lab.trace_two_rates) /\
  exists w1,
    event_loop (Lab.quiet Lab.trace_two_rates) (checkpoint (Lab.quiet Lab.trace_two_rates))
      "s1-eth2" "50ms" 0 false [["0"; "1000"; "spare"]]%string (initial_world 0)
      = (Returned tt, w1) /\
    commands (log w1) = map (Tc.shell "s1-eth2") (Tc.initial_apply 1000 "50ms").
Proof.
  split; [reflexivity | ]. split; [lab_spawns | ].
  destruct (extra_fields_are_ignored (Lab.quiet Lab.trace_two_rates)
              "s1-eth2" "50ms" 0 [["0"; "1000"; "spare"]]%string (initial_world 0))
    as (w1 & l1 & w2 & l2 & E1 & E2 & L1 & L2 & C); [reflexivity | lab_spawns | ].
  exists w1. split; [exact E1 | ].
  rewrite L1. change (log (initial_world 0) ++ l1) with l1. rewrite C.
  assert (H : log w2 = l2) by (rewrite L2; reflexivity). rewrite <- H.
  vm_compute in E2. injection E2 as <-. reflexivity.
Defined.

(** X7.  A header row is transparent: a trace file whose first row starts
    with the comment mark or with the time column's name, in any case and
    with blanks around, runs exactly as the same file without that row,
    provided the row that follows is not itself taken for a header and is
    not blank.  The two runs end in the same outcome and the same world,
    signal or not. *)
Theorem header_row_is_transparent env argv t0 field0 fields rows :
  is_header_field field0 = true ->
  rows_to_process rows = Some rows ->
  run (with_trace env (Rows ((field0 :: fields) :: rows))) argv t0 =
  run (with_trace env (Rows rows)) argv t0.
Proof.
  intros H R. unfold run, main.
  destruct ((length argv <? 3)%nat || (4 <? length argv)%nat); [reflexivity | ].
  unfold bind.
  change (print (with_trace env (Rows ((field0 :: fields) :: rows)))
            (checkpoint (with_trace env (Rows ((field0 :: fields) :: rows)))))
    with (print (with_trace env (Rows rows)) (checkpoint (with_trace env (Rows rows)))).
  repeat match goal with
         | |- context [print ?e ?c ?m ?w] =>
             destruct (print e c m w) as [[[]|?] ?]; [ | reflexivity]
         end.
  unfold time_time, guarded_run, try_finally, try_except_Exception, read_and_play, bind.
  change (read_all_rows (with_trace env (Rows ((field0 :: fields) :: rows)))
            (checkpoint (with_trace env (Rows ((field0 :: fields) :: rows)))))
    with (fun trace_file : string =>
            (checkpoint (with_trace env (Rows rows)) ;;
             fun w => (Returned ((field0 :: fields) :: rows),
                       perform (with_trace env (Rows rows)) (Opened trace_file) 0 w))%py).
  change (read_all_rows (with_trace env (Rows rows)) (checkpoint (with_trace env (Rows rows))))
    with (fun trace_file : string =>
            (checkpoint (with_trace env (Rows rows)) ;;
             fun w => (Returned rows,
                       perform (with_trace env (Rows rows)) (Opened trace_file) 0 w))%py).
  unfold bind.
  match goal with
  | |- context [checkpoint ?e ?w] => destruct (checkpoint e w) as [[[]|?] ?]
  end; [ | reflexivity].
  cbn [rows_to_process]. rewrite H, R.
  reflexivity.
Qed.

Lemma header_row_is_transparent_witness :
  is_header_field "# Time (s)" = true /\
  rows_to_process Lab.trace_two_rates = Some Lab.trace_two_rates /\
  run (with_trace (Lab.quiet []) (Rows (["# Time (s)"; " Throughput (kbps)"]%string
                                         :: Lab.trace_two_rates))) Lab.argv 0 =
  run (with_trace (Lab.quiet []) (Rows Lab.trace_two_rates)) Lab.argv 0.
Proof.
  split; [reflexivity | ]. split; [reflexivity | ].
  apply (header_row_is_transparent (Lab.quiet []) Lab.argv 0
           "# Time (s)" [" Throughput (kbps)"]%string Lab.trace_two_rates);
    reflexivity.
Defined.

(** ** Time *)

(** X8.  Playback takes at least as long as the trace says: when the loop
    returns, the offset of every event it got to, the sentinel included, has
    elapsed since the start time.  Events behind the sentinel do not count. *)
Theorem playback_outlasts_offsets env interface latency start_time rows w :
  signal_at env = None -> spawns env -> time_flows env ->
  exists w',
    event_loop env (checkpoint env) interface latency start_time false rows w
      = (Returned tt, w') /\
    clock w <= clock w' /\
    forall time_offset rate_kbps,
      In (time_offset, rate_kbps) (reached (usable env rows)) ->
      start_time + time_offset <= clock w'.
Proof.
  intros Hq Sp F. pose proof (checkpoint_quiet env Hq) as CQ.
  destruct (event_loop_quiet env (checkpoint env) CQ interface latency start_time
              rows false w) as (r & w' & l & E & A & _ & _ & _ & S).
  destruct (S Sp) as (-> & _ & _ & D).
  exists w'. split; [exact E | ]. split; [exact (proj2 A F) | ].
  intros t r I. specialize (D F). rewrite Forall_forall in D.
  exact (D (t, r) I).
Qed.

Lemma playback_outlasts_offsets_witness :
  signal_at (Lab.quiet Lab.trace_two_rates) = None /\
  spawns (Lab.quiet Lab.trace_two_rates) /\
  time_flows (Lab.quiet Lab.trace_two_rates) /\
  exists w',
    event_loop (Lab.quiet Lab.trace_two_rates) (checkpoint (Lab.quiet Lab.trace_two_rates))
      "s1-eth2" "50ms" 0 false Lab.trace_two_rates (initial_world 0) = (Returned tt, w') /\
    0 + 5 <= clock w'.
Proof.
  split; [reflexivity | ]. split; [lab_spawns | ]. split; [lab_time_flows | ].
  destruct (playback_outlasts_offsets (Lab.quiet Lab.trace_two_rates)
              "s1-eth2" "50ms" 0 Lab.trace_two_rates (initial_world 0))
    as (w' & E & _ & D); [reflexivity | lab_spawns | lab_time_flows | ].
  exists w'. split; [exact E | ].
  apply (D 5 2000%Z). right. left. reflexivity.
Defined.

(** ** When the commands cannot be started *)

Lemma last_after {A} (l l' : list A) d : l' <> [] -> last (l ++ l') d = last l' d.
Proof.
  intros H. induction l as [|a l IH]; [reflexivity | ].
  simpl. destruct (l ++ l') eqn:E; [ | exact IH].
  apply app_eq_nil in E. destruct E as (_ & E). contradiction.
Qed.

Lemma commands_cons_print m l : commands (Printed m :: l) = commands l.
Proof. reflexivity. Qed.

(** The loop where no command can be started: it goes as far as the first
    event to apply, attempts the delete that opens the initial apply, and
    the exception of that attempt ends it. *)
Lemma event_loop_broken env e interface latency start_time rows :
  signal_at env = None ->
  (forall k c, subprocess_run env k c = SpawnFailed e) ->
  forall w,
  exists r w' l,
    event_loop env (checkpoint env) interface latency start_time false rows w = (r, w') /\
    log w' = log w ++ l /\
    match played (usable env rows) with
    | [] => r = Returned tt /\ commands l = [] /\ target_interface w' = target_interface w
    | _ :: _ =>
        r = Raised (Exc e) /\ commands l = [Tc.shell interface Tc.DelRoot] /\
        target_interface w' = Some interface
    end.
Proof.
  intros Hq Fail. pose proof (checkpoint_quiet env Hq) as CQ.
  induction rows as [|row rest IH]; intros w.
  - exists (Returned tt), w, []. simpl. rewrite app_nil_r. auto.
  - destruct (skipped_silently row) eqn:Sk.
    { rewrite (event_loop_skip env (checkpoint env) _ _ _ _ _ _ _ Sk).
      simpl usable. rewrite Sk. apply IH. }
    destruct (parse_row env row) as [[time_offset rate]|] eqn:Pr.
    2:{ rewrite (event_loop_invalid env (checkpoint env) CQ _ _ _ _ _ _ _ Sk Pr).
        simpl usable. rewrite Sk, Pr.
        destruct (IH (perform env (Printed (MsgSkipping row)) 0 w)) as (r & w' & l & E & L & M).
        exists r, w', (Printed (MsgSkipping row) :: l).
        split; [exact E | ].
        split; [rewrite L; unfold perform; cbn [log]; rewrite <- app_assoc; reflexivity | ].
        rewrite commands_cons_print. exact M. }
    rewrite (event_loop_event env (checkpoint env) _ _ _ _ _ _ _ _ _ Sk Pr).
    simpl usable. rewrite Sk, Pr. cbn [played].
    unfold bind at 1.
    destruct (sleep_until_quiet env (checkpoint env) CQ start_time time_offset w)
      as (w1 & l1 & E1 & A1 & T1 & C1 & _).
    rewrite E1.
    destruct (rate <? 0)%Z.
    { rewrite print_quiet by exact CQ. do 3 eexists. split; [reflexivity | ].
      split; [unfold perform; cbn [log]; rewrite (proj1 A1), <- app_assoc; reflexivity | ].
      rewrite commands_app, C1. auto. }
    cbn [negb]. unfold bind at 1. unfold apply_bandwidth_latency, bind at 1, set_target.
    set (w0 := {| tick := tick w1; clock := clock w1;
                  target_interface := Some interface; log := log w1 |}).
    unfold bind at 1.
    destruct (run_tc_command_failed env ("qdisc del dev " ++ interface ++ " root")%string
                w0 e Hq (Fail _ _)) as (w2 & E2 & L2 & T2 & _).
    rewrite E2.
    exists (Raised (Exc e)), w2,
      (l1 ++ [Printed (MsgExecuting (Tc.shell interface Tc.DelRoot));
              Executed (Tc.shell interface Tc.DelRoot); Printed (MsgCritical e)]).
    split; [reflexivity | ].
    split; [rewrite L2; unfold w0; cbn [log]; rewrite (proj1 A1), <- app_assoc; reflexivity | ].
    rewrite commands_app, C1. split; [reflexivity | ]. split; [reflexivity | exact T2].
Qed.

(** X9.  When no command can be started, a run that receives no signal, is
    given an interface name that is not empty and has an event to apply
    attempts two commands and no more: the delete that opens the initial
    apply, whose exception ends the loop, and the delete of the cleanup,
    whose exception stays inside the cleanup.  The failure is reported as an
    unexpected error, or as a missing trace file when the exception is a
    FileNotFoundError, and the process ends with status 0. *)
Theorem run_where_nothing_starts env e argv t0 :
  signal_at env = None ->
  (forall k c, subprocess_run env k c = SpawnFailed e) ->
  (3 <= length argv <= 4)%nat ->
  nth 1 argv ""%string <> ""%string ->
  played_of env (nth 2 argv ""%string) <> [] ->
  exists w',
    run env argv t0 = (Raised (SystemExit 0), w') /\
    commands (log w') =
      [Tc.shell (nth 1 argv ""%string) Tc.DelRoot;
       Tc.shell (nth 1 argv ""%string) Tc.DelRoot] /\
    In (match e with
        | FileNotFoundError => MsgTraceNotFound (nth 2 argv ""%string)
        | _ => MsgUnexpected e
        end) (printed (log w')) /\
    last (log w') (Opened "") = Printed (MsgCleanupFailed e).
Proof.
  intros Hq Fail Hlen Hne Hplay. pose proof (checkpoint_quiet env Hq) as CQ.
  rewrite run_unfold by assumption.
  set (w3 := started env argv t0).
  set (interface := nth 1 argv ""%string) in *.
  set (trace_file := nth 2 argv ""%string) in *.
  assert (L3 : commands (log w3) = []) by reflexivity.
  unfold played_of, rows_of in Hplay.
  unfold guarded_run, try_finally, try_except_Exception, read_and_play, read_all_rows, bind.
  rewrite CQ.
  set (w4 := perform env (Opened trace_file) 0 w3).
  assert (L4 : commands (log w4) = []) by reflexivity.
  destruct (open_csv env trace_file) as [ | x | all_rows]; try contradiction.
  destruct (rows_to_process all_rows) as [rows|]; [ | contradiction].
  destruct rows as [|row rows]; [contradiction | ].
  destruct (event_loop_broken env e interface (latency_of argv) (clock w3) (row :: rows)
              Hq Fail w4) as (r & w5 & l5 & E5 & L5 & M).
  destruct (played (usable env (row :: rows))) as [|ev evs]; [contradiction | ].
  destruct M as (-> & C5 & T5). rewrite E5.
  assert (Rep : exists r6 w6,
            on_exception env (checkpoint env) trace_file e w5 = (r6, w6) /\
            log w6 = log w5 ++ [Printed (match e with
                                         | FileNotFoundError => MsgTraceNotFound trace_file
                                         | _ => MsgUnexpected e
                                         end)] /\
            target_interface w6 = target_interface w5).
  { destruct e; unfold on_exception, bind, sys_exit, raise; rewrite print_quiet by exact CQ;
      do 2 eexists; split; reflexivity || (split; reflexivity). }
  destruct Rep as (r6 & w6 & E6 & L6 & T6). rewrite E6.
  destruct (cleanup_tc_failed env w6 interface e Hq) as (w7 & E7 & L7);
    [congruence | exact Hne | apply Fail | ].
  rewrite E7. exists w7. split; [reflexivity | ].
  rewrite L7, L6, L5.
  split; [ | split].
  - rewrite !commands_app, L4, C5. reflexivity.
  - rewrite !printed_app. apply in_or_app. left. apply in_or_app. right. left. reflexivity.
  - rewrite last_after by discriminate. reflexivity.
Qed.

Lemma run_where_nothing_starts_witness :
  signal_at (Lab.broken (Rows Lab.trace_two_rates)) = None /\
  (forall k c, subprocess_run (Lab.broken (Rows Lab.trace_two_rates)) k c
               = SpawnFailed (OtherException "OSError")) /\
  (3 <= length Lab.argv <= 4)%nat /\
  nth 1 Lab.argv ""%string <> ""%string /\
  played_of (Lab.broken (Rows Lab.trace_two_rates)) (nth 2 Lab.argv ""%string) <> [] /\
  exists w',
    run (Lab.broken (Rows Lab.trace_two_rates)) Lab.argv 0 = (Raised (SystemExit 0), w') /\
    commands (log w') =
      ["sudo tc qdisc del dev s1-eth2 root"; "sudo tc qdisc del dev s1-eth2 root"]%string.
Proof.
  split; [reflexivity | ]. split; [intros k c; reflexivity | ]. split; [simpl; lia | ].
  split; [discriminate | ]. split; [discriminate | ].
  destruct (run_where_nothing_starts (Lab.broken (Rows Lab.trace_two_rates))
              (OtherException "OSError") Lab.argv 0) as (w' & E & C & _);
    [reflexivity | intros k c; reflexivity | simpl; lia | discriminate | discriminate | ].
  exists w'. split; [exact E | exact C].
Defined.

(* ===================================================================== *)
(** * What no run does, interrupted or not *)
(* ===================================================================== *)

Section Keeps.

Variable env : Env.
Variables interface latency : string.

(** A property of log segments that holds of no event and of two segments
    in a row, and an invariant of the world that no primitive breaks. *)
Variable P : list event -> Prop.
Variable I : World -> Prop.
Hypothesis P_nil : P [].
Hypothesis P_app : forall l1 l2, P l1 -> P l2 -> P (l1 ++ l2).
Hypothesis I_perform : forall e extra w, I w -> I (perform env e extra w).
Hypothesis I_signal :
  forall w, I w -> I {| tick := S (tick w); clock := clock w;
                        target_interface := target_interface w; log := log w |}.
Hypothesis I_set : forall w, I w -> I (snd (set_target interface w)).

(** What the primitives of the script leave in the log. *)
Hypothesis P_print : forall m, P [Printed m].
Hypothesis P_open : forall path, P [Opened path].
Hypothesis P_sleep : forall d, 0 < d -> P [Slept d].
Hypothesis P_command :
  forall o, allowed latency o -> P [Executed (Tc.shell interface o)].
Hypothesis P_cleanup :
  forall w i, I w -> target_interface w = Some i -> P [Executed (Tc.shell i Tc.DelRoot)].

Lemma keeps_ret {A} (a : A) : keeps P I (ret a).
Proof. intros w Iw. split; [exact Iw | ]. exists []. simpl. rewrite app_nil_r. auto. Qed.

Lemma keeps_raise {A} e : keeps P I (@raise A e).
Proof. intros w Iw. split; [exact Iw | ]. exists []. simpl. rewrite app_nil_r. auto. Qed.

Lemma keeps_bind {A B} (m : M A) (k : A -> M B) :
  keeps P I m -> (forall a, keeps P I (k a)) -> keeps P I (bind m k).
Proof.
  intros Hm Hk w Iw. unfold bind.
  destruct (Hm w Iw) as (I1 & l1 & L1 & P1).
  destruct (m w) as [[a|e] w1]; simpl in *.
  - destruct (Hk a w1 I1) as (I2 & l2 & L2 & P2).
    split; [exact I2 | ]. exists (l1 ++ l2).
    split; [rewrite L2, L1, app_assoc; reflexivity | auto].
  - split; [exact I1 | ]. exists l1. auto.
Qed.

Lemma keeps_try_except {A} (body : M A) handler :
  keeps P I body -> (forall e, keeps P I (handler e)) ->
  keeps P I (try_except_Exception body handler).
Proof.
  intros Hb Hh w Iw. unfold try_except_Exception.
  destruct (Hb w Iw) as (I1 & l1 & L1 & P1).
  destruct (body w) as [[a|[code|e]] w1]; simpl in *.
  - split; [exact I1 | ]. exists l1. auto.
  - split; [exact I1 | ]. exists l1. auto.
  - destruct (Hh e w1 I1) as (I2 & l2 & L2 & P2).
    split; [exact I2 | ]. exists (l1 ++ l2).
    split; [rewrite L2, L1, app_assoc; reflexivity | auto].
Qed.

Lemma keeps_try_finally {A} (body : M A) final :
  keeps P I body -> keeps P I final -> keeps P I (try_finally body final).
Proof.
  intros Hb Hf w Iw. unfold try_finally.
  destruct (Hb w Iw) as (I1 & l1 & L1 & P1).
  destruct (body w) as [r w1]; simpl in *.
  destruct (Hf w1 I1) as (I2 & l2 & L2 & P2).
  assert (G : I (snd (final w1)) /\ exists l, log (snd (final w1)) = log w ++ l /\ P l).
  { split; [exact I2 | ]. exists (l1 ++ l2).
    split; [rewrite L2, L1, app_assoc; reflexivity | auto]. }
  destruct (final w1) as [[a|e] w2]; exact G.
Qed.

Lemma keeps_perform {A} (r : World -> outcome A) e extra :
  P [e] -> keeps P I (fun w => (r w, perform env e extra w)).
Proof.
  intros Pe w Iw. simpl. split; [apply I_perform, Iw | ]. exists [e]. auto.
Qed.

Section Checked.

Variable chk : M unit.
Hypothesis chk_keeps : keeps P I chk.

Lemma print_keeps m : keeps P I (print env chk m).
Proof.
  unfold print. apply keeps_bind; [exact chk_keeps | intros _].
  apply (keeps_perform (fun _ => Returned tt)), P_print.
Qed.

Lemma time_sleep_keeps d : 0 < d -> keeps P I (time_sleep env chk d).
Proof.
  intros Hd. unfold time_sleep. apply keeps_bind; [exact chk_keeps | intros _].
  apply (keeps_perform (fun _ => Returned tt)), P_sleep, Hd.
Qed.

Lemma run_tc_command_keeps command :
  P [Executed ("sudo tc " ++ command)%string] ->
  keeps P I (run_tc_command env chk command).
Proof.
  intros Pc. unfold run_tc_command.
  apply keeps_bind; [apply print_keeps | intros _].
  apply keeps_try_except.
  - apply keeps_bind.
    + unfold subprocess_run_shell. apply keeps_bind; [exact chk_keeps | intros _].
      intros w Iw. cbv beta zeta.
      destruct (subprocess_run env (tick w) ("sudo tc " ++ command)%string); simpl;
        (split; [apply I_perform, Iw | ]); eexists [_]; (split; [reflexivity | exact Pc]).
    + intros [[rc out] err].
      destruct (negb (rc =? 0)%Z); [ | apply keeps_ret].
      repeat (apply keeps_bind; [apply print_keeps | intros _]).
      destruct (_ && _); apply keeps_ret.
  - intros e. apply keeps_bind; [apply print_keeps | intros _; apply keeps_raise].
Qed.

Lemma cleanup_tc_keeps : keeps P I (cleanup_tc env chk).
Proof.
  intros w Iw. unfold cleanup_tc, bind at 1, get_target.
  assert (K : keeps P I
            ((if truthy (target_interface w) then
                print env chk (MsgCleaningUp
                                 match target_interface w with Some i => i | None => ""%string end) ;;
                try_except_Exception
                  (run_tc_command env chk
                     ("qdisc del dev "
                      ++ match target_interface w with Some i => i | None => "" end
                      ++ " root")%string ;;
                   print env chk MsgCleanupSuccessful)
                  (fun e => print env chk (MsgCleanupFailed e))
              else ret tt) ;; (sys_exit 0 : M unit))%py).
  { apply keeps_bind; [ | intros _; apply keeps_raise].
    destruct (target_interface w) as [i|] eqn:T; cbn [truthy]; [ | apply keeps_ret].
    destruct (negb (i =? "")%string); [ | apply keeps_ret].
    apply keeps_bind; [apply print_keeps | intros _].
    apply keeps_try_except; [ | intros e; apply print_keeps].
    apply keeps_bind; [ | intros _; apply print_keeps].
    apply run_tc_command_keeps. exact (P_cleanup w i Iw T). }
  exact (K w Iw).
Qed.

Lemma apply_bandwidth_latency_keeps rate_kbps :
  (0 <= rate_kbps)%Z ->
  keeps P I (apply_bandwidth_latency env chk interface rate_kbps latency).
Proof.
  intros Hr. unfold apply_bandwidth_latency.
  apply keeps_bind; [ | intros _].
  { intros w Iw. split; [apply I_set, Iw | ]. exists []. simpl. rewrite app_nil_r. auto. }
  apply keeps_bind; [apply run_tc_command_keeps, (P_command Tc.DelRoot); exact Logic.I | intros _].
  apply keeps_bind; [apply time_sleep_keeps; reflexivity | intros _].
  apply keeps_bind; [apply run_tc_command_keeps, (P_command Tc.AddRoot); exact Logic.I | intros _].
  apply keeps_bind;
    [apply run_tc_command_keeps, (P_command (Tc.AddClass rate_kbps DEFAULT_BURST_BYTES));
     split; [exact Hr | reflexivity] | intros _].
  apply keeps_bind;
    [apply run_tc_command_keeps, (P_command (Tc.AddNetem latency)); reflexivity | intros _].
  apply keeps_bind; [apply run_tc_command_keeps, (P_command Tc.AddFilter); exact Logic.I | intros _].
  apply print_keeps.
Qed.

Lemma change_bandwidth_keeps rate_kbps :
  (0 <= rate_kbps)%Z -> keeps P I (change_bandwidth env chk interface rate_kbps).
Proof.
  intros Hr. unfold change_bandwidth.
  apply keeps_bind; [ | intros _; apply print_keeps].
  apply run_tc_command_keeps, (P_command (Tc.ChangeClass rate_kbps DEFAULT_BURST_BYTES)).
  split; [exact Hr | reflexivity].
Qed.

Lemma sleep_until_keeps start_time time_offset :
  keeps P I (sleep_until env chk start_time time_offset).
Proof.
  intros w Iw.
  assert (K : keeps P I
            (if Qpositive (start_time + time_offset - clock w) then
               print env chk (MsgSleeping (start_time + time_offset - clock w)) ;;
               time_sleep env chk (start_time + time_offset - clock w)
             else ret tt)%py).
  { destruct (Qpositive (start_time + time_offset - clock w)) eqn:Pos; [ | apply keeps_ret].
    apply Qpositive_spec in Pos.
    apply keeps_bind; [apply print_keeps | intros _; apply time_sleep_keeps, Pos]. }
  exact (K w Iw).
Qed.

Lemma event_loop_keeps start_time rows :
  forall flag, keeps P I (event_loop env chk interface latency start_time flag rows).
Proof.
  induction rows as [|row rest IH]; intros flag; simpl.
  - apply keeps_ret.
  - destruct (skipped_silently row); [apply IH | ].
    destruct (parse_row env row) as [[t rate]|].
    + apply keeps_bind; [apply sleep_until_keeps | intros _].
      destruct (Z.ltb_spec rate 0) as [Neg | Pos]; [apply print_keeps | ].
      apply keeps_bind; [ | intros _; apply IH].
      destruct (negb flag);
        [apply apply_bandwidth_latency_keeps, Pos | apply change_bandwidth_keeps, Pos].
    + apply keeps_bind; [apply print_keeps | intros _; apply IH].
Qed.

Lemma guarded_run_keeps trace_file start_time :
  keeps P I (guarded_run env chk interface trace_file latency start_time).
Proof.
  unfold guarded_run. apply keeps_try_finally; [ | apply cleanup_tc_keeps].
  apply keeps_try_except.
  - unfold read_and_play. apply keeps_bind.
    + unfold read_all_rows. apply keeps_bind; [exact chk_keeps | intros _].
      intros w Iw. cbv beta zeta.
      destruct (open_csv env trace_file); simpl;
        (split; [apply I_perform, Iw | ]); eexists [_]; (split; [reflexivity | apply P_open]).
    + intros all_rows. destruct (rows_to_process all_rows) as [[|row rows]|].
      * apply keeps_bind; [apply print_keeps | intros _; apply keeps_raise].
      * apply event_loop_keeps.
      * apply keeps_raise.
  - intros e. unfold on_exception. destruct e.
    + apply keeps_bind; [apply print_keeps | intros _; apply keeps_raise].
    + apply print_keeps.
    + apply print_keeps.
Qed.

End Checked.

Lemma checkpoint_keeps : keeps P I (checkpoint env).
Proof.
  intros w Iw. unfold checkpoint.
  destruct (signal_at env) as [k|]; [ | apply (keeps_ret tt w Iw)].
  destruct (k =? tick w)%nat; [ | apply (keeps_ret tt w Iw)].
  unfold handler.
  destruct (cleanup_tc_keeps (ret tt) (keeps_ret tt) _ (I_signal w Iw)) as (I1 & l & L & Pl).
  split; [exact I1 | ]. exists l. split; [exact L | exact Pl].
Qed.

(** Every run, from a world that satisfies the invariant. *)
Lemma main_keeps argv :
  nth 1 argv ""%string = interface -> latency_of argv = latency ->
  keeps P I (main env argv).
Proof.
  intros Hi Hl. unfold main. rewrite Hi, Hl.
  destruct ((length argv <? 3)%nat || (4 <? length argv)%nat).
  - apply keeps_bind; [apply (print_keeps (ret tt) (keeps_ret tt)) | intros _].
    apply keeps_bind; [apply (print_keeps (ret tt) (keeps_ret tt)) | intros _].
    apply keeps_raise.
  - pose proof checkpoint_keeps as C.
    apply keeps_bind; [apply (print_keeps _ C) | intros _].
    apply keeps_bind; [apply (print_keeps _ C) | intros _].
    apply keeps_bind; [apply (print_keeps _ C) | intros _].
    apply keeps_bind; [ | intros start_time; apply guarded_run_keeps, C].
    intros w Iw. split; [exact Iw | ]. exists []. simpl. rewrite app_nil_r. auto.
Qed.

End Keeps.

(** X10.  Whatever the trace holds, whatever the commands answer and
    whenever a signal arrives, every command a run executes is [sudo tc]
    followed by one of the six forms of the script on the interface named
    on the command line: a rate is never negative, the burst is always
    15000 bytes, and the delay is the configured latency. *)
Theorem commands_stay_in_the_grammar (env : Env) (argv : list string) (t0 : Q) :
  on_interface (nth 1 argv ""%string) (latency_of argv) (log (snd (run env argv t0))).
Proof.
  set (interface := nth 1 argv ""%string). set (latency := latency_of argv).
  destruct (main_keeps env interface latency
              (on_interface interface latency) (targets interface)) with
    (argv := argv) (w := initial_world t0) as (_ & l & L & Pl).
  - constructor.
  - intros l1 l2 H1 H2. unfold on_interface in *. rewrite commands_app.
    apply Forall_app. split; assumption.
  - intros e extra w H. exact H.
  - intros w H. exact H.
  - intros w _. right. reflexivity.
  - intros m. constructor.
  - intros path. constructor.
  - intros d _. constructor.
  - intros o Ho. constructor; [ | constructor]. exists o. split; [exact Ho | reflexivity].
  - intros w i [N | S] T; rewrite T in *; [discriminate | ].
    injection S as ->. constructor; [ | constructor].
    exists Tc.DelRoot. split; [exact Logic.I | reflexivity].
  - reflexivity.
  - reflexivity.
  - left. reflexivity.
  - unfold run. rewrite L. exact Pl.
Qed.

(** X11.  No run ever sleeps for a time that is not positive, whatever
    the offsets of the trace, the clock and the signal: an event that is
    already due is played without a call of [time.sleep]. *)
Theorem no_sleep_is_non_positive (env : Env) (argv : list string) (t0 : Q) :
  positive_sleeps (log (snd (run env argv t0))).
Proof.
  destruct (main_keeps env (nth 1 argv ""%string) (latency_of argv)
              positive_sleeps (fun _ => True)) with
    (argv := argv) (w := initial_world t0) as (_ & l & L & Pl).
  - constructor.
  - intros l1 l2 H1 H2. unfold positive_sleeps in *. rewrite sleeps_app.
    apply Forall_app. split; assumption.
  - intros; exact Logic.I.
  - intros; exact Logic.I.
  - intros; exact Logic.I.
  - intros m. constructor.
  - intros path. constructor.
  - intros d Hd. constructor; [exact Hd | constructor].
  - intros o _. constructor.
  - intros w i _ _. constructor.
  - reflexivity.
  - reflexivity.
  - exact Logic.I.
  - unfold run. rewrite L. exact Pl.
Qed.

(* ===================================================================== *)
(** * The converter *)
(* ===================================================================== *)

Lemma kept_cons line lines :
  Converter.kept (line :: lines) =
  if Converter.skipped line then Converter.kept lines else line :: Converter.kept lines.
Proof. unfold Converter.kept. simpl. destruct (Converter.skipped line); reflexivity. Qed.

Lemma kept_app l1 l2 :
  Converter.kept (l1 ++ l2) = Converter.kept l1 ++ Converter.kept l2.
Proof. unfold Converter.kept. apply filter_app. Qed.

(** The loop over lines that all convert: one numbered row each. *)
Lemma for_lines_converted env broken :
  forall lines ts counter log,
    Forall2 (Converter.converts env) (Converter.kept lines) ts ->
    Converter.for_lines env broken counter lines log =
    (match broken with
     | Some e => Raised (Exc e)
     | None => Returned (counter + Z.of_nat (length ts))%Z
     end,
     log ++ map Converter.Wrote (Converter.numbered counter ts)).
Proof.
  induction lines as [|line rest IH]; intros ts counter log H.
  - inversion H; subst. simpl. rewrite Z.add_0_r, app_nil_r. destruct broken; reflexivity.
  - rewrite kept_cons in H. simpl. destruct (Converter.skipped line).
    + apply IH, H.
    + inversion H as [|? t ? ts' C F]; subst. unfold Converter.converts in C. rewrite C.
      rewrite (IH ts' (counter + 1)%Z _ F). cbn [length Converter.numbered map].
      rewrite <- app_assoc. cbn [app].
      replace (counter + 1 + Z.of_nat (length ts'))%Z
        with (counter + Z.of_nat (S (length ts')))%Z by lia.
      reflexivity.
Qed.

(** The loop over two stretches of lines. *)
Lemma for_lines_app env broken l1 l2 :
  forall counter log,
    Converter.for_lines env broken counter (l1 ++ l2) log =
    match Converter.for_lines env None counter l1 log with
    | (Returned c, log') => Converter.for_lines env broken c l2 log'
    | r => r
    end.
Proof.
  induction l1 as [|line rest IH]; intros counter log; simpl.
  - reflexivity.
  - destruct (Converter.skipped line); [apply IH | ].
    destruct (Converter.throughput_of env (PyStr.strip line)); [reflexivity | apply IH].
Qed.

(** The loop adds nothing but writes to the log. *)
Lemma for_lines_writes env broken :
  forall lines counter log,
    exists ws, snd (Converter.for_lines env broken counter lines log)
               = log ++ map Converter.Wrote ws.
Proof.
  induction lines as [|line rest IH]; intros counter log; simpl.
  - exists []. rewrite app_nil_r. destruct broken; reflexivity.
  - destruct (Converter.skipped line); [apply IH | ].
    destruct (Converter.throughput_of env (PyStr.strip line)) as [e | t].
    + exists []. rewrite app_nil_r. reflexivity.
    + destruct (IH (counter + 1)%Z (log ++ [Converter.Wrote (Converter.row counter t)]))
        as (ws & E).
      exists (Converter.row counter t :: ws). rewrite E, <- app_assoc. reflexivity.
Qed.

(** The loop ends without an exception exactly when the reading does and
    every line it keeps converts; it never raises [SystemExit]. *)
Lemma for_lines_returns env broken :
  forall lines counter log,
    match fst (Converter.for_lines env broken counter lines log) with
    | Returned _ =>
        broken = None /\
        Forall (fun line => exists t, Converter.converts env line t) (Converter.kept lines)
    | Raised (Exc _) =>
        ~ (broken = None /\
           Forall (fun line => exists t, Converter.converts env line t)
                  (Converter.kept lines))
    | Raised (SystemExit _) => False
    end.
Proof.
  induction lines as [|line rest IH]; intros counter log.
  - simpl. destruct broken; simpl.
    + intros [N _]. discriminate.
    + split; [reflexivity | constructor].
  - rewrite kept_cons. simpl. destruct (Converter.skipped line); [apply IH | ].
    destruct (Converter.throughput_of env (PyStr.strip line)) as [e | t] eqn:T.
    + simpl. intros [_ F]. inversion F as [|? ? [t C] ?]; subst.
      unfold Converter.converts in C. congruence.
    + specialize (IH (counter + 1)%Z (log ++ [Converter.Wrote (Converter.row counter t)])).
      destruct (fst (Converter.for_lines env broken (counter + 1) rest
                       (log ++ [Converter.Wrote (Converter.row counter t)])))
        as [c | [code | e]].
      * destruct IH as [N F]. split; [exact N | ].
        constructor; [exists t; exact T | exact F].
      * exact IH.
      * intros [N F]. apply IH. split; [exact N | ]. inversion F; assumption.
Qed.

(** A skipped line changes nothing in the loop. *)
Lemma for_lines_skip env broken s l1 l2 :
  Converter.skipped s = true ->
  forall counter log,
    Converter.for_lines env broken counter (l1 ++ s :: l2) log =
    Converter.for_lines env broken counter (l1 ++ l2) log.
Proof.
  intros S. induction l1 as [|line rest IH]; intros counter log; simpl.
  - rewrite S. reflexivity.
  - destruct (Converter.skipped line); [apply IH | ].
    destruct (Converter.throughput_of env (PyStr.strip line)); [reflexivity | apply IH].
Qed.

Lemma length_3 (argv : list string) :
  length argv = 3%nat -> negb (length argv =? 3)%nat = false.
Proof. intros ->. reflexivity. Qed.

(** X12.  When both files open and every line that is not blank and does
    not start with [#] or [UL] converts, the converter writes the header
    and then one row per such line, in the order of the input and numbered
    0, 1, 2, ... whatever was skipped in between; it reports as many
    seconds as it wrote rows and ends with status 0. *)
Theorem conversion_numbers_the_data_lines (env : Converter.Env) (argv : list string)
    (lines : list string) (ts : list Z) :
  length argv = 3%nat ->
  Converter.open_input env (nth 1 argv ""%string) = Converter.Lines lines None ->
  Converter.open_output env (nth 2 argv ""%string) = None ->
  Forall2 (Converter.converts env) (Converter.kept lines) ts ->
  Converter.main env argv =
  (Returned tt,
   Converter.Truncated (nth 2 argv ""%string)
   :: Converter.Wrote Converter.header
   :: map Converter.Wrote (Converter.numbered 0 ts)
   ++ [Converter.Printed
         (Converter.MsgConverted (nth 1 argv ""%string) (nth 2 argv ""%string)
                                 (Z.of_nat (length ts)))]).
Proof.
  intros L I O F. unfold Converter.main, Converter.convert.
  rewrite (length_3 _ L), I, O.
  rewrite (for_lines_converted env None lines ts 0 _ F). cbn [app].
  rewrite Z.add_0_l. reflexivity.
Qed.

Lemma conversion_numbers_the_data_lines_witness :
  Converter.main
    (Converter.lab ["# Mbps"; "1.5"; ""; "UL 3"; " 2 "; "0.25"]%string) Converter.argv =
  (Returned tt,
   [Converter.Truncated "converted.csv";
    Converter.Wrote Converter.header;
    Converter.Wrote (Converter.row 0 1500);
    Converter.Wrote (Converter.row 1 2000);
    Converter.Wrote (Converter.row 2 250);
    Converter.Printed (Converter.MsgConverted "trace.csv" "converted.csv" 3)]).
Proof.
  apply (conversion_numbers_the_data_lines
           (Converter.lab ["# Mbps"; "1.5"; ""; "UL 3"; " 2 "; "0.25"]%string)
           Converter.argv ["# Mbps"; "1.5"; ""; "UL 3"; " 2 "; "0.25"]%string
           [1500; 2000; 250]%Z).
  - reflexivity.
  - reflexivity.
  - reflexivity.
  - change (Converter.kept ["# Mbps"; "1.5"; ""; "UL 3"; " 2 "; "0.25"]%string)
      with ["1.5"; " 2 "; "0.25"]%string.
    repeat (constructor; [vm_compute; reflexivity | ]). constructor.
Defined.

(** X13.  The conversion stops at the first line that is not skipped and
    that [float] or [int] refuses: the output file is left with the header
    and the rows of the lines before it, nothing of what follows is
    converted, the error is printed in place of the success message and the
    status is 1. *)
Theorem conversion_stops_at_bad_line (env : Converter.Env) (argv : list string)
    (before after : list string) (bad : string) (broken : option exception)
    (ts : list Z) (e : exception) :
  length argv = 3%nat ->
  Converter.open_input env (nth 1 argv ""%string)
    = Converter.Lines (before ++ bad :: after) broken ->
  Converter.open_output env (nth 2 argv ""%string) = None ->
  Forall2 (Converter.converts env) (Converter.kept before) ts ->
  Converter.skipped bad = false ->
  Converter.throughput_of env (PyStr.strip bad) = inl e ->
  Converter.main env argv =
  (Raised (SystemExit 1),
   Converter.Truncated (nth 2 argv ""%string)
   :: Converter.Wrote Converter.header
   :: map Converter.Wrote (Converter.numbered 0 ts)
   ++ [Converter.Printed (Converter.MsgError e)]).
Proof.
  intros L I O F S T. unfold Converter.main, Converter.convert.
  rewrite (length_3 _ L), I, O.
  rewrite for_lines_app, (for_lines_converted env None before ts 0 _ F).
  simpl. rewrite S, T. reflexivity.
Qed.

Lemma conversion_stops_at_bad_line_witness :
  Converter.main
    (Converter.lab ["1.5"; " # indented"; "2"]%string) Converter.argv =
  (Raised (SystemExit 1),
   [Converter.Truncated "converted.csv";
    Converter.Wrote Converter.header;
    Converter.Wrote (Converter.row 0 1500);
    Converter.Printed (Converter.MsgError (OtherException "ValueError"))]).
Proof.
  apply (conversion_stops_at_bad_line
           (Converter.lab ["1.5"; " # indented"; "2"]%string) Converter.argv
           ["1.5"%string] ["2"%string] " # indented"%string None [1500%Z]
           (OtherException "ValueError")).
  - reflexivity.
  - reflexivity.
  - reflexivity.
  - change (Converter.kept ["1.5"%string]) with ["1.5"%string].
    constructor; [vm_compute; reflexivity | constructor].
  - reflexivity.
  - reflexivity.
Defined.

(** X14.  A line that is blank or starts with [#] or [UL] takes no time
    slot: with or without it, anywhere in the input, the run of the
    converter is the same, so the rows after it keep their numbers. *)
Theorem skipped_lines_take_no_slot (env : Converter.Env) (argv : list string)
    (l1 l2 : list string) (s : string) (broken : option exception) :
  Converter.skipped s = true ->
  Converter.main (Converter.with_input env (Converter.Lines (l1 ++ s :: l2) broken)) argv =
  Converter.main (Converter.with_input env (Converter.Lines (l1 ++ l2) broken)) argv.
Proof.
  intros S. unfold Converter.main, Converter.convert.
  destruct (negb (length argv =? 3)%nat); [reflexivity | ].
  cbn [Converter.with_input Converter.open_input Converter.open_output].
  destruct (Converter.open_output env (nth 2 argv ""%string)); [reflexivity | ].
  rewrite (for_lines_skip _ broken s l1 l2 S). reflexivity.
Qed.

Lemma skipped_lines_take_no_slot_witness :
  Converter.main
    (Converter.with_input (Converter.lab [])
       (Converter.Lines (["1.5"%string] ++ "UL,DL"%string :: ["2"%string]) None))
    Converter.argv =
  Converter.main
    (Converter.with_input (Converter.lab [])
       (Converter.Lines (["1.5"%string] ++ ["2"%string]) None)) Converter.argv.
Proof.
  apply (skipped_lines_take_no_slot (Converter.lab []) Converter.argv
           ["1.5"%string] ["2"%string] "UL,DL"%string None).
  reflexivity.
Defined.

(** X15.  The converter creates or empties a file only when it was given
    two file names and could open both, and then it is the file named
    second: a wrong number of arguments or an input file that cannot be
    opened leaves the output file as it was. *)
Theorem output_touched_iff_both_open (env : Converter.Env) (argv : list string)
    (path : string) :
  In (Converter.Truncated path) (snd (Converter.main env argv)) <->
  length argv = 3%nat /\ path = nth 2 argv ""%string /\
  (exists lines broken,
      Converter.open_input env (nth 1 argv ""%string) = Converter.Lines lines broken) /\
  Converter.open_output env path = None.
Proof.
  assert (W : forall ws l,
             In (Converter.Truncated path) (l ++ map Converter.Wrote ws) ->
             In (Converter.Truncated path) l).
  { intros ws l H. apply in_app_or in H. destruct H as [H | H]; [exact H | ].
    apply in_map_iff in H. destruct H as (x & E & _). discriminate. }
  unfold Converter.main, Converter.convert.
  destruct (Nat.eqb_spec (length argv) 3) as [L | L]; cbn [negb].
  - destruct (Converter.open_input env (nth 1 argv ""%string)) as [e | lines broken] eqn:I.
    + simpl. split.
      * intros [H | []]. discriminate.
      * intros (_ & _ & (ls & b & E) & _). discriminate.
    + destruct (Converter.open_output env (nth 2 argv ""%string)) as [e | ] eqn:O.
      * simpl. split.
        -- intros [H | []]. discriminate.
        -- intros (_ & -> & _ & E). congruence.
      * destruct (for_lines_writes env broken lines 0
                    ([] ++ [Converter.Truncated (nth 2 argv ""%string);
                            Converter.Wrote Converter.header])) as (ws & E).
        split.
        -- intros H.
           assert (G : In (Converter.Truncated path)
                         (snd (Converter.for_lines env broken 0 lines
                                 ([] ++ [Converter.Truncated (nth 2 argv ""%string);
                                         Converter.Wrote Converter.header])))).
           { destruct (Converter.for_lines env broken 0 lines _) as [[c | [code | e]] log];
               simpl in H |- *.
             - apply in_app_or in H. destruct H as [H | [H | []]]; [exact H | discriminate].
             - exact H.
             - apply in_app_or in H. destruct H as [H | [H | []]]; [exact H | discriminate]. }
           rewrite E in G. apply W in G. destruct G as [G | [G | []]]; [ | discriminate].
           injection G as <-. repeat split; [exact L | | exact O]. exists lines, broken.
           reflexivity.
        -- intros (_ & -> & _ & _).
           assert (G : In (Converter.Truncated (nth 2 argv ""%string))
                         (snd (Converter.for_lines env broken 0 lines
                                 ([] ++ [Converter.Truncated (nth 2 argv ""%string);
                                         Converter.Wrote Converter.header])))).
           { rewrite E. apply in_or_app. left. left. reflexivity. }
           destruct (Converter.for_lines env broken 0 lines _) as [[c | [code | e]] log];
             simpl in G |- *.
           ++ apply in_or_app. left. exact G.
           ++ exact G.
           ++ apply in_or_app. left. exact G.
  - simpl. split.
    + intros [H | [H | []]]; discriminate.
    + intros (E & _). contradiction.
Qed.


(* ===================================================================== *)
(** * A signal during the start-up *)
(* ===================================================================== *)

(** X17.  A signal that arrives while the script starts up, before the
    trace file is opened, ends the run at once with status 0: the log holds
    the lines of the banner printed until then and nothing else, so no file
    was opened, no command executed and nothing torn down. *)
Theorem interrupt_during_startup (env : Env) (argv : list string) (t0 : Q) (k : nat) :
  (3 <= length argv <= 4)%nat ->
  signal_at env = Some k ->
  (k <= 3)%nat ->
  fst (run env argv t0) = Raised (SystemExit 0) /\
  log (snd (run env argv t0)) =
  firstn k [Printed (MsgStarting (nth 1 argv ""%string));
            Printed (MsgUsingTrace (nth 2 argv ""%string));
            Printed (MsgApplyingLatency (latency_of argv))].
Proof.
  intros V S K. unfold run, main.
  assert (E : (length argv <? 3)%nat || (4 <? length argv)%nat = false).
  { apply Bool.orb_false_iff. split; apply Nat.ltb_ge; lia. }
  rewrite E.
  unfold guarded_run, read_and_play, read_all_rows, try_finally, try_except_Exception,
    print, bind, time_time, checkpoint, handler, cleanup_tc, get_target, sys_exit, raise,
    ret, initial_world, perform.
  rewrite S. cbn [tick target_interface log clock truthy].
  destruct k as [|[|[|[|k]]]]; [ | | | | lia]; cbn; split; reflexivity.
Qed.

Lemma interrupt_during_startup_witness :
  fst (run (Lab.env (Rows Lab.trace_two_rates) (Some 2%nat)) Lab.argv 0)
  = Raised (SystemExit 0) /\
  log (snd (run (Lab.env (Rows Lab.trace_two_rates) (Some 2%nat)) Lab.argv 0)) =
  firstn 2 [Printed (MsgStarting (nth 1 Lab.argv ""%string));
            Printed (MsgUsingTrace (nth 2 Lab.argv ""%string));
            Printed (MsgApplyingLatency (latency_of Lab.argv))].
Proof.
  apply (interrupt_during_startup (Lab.env (Rows Lab.trace_two_rates) (Some 2%nat))
           Lab.argv 0 2).
  - simpl. lia.
  - reflexivity.
  - lia.
Defined.
